(** * TaxiBot document tax pipeline: a shallow embedding and its properties

    The development follows [src/express-api/index.js] (tax rule search,
    document processing, tax calculators, special regimes, compliance
    validation) and the NFe parser module (structure validation before the
    SEFAZ call).

    Modelling conventions.
    - A JavaScript number is an exact rational ([Qc]); NaN, the infinities
      and the rounding of binary64 are outside the model.  The arithmetic
      of the NFE calculator is also written once over binary64
      ([calculateNFETaxes_binary64]) to evaluate the documented example.
    - A JavaScript string is the sequence of its UTF-8 bytes, so [===] on
      strings is equality of [string]s.  Literals are the bytes of the
      source file.
    - Objects that the code creates or updates live in a store ([heap]);
      a reference is an index into it.  Every function runs in the monad
      [M]: it threads the store, the log, the database and the list of
      SEFAZ requests, and ends by returning or by throwing.
    - [async]/[await] is sequential inside one run and is modelled as
      sequencing in [M].
    - A document is read through the typed record [DocumentRecord] of the
      data model.  Where the code would go on with a value outside the
      data model, through JavaScript's dynamic coercions, the run ends
      as [Unmodelled].
    - External collaborators (Textract, the chat model, Brave search, the
      embedding similarity, the database driver, the SEFAZ endpoint, the
      engine's [toLowerCase]) are the fields of an environment [Env]. *)

From Stdlib Require Import Ascii String QArith Qcanon Lqa Sorted PrimFloat.
From stdpp Require Import gmap strings list fin_maps.

Set Warnings "-register-all,-clear-no-such-hyp,-inexact-float".

Local Open Scope string_scope.
Local Open Scope Qc_scope.

(** ** Numbers *)

(** The decimal literal [m]e-[e], e.g. [dec 165 4] for [0.0165]. *)
Definition dec (m : Z) (e : nat) : Qc := Q2Qc (m # Z.to_pos (10 ^ Z.of_nat e)).

Definition num (n : Z) : Qc := Q2Qc (inject_Z n).

(** ** JSON values, as [JSON.parse] produces them *)

Inductive json :=
| JNull
| JBool (b : bool)
| JNum (q : Qc)
| JStr (s : string)
| JArr (items : list json)
| JObj (members : list (string * json)).

(** ToBoolean on a JSON value. *)
Definition truthy (v : json) : bool :=
  match v with
  | JNull => false
  | JBool b => b
  | JNum q => if decide (q = 0) then false else true
  | JStr s => if decide (s = "") then false else true
  | JArr _ | JObj _ => true
  end.

(** [v === s] for a string literal [s]. *)
Definition strict_eq_str (v : option json) (s : string) : bool :=
  match v with
  | Some (JStr t) => if decide (t = s) then true else false
  | _ => false
  end.

(** ** [JSON.parse]

    A recursive-descent reader of the JSON grammar (ECMA-404): the four
    whitespace characters, the three literals, numbers as exact rationals,
    strings with their escapes, arrays and objects.  The fuel bounds the
    depth of the descent by the length of the text. *)

Module JSON.

Definition quote : ascii := ascii_of_nat 34.
Definition backslash : ascii := ascii_of_nat 92.

Definition is_ws (a : ascii) : bool :=
  let n := nat_of_ascii a in
  (n =? 32)%nat || (n =? 9)%nat || (n =? 10)%nat || (n =? 13)%nat.

Fixpoint skip_ws (s : string) : string :=
  match s with
  | String a r => if is_ws a then skip_ws r else s
  | EmptyString => s
  end.

Definition digit (a : ascii) : option Z :=
  let n := nat_of_ascii a in
  if (48 <=? n)%nat && (n <=? 57)%nat then Some (Z.of_nat (n - 48)) else None.

Definition hex_digit (a : ascii) : option N :=
  let n := nat_of_ascii a in
  if (48 <=? n)%nat && (n <=? 57)%nat then Some (N.of_nat (n - 48))
  else if (65 <=? n)%nat && (n <=? 70)%nat then Some (N.of_nat (n - 55))
  else if (97 <=? n)%nat && (n <=? 102)%nat then Some (N.of_nat (n - 87))
  else None.

(** The longest prefix of digits: its value, its length, the rest. *)
Fixpoint digits (acc : Z) (count : nat) (s : string) : Z * nat * string :=
  match s with
  | String a r =>
      match digit a with
      | Some d => digits (10 * acc + d) (S count) r
      | None => (acc, count, s)
      end
  | EmptyString => (acc, count, s)
  end.

(** [m * 10^e] *)
Definition scale (m e : Z) : Qc :=
  if (0 <=? e)%Z then Q2Qc (inject_Z (m * 10 ^ e))
  else Q2Qc (m # Z.to_pos (10 ^ (- e))).

Definition parse_exponent (s : string) : option (Z * string) :=
  match s with
  | String a r =>
      if bool_decide (a = "e"%char) || bool_decide (a = "E"%char) then
        let '(sign, r) :=
          match r with
          | String "+" r' => (1%Z, r')
          | String "-" r' => ((-1)%Z, r')
          | _ => (1%Z, r)
          end in
        let '(e, n, r) := digits 0 0 r in
        if (n =? 0)%nat then None else Some ((sign * e)%Z, r)
      else Some (0%Z, s)
  | EmptyString => Some (0%Z, s)
  end.

Definition parse_fraction (s : string) : option (Z * nat * string) :=
  match s with
  | String "." r =>
      let '(f, n, r) := digits 0 0 r in
      if (n =? 0)%nat then None else Some (f, n, r)
  | _ => Some (0%Z, 0%nat, s)
  end.

(** An optional minus, an integer part without a leading zero, an
    optional fraction and an optional exponent. *)
Definition parse_number (s : string) : option (Qc * string) :=
  let '(sign, s) :=
    match s with
    | String "-" r => ((-1)%Z, r)
    | _ => (1%Z, s)
    end in
  let '(i, n, r) := digits 0 0 s in
  if (n =? 0)%nat then None
  else if (1 <? n)%nat && bool_decide (String.get 0 s = Some "0"%char) then None
  else
    '(f, fn, r) ← parse_fraction r;
    '(e, r) ← parse_exponent r;
    Some (scale (sign * (i * 10 ^ Z.of_nat fn + f)) (e - Z.of_nat fn), r).

Definition byte (n : N) : ascii := ascii_of_N n.

(** UTF-8 for a code point; a lone surrogate is encoded like any other
    three-byte code point. *)
Definition utf8 (cp : N) : string :=
  if (cp <? 128)%N then String (byte cp) ""
  else if (cp <? 2048)%N then
    String (byte (192 + cp / 64)) (String (byte (128 + cp mod 64)) "")
  else if (cp <? 65536)%N then
    String (byte (224 + cp / 4096))
      (String (byte (128 + (cp / 64) mod 64)) (String (byte (128 + cp mod 64)) ""))
  else
    String (byte (240 + cp / 262144))
      (String (byte (128 + (cp / 4096) mod 64))
         (String (byte (128 + (cp / 64) mod 64)) (String (byte (128 + cp mod 64)) ""))).

Definition hex4 (s : string) : option (N * string) :=
  match s with
  | String a (String b (String c (String d r))) =>
      x ← hex_digit a; y ← hex_digit b; z ← hex_digit c; t ← hex_digit d;
      Some (((x * 16 + y) * 16 + z) * 16 + t, r)%N
  | _ => None
  end.

(** After [\u]: one code unit, or a surrogate pair. *)
Definition parse_unicode (s : string) : option (string * string) :=
  '(hi, r) ← hex4 s;
  if (55296 <=? hi)%N && (hi <? 56320)%N then
    match r with
    | String b (String "u" r') =>
        match hex4 r' with
        | Some (lo, r'') =>
            if bool_decide (b = backslash) && (56320 <=? lo)%N && (lo <? 57344)%N
            then Some (utf8 (65536 + (hi - 55296) * 1024 + (lo - 56320)), r'')
            else Some (utf8 hi, r)
        | None => Some (utf8 hi, r)
        end
    | _ => Some (utf8 hi, r)
    end
  else Some (utf8 hi, r).

(** The characters of a string literal, after its opening quote. *)
Fixpoint parse_chars (fuel : nat) (s : string) : option (string * string) :=
  match fuel with
  | O => None
  | S fuel =>
      match s with
      | EmptyString => None
      | String a r =>
          if bool_decide (a = quote) then Some ("", r)
          else if bool_decide (a = backslash) then
            match r with
            | String e r' =>
                let simple (c : ascii) :=
                  '(t, rest) ← parse_chars fuel r'; Some (String c t, rest) in
                if bool_decide (e = quote) then simple quote
                else if bool_decide (e = backslash) then simple backslash
                else if bool_decide (e = "/"%char) then simple "/"%char
                else if bool_decide (e = "b"%char) then simple (ascii_of_nat 8)
                else if bool_decide (e = "f"%char) then simple (ascii_of_nat 12)
                else if bool_decide (e = "n"%char) then simple (ascii_of_nat 10)
                else if bool_decide (e = "r"%char) then simple (ascii_of_nat 13)
                else if bool_decide (e = "t"%char) then simple (ascii_of_nat 9)
                else if bool_decide (e = "u"%char) then
                  '(u, r'') ← parse_unicode r';
                  '(t, rest) ← parse_chars fuel r'';
                  Some (u +:+ t, rest)
                else None
            | EmptyString => None
            end
          else if (nat_of_ascii a <? 32)%nat then None
          else '(t, rest) ← parse_chars fuel r; Some (String a t, rest)
      end
  end.

Definition parse_string (s : string) : option (string * string) :=
  parse_chars (S (String.length s)) s.

Definition literal (word : string) (v : json) (s : string) : option (json * string) :=
  if String.prefix word s
  then Some (v, String.substring (String.length word) (String.length s - String.length word) s)
  else None.

Fixpoint parse_value (fuel : nat) (s : string) : option (json * string) :=
  match fuel with
  | O => None
  | S fuel =>
      match s with
      | String "n" _ => literal "null" JNull s
      | String "t" _ => literal "true" (JBool true) s
      | String "f" _ => literal "false" (JBool false) s
      | String "[" r =>
          match skip_ws r with
          | String "]" rest => Some (JArr [], rest)
          | r' => '(items, rest) ← parse_elements fuel r'; Some (JArr items, rest)
          end
      | String "{" r =>
          match skip_ws r with
          | String "}" rest => Some (JObj [], rest)
          | r' => '(ms, rest) ← parse_members fuel r'; Some (JObj ms, rest)
          end
      | String a r =>
          if bool_decide (a = quote)
          then '(t, rest) ← parse_string r; Some (JStr t, rest)
          else '(q, rest) ← parse_number s; Some (JNum q, rest)
      | EmptyString => None
      end
  end
with parse_elements (fuel : nat) (s : string) : option (list json * string) :=
  match fuel with
  | O => None
  | S fuel =>
      '(v, r) ← parse_value fuel (skip_ws s);
      match skip_ws r with
      | String "," r' => '(vs, rest) ← parse_elements fuel r'; Some (v :: vs, rest)
      | String "]" rest => Some ([v], rest)
      | _ => None
      end
  end
with parse_members (fuel : nat) (s : string) : option (list (string * json) * string) :=
  match fuel with
  | O => None
  | S fuel =>
      match skip_ws s with
      | String a r =>
          if bool_decide (a = quote) then
            '(k, r) ← parse_string r;
            match skip_ws r with
            | String ":" r =>
                '(v, r) ← parse_value fuel (skip_ws r);
                match skip_ws r with
                | String "," r' =>
                    '(ms, rest) ← parse_members fuel r'; Some ((k, v) :: ms, rest)
                | String "}" rest => Some ([(k, v)], rest)
                | _ => None
                end
            | _ => None
            end
          else None
      | EmptyString => None
      end
  end.

(** [JSON.parse(text)]: [None] stands for the SyntaxError. *)
Definition parse (text : string) : option json :=
  match parse_value (2 * String.length text + 2) (skip_ws text) with
  | Some (v, rest) => if bool_decide (skip_ws rest = "") then Some v else None
  | None => None
  end.

End JSON.

(** ** Data model *)

Record DocumentRecord := mkDocumentRecord {
  documentType : option string;
  totalValue : option Qc;
  state : option string;
  municipality : option string;
  operationType : option string;
  taxInfo : option (gmap string json)
}.

(** A document returned by the vector store: [{pageContent, metadata: {source}}]. *)
Record TaxRuleExcerpt := mkExcerpt {
  pageContent : string;
  source : option string
}.

(** References are positions in the store. *)
Abbreviation loc := nat (only parsing).

(** [{baseValue, taxes}]: [taxes] is a reference to the object of amounts. *)
Record TaxCalculation := mkTaxCalculation {
  baseValue : Qc;
  taxes : loc
}.

(** What a calculator call can evaluate to. *)
Inductive value :=
| VRef (l : loc)
| VStr (s : string).

Inductive cell :=
| CDoc (d : DocumentRecord)
| CRules (rs : list TaxRuleExcerpt)
| CCalc (c : TaxCalculation)
| CTaxes (t : gmap string Qc)
| CChars (s : string).   (* [{...s}] for a primitive string [s] *)

(** ** Errors, log and the state of a run *)

Inductive exn :=
| TypeError (msg : string)
| SyntaxError
| Error (msg : string)
| ServiceError (service : string).

Inductive level := info | error.

Record logEntry := mkLog { lvl : level; message : string }.

(** A row of the [documents] table. *)
Record dbRow := mkRow {
  row_userId : Z;
  row_documentType : option string;
  row_totalValue : Qc;
  row_state : string;
  row_municipality : string;
  row_rawData : DocumentRecord
}.

Record world := mkWorld {
  heap : list cell;
  log : list logEntry;
  documents : list dbRow;
  requests : list string
}.

Inductive outcome (A : Type) :=
| Returned (a : A)
| Thrown (e : exn)
| Unmodelled.
Arguments Returned {A} a.
Arguments Thrown {A} e.
Arguments Unmodelled {A}.

Definition M (A : Type) : Type := world -> outcome A * world.

Definition ret {A} (a : A) : M A := fun w => (Returned a, w).

Definition bind {A B} (m : M A) (k : A -> M B) : M B :=
  fun w =>
    match m w with
    | (Returned a, w') => k a w'
    | (Thrown e, w') => (Thrown e, w')
    | (Unmodelled, w') => (Unmodelled, w')
    end.

Definition throw {A} (e : exn) : M A := fun w => (Thrown e, w).

Definition unmodelled {A} : M A := fun w => (Unmodelled, w).

(** [try { m } catch (e) { h e }] *)
Definition try_catch {A} (m : M A) (h : exn -> M A) : M A :=
  fun w =>
    match m w with
    | (Thrown e, w') => h e w'
    | r => r
    end.

Global Instance M_ret : MRet M := @ret.
Global Instance M_bind : MBind M := fun A B k m => bind m k.

Definition logger (l : level) (msg : string) : M unit :=
  fun w => (Returned tt,
            mkWorld (heap w) (log w ++ [mkLog l msg]) (documents w) (requests w)).

Definition append_row (r : dbRow) : M unit :=
  fun w => (Returned tt,
            mkWorld (heap w) (log w) (documents w ++ [r]) (requests w)).

Definition record_request (url : string) : M unit :=
  fun w => (Returned tt,
            mkWorld (heap w) (log w) (documents w) (requests w ++ [url])).

(** Object creation: the new object gets the next free reference. *)
Definition alloc (c : cell) : M loc :=
  fun w => (Returned (length (heap w)),
            mkWorld (heap w ++ [c]) (log w) (documents w) (requests w)).

Definition store (l : loc) (c : cell) : M unit :=
  fun w => (Returned tt,
            mkWorld (<[l := c]> (heap w)) (log w) (documents w) (requests w)).

Definition deref (l : loc) : M cell :=
  fun w => match heap w !! l with
           | Some c => (Returned c, w)
           | None => (Unmodelled, w)
           end.

(** Reading the fields of [documentData]: the argument must refer to a
    document record. *)
Definition readDoc (documentData : loc) : M DocumentRecord :=
  c ← deref documentData;
  match c with
  | CDoc d => ret d
  | _ => unmodelled
  end.

(** ** Rate tables *)

Record icmsRates := mkRates { standard : Qc; reduced : Qc }.

(** [x || dflt] on an optional string. *)
Definition str_or (x : option string) (dflt : string) : string :=
  match x with
  | Some s => if decide (s = "") then dflt else s
  | None => dflt
  end.

(** [x || 0] on an optional number. *)
Definition num_or_0 (x : option Qc) : Qc :=
  match x with
  | Some q => if decide (q = 0) then 0 else q
  | None => 0
  end.

Definition getICMSRates (state operation : string) : icmsRates :=
  if decide (state = "SP" /\ operation = "VENDA") then mkRates (num 18) (num 12)
  else if decide (state = "RJ") then mkRates (num 20) (num 13)
  else mkRates (num 18) (num 12).

(** [documentData.taxInfo?.key] *)
Definition taxInfo_get (d : DocumentRecord) (key : string) : option json :=
  match taxInfo d with
  | Some o => o !! key
  | None => None
  end.

Definition calculateIPI (d : DocumentRecord) : Qc :=
  if strict_eq_str (taxInfo_get d "ipiCategory") "basic"
  then num_or_0 (totalValue d) * dec 4 2
  else 0.

(** ** Reading a parsed value as a record of the data model *)

(** Member lookup in a parsed object: a repeated key keeps its last value. *)
Fixpoint jget (k : string) (members : list (string * json)) : option json :=
  match members with
  | [] => None
  | (k', v) :: rest =>
      match jget k rest with
      | Some v' => Some v'
      | None => if decide (k' = k) then Some v else None
      end
  end.

Definition opt_string (o : option json) : option (option string) :=
  match o with
  | None => Some None
  | Some (JStr s) => Some (Some s)
  | Some _ => None
  end.

Definition opt_number (o : option json) : option (option Qc) :=
  match o with
  | None => Some None
  | Some (JNum q) => Some (Some q)
  | Some _ => None
  end.

Definition opt_object (o : option json) : option (option (gmap string json)) :=
  match o with
  | None => Some None
  | Some (JObj ms) => Some (Some (list_to_map (reverse ms)))
  | Some _ => None
  end.

Definition DocumentRecord_fields : list string :=
  ["documentType"; "totalValue"; "state"; "municipality"; "operationType"; "taxInfo"].

(** A parsed value is a DocumentRecord when it is an object with no member
    outside the data model and every member present has its declared type. *)
Definition DocumentRecord_of_json (j : json) : option DocumentRecord :=
  match j with
  | JObj ms =>
      if forallb (fun p => bool_decide (fst p ∈ DocumentRecord_fields)) ms then
        dt ← opt_string (jget "documentType" ms);
        tv ← opt_number (jget "totalValue" ms);
        st ← opt_string (jget "state" ms);
        mu ← opt_string (jget "municipality" ms);
        op ← opt_string (jget "operationType" ms);
        ti ← opt_object (jget "taxInfo" ms);
        Some (mkDocumentRecord dt tv st mu op ti)
      else None
  | _ => None
  end.

Inductive complianceStatus := ok | warning | failure.   (* "ok", "warning", "error" *)

Record ComplianceResult := mkCompliance {
  status : complianceStatus;
  issues : list string;
  suggestions : list string
}.

Definition status_of_string (s : string) : option complianceStatus :=
  if decide (s = "ok") then Some ok
  else if decide (s = "warning") then Some warning
  else if decide (s = "error") then Some failure
  else None.

Fixpoint strings_of (items : list json) : option (list string) :=
  match items with
  | [] => Some []
  | JStr s :: rest => l ← strings_of rest; Some (s :: l)
  | _ => None
  end.

Definition ComplianceResult_of_json (j : json) : option ComplianceResult :=
  match j with
  | JObj ms =>
      match jget "status" ms, jget "issues" ms, jget "suggestions" ms with
      | Some (JStr s), Some (JArr xs), Some (JArr ys) =>
          st ← status_of_string s;
          xs' ← strings_of xs;
          ys' ← strings_of ys;
          Some (mkCompliance st xs' ys')
      | _, _, _ => None
      end
  | _ => None
  end.

(** ** The environment of a run *)

(** An external call either fails with an error or answers. *)
Definition reply (A : Type) : Type := (exn + A)%type.

Definition await {A} (r : reply A) : M A :=
  match r with
  | inl e => throw e
  | inr a => ret a
  end.

(** A search hit as Brave search hands it over. *)
Record braveDoc := mkBraveDoc {
  doc_pageContent : string;
  doc_source : option string
}.

(** What a chat message carries: a literal text, or [JSON.stringify] of a
    value of the run. *)
Inductive content :=
| Text (s : string)
| StringifyTextract (textractResponse : json)
| StringifyCompliance (document : DocumentRecord) (rules : list TaxRuleExcerpt).

Record chatMessage := mkMessage { role : string; msg_content : content }.

(** [completion.choices]: the [message.content] of every choice, [None]
    for [null]. *)
Definition completion := list (option string).

Record Env := mkEnv {
  (* built-ins of the engine *)
  toLowerCase : string -> string;
  JSON_parse : string -> option json;          (* [None]: SyntaxError *)
  (* collaborators *)
  textract_detectDocumentText : string -> reply json;
  chat_completions_create : string -> list chatMessage -> reply completion;
  brave_call : string -> reply (list braveDoc);
  embed : string -> reply (list Qc);
  similarity : list Qc -> list Qc -> Qc;
  db_run : dbRow -> reply unit;
  axios_get : string -> reply (option json)    (* [response.data] *)
}.

Section Pipeline.

Context (env : Env).

(** ** Tax rate helpers *)

Definition getISSRate (municipality : string) (serviceCode : json) : Qc :=
  if decide (toLowerCase env municipality = "sÃ£o paulo") then num 5 else num 3.

(** ** Calculators *)

Definition PIS_rate : Qc := dec 165 4.     (* 0.0165 *)
Definition COFINS_rate : Qc := dec 76 3.   (* 0.076 *)

(** The object literal [{ baseValue, taxes: {...} }]. *)
Definition new_calculation (baseValue : Qc) (amounts : gmap string Qc) : M value :=
  t ← alloc (CTaxes amounts);
  c ← alloc (CCalc (mkTaxCalculation baseValue t));
  mret (VRef c).

Definition calculateNFETaxes (documentData taxRules : loc) : M value :=
  d ← readDoc documentData;
  let baseValue := num_or_0 (totalValue d) in
  let state := str_or (state d) "SP" in
  let operation := str_or (operationType d) "VENDA" in
  let icmsRates := getICMSRates state operation in
  let ICMS := baseValue * (standard icmsRates / num 100) in
  let IPI := calculateIPI d in
  let PIS := baseValue * PIS_rate in
  let COFINS := baseValue * COFINS_rate in
  new_calculation baseValue
    (<["ICMS" := ICMS]> (<["IPI" := IPI]> (<["PIS" := PIS]> {["COFINS" := COFINS]}))).

Definition calculateNFSETaxes (documentData taxRules : loc) : M value :=
  d ← readDoc documentData;
  let baseValue := num_or_0 (totalValue d) in
  let municipality := str_or (municipality d) "SÃ£o Paulo" in
  let serviceCode :=
    match taxInfo_get d "serviceCode" with
    | Some v => if truthy v then v else JStr "1001"
    | None => JStr "1001"
    end in
  let issRate := getISSRate municipality serviceCode in
  new_calculation baseValue
    (<["ISS" := baseValue * (issRate / num 100)]>
       (<["PIS" := baseValue * PIS_rate]> {["COFINS" := baseValue * COFINS_rate]})).

Definition calculateNFCETaxes (documentData taxRules : loc) : M value :=
  d ← readDoc documentData;
  let baseValue := num_or_0 (totalValue d) in
  let state := str_or (state d) "SP" in
  let operation := str_or (operationType d) "VENDA" in
  let icmsRates := getICMSRates state operation in
  let ICMS := baseValue * (reduced icmsRates / num 100) in
  let PIS := baseValue * PIS_rate in
  let COFINS := baseValue * COFINS_rate in
  new_calculation baseValue
    (<["ICMS" := ICMS]> (<["PIS" := PIS]> {["COFINS" := COFINS]})).

Definition calculateCTETaxes (documentData taxRules : loc) : M value :=
  d ← readDoc documentData;
  let baseValue := num_or_0 (totalValue d) in
  let ICMS := baseValue * dec 12 2 in
  new_calculation baseValue {["ICMS" := ICMS]}.

(** ** Special regimes *)

(** [{ ...baseCalculation }]: a new object with the own properties of the
    operand; property values that are references stay shared. *)
Definition spread (v : value) : M loc :=
  match v with
  | VRef l =>
      c ← deref l;
      match c with
      | CCalc _ | CDoc _ => alloc c
      | _ => unmodelled
      end
  | VStr s => alloc (CChars s)
  end.

Definition Simples_Nacional_factor : Qc := dec 5 1.   (* 0.5 *)

Definition applySpecialRegimes (baseCalculation : value) (documentData taxRules : loc)
  : M value :=
  d ← readDoc documentData;
  if strict_eq_str (taxInfo_get d "regime") "Simples Nacional" then
    newCalc ← spread baseCalculation;
    c ← deref newCalc;
    match c with
    | CCalc calc =>
        (* [newCalc.taxes] is the object shared with [baseCalculation] *)
        t ← deref (taxes calc);
        match t with
        | CTaxes amounts =>
            match amounts !! "ICMS" with
            | Some ICMS =>
                store (taxes calc)
                  (CTaxes (<["ICMS" := ICMS * Simples_Nacional_factor]> amounts));;
                mret (VRef newCalc)
            | None => mret (VRef newCalc)
            end
        | _ => unmodelled
        end
    | _ =>
        (* no [taxes] property: [newCalc.taxes] is undefined *)
        throw (TypeError "Cannot read properties of undefined (reading 'ICMS')")
    end
  else mret baseCalculation.

(** ** The calculator registry *)

Inductive member :=
| calculator_NFE
| calculator_NFSE
| calculator_NFCE
| calculator_CTE
| Object_constructor            (* the function [Object] *)
| Object_prototype_toString
| Object_prototype_method (name : string)
| Object_prototype_object.      (* what [__proto__] evaluates to *)

(** The members every object literal inherits from [Object.prototype]. *)
Definition Object_prototype (key : string) : option member :=
  if decide (key = "constructor") then Some Object_constructor
  else if decide (key = "toString") then Some Object_prototype_toString
  else if decide (key = "__proto__") then Some Object_prototype_object
  else if decide (key ∈ ["__defineGetter__"; "__defineSetter__"; "hasOwnProperty";
                         "__lookupGetter__"; "__lookupSetter__"; "isPrototypeOf";
                         "propertyIsEnumerable"; "valueOf"; "toLocaleString"])
       then Some (Object_prototype_method key)
  else None.

(** [taxCalculations[key]]: own properties first, then the prototype. *)
Definition taxCalculations (key : string) : option member :=
  if decide (key = "NFE") then Some calculator_NFE
  else if decide (key = "NFSE") then Some calculator_NFSE
  else if decide (key = "NFCE") then Some calculator_NFCE
  else if decide (key = "CTE") then Some calculator_CTE
  else Object_prototype key.

(** [calculator(documentData, taxRules)], called without a receiver. *)
Definition call (calculator : member) (documentData taxRules : loc) : M value :=
  match calculator with
  | calculator_NFE => calculateNFETaxes documentData taxRules
  | calculator_NFSE => calculateNFSETaxes documentData taxRules
  | calculator_NFCE => calculateNFCETaxes documentData taxRules
  | calculator_CTE => calculateCTETaxes documentData taxRules
  | Object_constructor => mret (VRef documentData)
  | Object_prototype_toString => mret (VStr "[object Undefined]")
  | Object_prototype_method _ =>
      throw (TypeError "Cannot convert undefined or null to object")
  | Object_prototype_object => throw (TypeError "calculator is not a function")
  end.

(** The property key for [documentData.documentType]. *)
Definition property_key (documentType : option string) : string :=
  match documentType with
  | Some s => s
  | None => "undefined"
  end.

Definition calculateTaxesWithRules (documentData taxRules : loc) : M value :=
  d ← readDoc documentData;
  let calculator :=
    match taxCalculations (property_key (documentType d)) with
    | Some f => f
    | None => calculator_NFE
    end in
  baseCalculation ← call calculator documentData taxRules;
  finalCalculation ← applySpecialRegimes baseCalculation documentData taxRules;
  mret finalCalculation.

(** ** Tax rule search *)

Record splitterConfig := mkSplitter { chunkSize : nat; chunkOverlap : nat }.

(** An entry of the in-memory vector store. *)
Record memoryVector := mkVector {
  vec_content : string;
  vec_embedding : list Qc;
  vec_source : option string
}.

Fixpoint embedDocuments (texts : list (string * option string)) : M (list memoryVector) :=
  match texts with
  | [] => mret []
  | (text, src) :: rest =>
      e ← await (embed env text);
      vs ← embedDocuments rest;
      mret (mkVector text e src :: vs)
  end.

(** [MemoryVectorStore.fromTexts(texts, metadatas, embeddings)] *)
Definition MemoryVectorStore_fromTexts (texts : list string) (metadatas : list (option string))
  : M (list memoryVector) :=
  embedDocuments (zip texts metadatas).

(** Insertion into a list sorted by descending score; among equal scores
    the earlier entry stays first. *)
Fixpoint insert_by_score (x : Qc * memoryVector) (l : list (Qc * memoryVector))
  : list (Qc * memoryVector) :=
  match l with
  | [] => [x]
  | y :: ys => if decide (fst x < fst y) then y :: insert_by_score x ys else x :: y :: ys
  end.

Definition sort_by_score (l : list (Qc * memoryVector)) : list (Qc * memoryVector) :=
  foldr insert_by_score [] l.

(** [vectorStore.similaritySearch(query, k)] *)
Definition similaritySearch (vectorStore : list memoryVector) (query : string) (k : nat)
  : M (list TaxRuleExcerpt) :=
  q ← await (embed env query);
  let scored := map (fun v => (similarity env q (vec_embedding v), v)) vectorStore in
  mret (map (fun p => mkExcerpt (vec_content (snd p)) (vec_source (snd p)))
            (take k (sort_by_score scored))).

Definition processTaxRuleSearch (docs : list braveDoc) (query : string) : M loc :=
  let splitter := mkSplitter 1000 200 in
  let docTexts := map doc_pageContent docs in
  vectorStore ← MemoryVectorStore_fromTexts docTexts (map doc_source docs);
  results ← similaritySearch vectorStore query 5;
  alloc (CRules results).

Definition truthy_str (x : option string) : bool :=
  match x with
  | Some s => if decide (s = "") then false else true
  | None => false
  end.

Definition searchTaxRules (query : string) (documentType state sector : option string)
  : M loc :=
  let documentType := default "NFE" documentType in
  let searchQuery := query +:+ " legislaÃ§Ã£o tributÃ¡ria brasil " +:+ documentType in
  let searchQuery :=
    if truthy_str state then searchQuery +:+ " " +:+ default "" state else searchQuery in
  let searchQuery :=
    if truthy_str sector then searchQuery +:+ " setor " +:+ default "" sector
    else searchQuery in
  let searchQuery :=
    searchQuery +:+ " site:.gov.br OR site:legisweb.com.br OR site:confaz.fazenda.gov.br" in
  try_catch
    (docs ← await (brave_call env searchQuery);
     results ← processTaxRuleSearch docs query;
     logger info "Tax rule search completed";;
     mret results)
    (fun error_ =>
       logger error "Error in tax rule search";;
       throw error_).

(** ** Data extraction and compliance validation *)

(** [JSON.parse(completion.choices[0].message.content)] *)
Definition parse_first_choice (c : completion) : M json :=
  match c with
  | [] => throw (TypeError "Cannot read properties of undefined (reading 'message')")
  | content :: _ =>
      match JSON_parse env (default "null" content) with
      | Some j => mret j
      | None => throw SyntaxError
      end
  end.

Definition extraction_prompt : string :=
  "Extract key information from this Brazilian tax document. Include:
                - Document type (NFe, NFSe, etc.)
                - Operation type
                - Values
                - Tax information
                - State and municipality
                - Dates
                Return as structured JSON.".

(** The fallback literal; [municipality] is spelled as the source file
    stores it. *)
Definition default_documentData : json :=
  JObj [("documentType", JStr "NFE");
        ("totalValue", JNum 0);
        ("state", JStr "SP");
        ("municipality", JStr "SÃ£o Paulo");
        ("operationType", JStr "VENDA");
        ("taxInfo", JObj [])].

Definition extractDocumentData (textractResponse : json) : M json :=
  completion ← await (chat_completions_create env "gpt-4"
                        [mkMessage "system" (Text extraction_prompt);
                         mkMessage "user" (StringifyTextract textractResponse)]);
  parsedData ← try_catch (parse_first_choice completion)
                 (fun jsonError =>
                    logger error "Failed to parse GPT response for documentData";;
                    mret default_documentData);
  mret parsedData.

Definition readRules (taxRules : loc) : M (list TaxRuleExcerpt) :=
  c ← deref taxRules;
  match c with
  | CRules rs => mret rs
  | _ => unmodelled
  end.

Definition validation_prompt : string :=
  "Validate compliance of this tax document against current rules. Check:
                - Required fields and formats
                - Tax calculation accuracy
                - Filing deadlines
                - Special requirements
                Flag any issues or risks. Return JSON with { status, issues: [], suggestions: [] }".

Definition fallback_validationResult : json :=
  JObj [("status", JStr "warning");
        ("issues", JArr [JStr "Could not parse GPT response"]);
        ("suggestions", JArr [])].

Definition validateCompliance (documentData taxRules : loc) : M json :=
  d ← readDoc documentData;
  rs ← readRules taxRules;
  completion ← await (chat_completions_create env "gpt-4"
                        [mkMessage "system" (Text validation_prompt);
                         mkMessage "user" (StringifyCompliance d rs)]);
  validationResult ← try_catch (parse_first_choice completion)
                       (fun jsonError =>
                          logger error "validateCompliance: GPT parse error";;
                          mret fallback_validationResult);
  mret validationResult.

(** ** Storage *)

Definition insert_document (r : dbRow) : M unit :=
  await (db_run env r);;
  append_row r.

Definition storeDocumentInDb (userId : Z) (documentData : loc) : M unit :=
  try_catch
    (d ← readDoc documentData;
     insert_document (mkRow userId (documentType d) (num_or_0 (totalValue d))
                        (str_or (state d) "") (str_or (municipality d) "") d);;
     logger info "Document stored successfully")
    (fun error_ => logger error "Error storing document in DB").

(** ** The orchestrator *)

Record PipelineResult := mkResult {
  documentData : loc;
  taxCalculation : value;
  complianceCheck : json;
  applicableRules : loc
}.

(** The parsed value as the document the later stages read.  A value that
    is not a DocumentRecord would be read through JavaScript's dynamic
    coercions, which are outside the model. *)
Definition as_document (parsedData : json) : M loc :=
  match DocumentRecord_of_json parsedData with
  | Some d => alloc (CDoc d)
  | None => unmodelled
  end.

(** [`${x}`] for an optional string member. *)
Definition template (x : option string) : string := default "undefined" x.

Definition processDocument (buffer mimeType : string) (userId : option Z)
  : M PipelineResult :=
  logger info "Starting document processing";;
  try_catch
    (textractResponse ← await (textract_detectDocumentText env buffer);
     parsedData ← extractDocumentData textractResponse;
     documentData ← as_document parsedData;
     match userId with
     | Some u => if decide (u = 0%Z) then mret tt else storeDocumentInDb u documentData
     | None => mret tt
     end;;
     d ← readDoc documentData;
     taxRules ← searchTaxRules
                  (template (documentType d) +:+ " " +:+ template (operationType d)
                     +:+ " " +:+ template (state d))
                  (documentType d) None None;
     taxCalculation ← calculateTaxesWithRules documentData taxRules;
     complianceCheck ← validateCompliance documentData taxRules;
     mret (mkResult documentData taxCalculation complianceCheck taxRules))
    (fun error_ =>
       logger error "Document processing error";;
       throw error_).

(** ** NFe structure validation *)

Record Emitente := mkEmitente { cnpj : option string }.

Record NFeData := mkNFe {
  chaveAcesso : option string;
  nfe_totalValue : option Qc;
  emitente : option Emitente
}.

Definition http_get (url : string) : M (option json) :=
  record_request url;;
  await (axios_get env url).

(** [response.data?.valido] *)
Definition valido (data : option json) : option json :=
  match data with
  | Some (JObj ms) => jget "valido" ms
  | _ => None
  end.

Definition validateNFeWithSEFAZ (chaveAcesso : string) : M (option json) :=
  let url := "https://api.sefaz.gov.br/validaNFe?chave=" +:+ chaveAcesso in
  data ← http_get url;
  if match valido data with Some v => truthy v | None => false end
  then mret data
  else throw (Error ("NFe nÃ£o foi validada pela SEFAZ: " +:+ chaveAcesso)).

Definition validateNFeStructure (nfeData : NFeData) : M (option json) :=
  if negb (truthy_str (chaveAcesso nfeData)) then
    throw (Error "NFe sem chave de acesso vÃ¡lida")
  else if negb (truthy_str (emitente nfeData ≫= cnpj)) then
    throw (Error "NFe sem CNPJ do emitente")
  else if match nfe_totalValue nfeData with
          | Some q => bool_decide (q = 0) || bool_decide (q ≤ 0)
          | None => true
          end then
    throw (Error "NFe com valor total invÃ¡lido")
  else
    sefazResult ← validateNFeWithSEFAZ (default "" (chaveAcesso nfeData));
    mret sefazResult.

End Pipeline.

(** ** Reading results back from the store *)

(** The world after the objects [cs] were created. *)
Definition extend (w : world) (cs : list cell) : world :=
  mkWorld (heap w ++ cs) (log w) (documents w) (requests w).

(** The [{baseValue, taxes}] a value denotes: its base value and the
    mapping from tax names to amounts. *)
Definition calc_of (w : world) (v : value) : option (Qc * gmap string Qc) :=
  match v with
  | VRef l =>
      match heap w !! l with
      | Some (CCalc c) =>
          match heap w !! taxes c with
          | Some (CTaxes t) => Some (baseValue c, t)
          | _ => None
          end
      | _ => None
      end
  | VStr _ => None
  end.

(** A result with every reference replaced by the content it refers to. *)
Inductive observed :=
| ObsCalc (baseValue : Qc) (amounts : gmap string Qc)
| ObsDoc (d : DocumentRecord)
| ObsStr (s : string)
| ObsOther.

Definition observe (w : world) (v : value) : observed :=
  match v with
  | VStr s => ObsStr s
  | VRef l =>
      match heap w !! l with
      | Some (CDoc d) => ObsDoc d
      | Some (CCalc c) =>
          match heap w !! taxes c with
          | Some (CTaxes t) => ObsCalc (baseValue c) t
          | _ => ObsOther
          end
      | _ => ObsOther
      end
  end.

Definition observe_outcome (r : outcome value * world) : outcome observed :=
  match fst r with
  | Returned v => Returned (observe (snd r) v)
  | Thrown e => Thrown e
  | Unmodelled => Unmodelled
  end.

Definition rules_of (w : world) (l : loc) : option (list TaxRuleExcerpt) :=
  match heap w !! l with
  | Some (CRules rs) => Some rs
  | _ => None
  end.

(** ** A scripted environment, for evaluating the pipeline on examples *)

Module Script.

(** Lower case for ASCII and for the capital letters of Latin-1 in UTF-8;
    every other character is kept. *)
Definition lower_ascii (a : ascii) : ascii :=
  let n := nat_of_ascii a in
  if (65 <=? n)%nat && (n <=? 90)%nat then ascii_of_nat (n + 32) else a.

Definition lower_latin1 (b : ascii) : ascii :=
  let n := nat_of_ascii b in
  if (128 <=? n)%nat && (n <=? 158)%nat && negb (n =? 151)%nat
  then ascii_of_nat (n + 32) else b.

Fixpoint toLowerCase (s : string) : string :=
  match s with
  | String a r =>
      if (nat_of_ascii a =? 195)%nat then
        match r with
        | String b r' => String a (String (lower_latin1 b) (toLowerCase r'))
        | EmptyString => s
        end
      else String (lower_ascii a) (toLowerCase r)
  | EmptyString => s
  end.

Definition q (s : string) : string := String JSON.quote s +:+ String JSON.quote "".

(** The text a well-behaved structuring service answers with. *)
Definition document_text : string :=
  "{" +:+ q "documentType" +:+ ":" +:+ q "NFE" +:+ ","
      +:+ q "totalValue" +:+ ":1000,"
      +:+ q "state" +:+ ":" +:+ q "SP" +:+ ","
      +:+ q "operationType" +:+ ":" +:+ q "VENDA" +:+ ","
      +:+ q "taxInfo" +:+ ":{}}".

Definition compliance_text : string :=
  "{" +:+ q "status" +:+ ":" +:+ q "ok" +:+ ","
      +:+ q "issues" +:+ ":[],"
      +:+ q "suggestions" +:+ ":[]}".

Definition is_extraction (messages : list chatMessage) : bool :=
  match messages with
  | [_; mkMessage _ (StringifyTextract _)] => true
  | _ => false
  end.

(** Every collaborator answers; the chat model answers [extraction] to
    the extraction request and [validation] to the validation request. *)
Definition answering (extraction validation : completion)
    (hits : reply (list braveDoc)) : Env :=
  mkEnv toLowerCase JSON.parse
    (fun _ => inr (JObj [("Blocks", JArr [])]))
    (fun _ messages => inr (if is_extraction messages then extraction else validation))
    (fun _ => hits)
    (fun text => inr [num (Z.of_nat (String.length text))])
    (fun a b => match a, b with
                | [x], [y] => if decide (x ≤ y) then x - y else y - x
                | _, _ => 0
                end)
    (fun _ => inr tt)
    (fun _ => inr (Some (JObj [("valido", JBool true)]))).

Definition hit (text : string) : braveDoc :=
  mkBraveDoc text (Some "https://www.gov.br/receitafederal").

Definition healthy : Env :=
  answering [Some document_text] [Some compliance_text] (inr [hit "ICMS"]).

Definition search_down : Env :=
  answering [Some document_text] [Some compliance_text] (inl (ServiceError "brave")).

Definition empty_world : world := mkWorld [] [] [] [].

(** A page of [n] characters. *)
Fixpoint page (n : nat) : string :=
  match n with
  | O => ""
  | S n => String "a" (page n)
  end.

(** The document of the NFE example. *)
Definition nfe_1000 : DocumentRecord :=
  mkDocumentRecord None (Some (num 1000)) (Some "SP") None (Some "VENDA") (Some ∅).

Definition with_type (t : string) (d : DocumentRecord) : DocumentRecord :=
  mkDocumentRecord (Some t) (totalValue d) (state d) (municipality d)
    (operationType d) (taxInfo d).

Definition with_regime (r : string) (d : DocumentRecord) : DocumentRecord :=
  mkDocumentRecord (documentType d) (totalValue d) (state d) (municipality d)
    (operationType d) (Some (<["regime" := JStr r]> (default ∅ (taxInfo d)))).

Definition with_total (x : Qc) (d : DocumentRecord) : DocumentRecord :=
  mkDocumentRecord (documentType d) (Some x) (state d) (municipality d)
    (operationType d) (taxInfo d).

(** A store holding one document and an empty rule list. *)
Definition world_of (d : DocumentRecord) : world :=
  mkWorld [CDoc d; CRules []] [] [] [].

End Script.

(** ** The registry, stated on documents

    What [calculateTaxesWithRules] is expected to compute, as a function of
    the document alone: every amount is the base value times a rate. *)

Definition is_Simples_Nacional (d : DocumentRecord) : bool :=
  strict_eq_str (taxInfo_get d "regime") "Simples Nacional".

(** The rate of each tax component, per calculator. *)
Definition rates (env : Env) (calculator : member) (d : DocumentRecord) : gmap string Qc :=
  let icms := getICMSRates (str_or (state d) "SP") (str_or (operationType d) "VENDA") in
  match calculator with
  | calculator_NFE =>
      <["ICMS" := standard icms / num 100]>
        (<["IPI" := if strict_eq_str (taxInfo_get d "ipiCategory") "basic"
                    then dec 4 2 else 0]>
           (<["PIS" := dec 165 4]> {["COFINS" := dec 76 3]}))
  | calculator_NFSE =>
      <["ISS" := (if decide (toLowerCase env (str_or (municipality d) "SÃ£o Paulo")
                             = "sÃ£o paulo") then num 5 else num 3) / num 100]>
        (<["PIS" := dec 165 4]> {["COFINS" := dec 76 3]})
  | calculator_NFCE =>
      <["ICMS" := reduced icms / num 100]>
        (<["PIS" := dec 165 4]> {["COFINS" := dec 76 3]})
  | calculator_CTE => {["ICMS" := dec 12 2]}
  | _ => ∅
  end.

(** The Simples Nacional rule on a rate table: the ICMS rate is halved. *)
Definition adjusted (d : DocumentRecord) (r : gmap string Qc) : gmap string Qc :=
  if is_Simples_Nacional d then alter (fun x => x * dec 5 1) "ICMS" r else r.

(** The amounts of a rate table at a base value. *)
Definition amounts (base : Qc) (r : gmap string Qc) : gmap string Qc :=
  (fun rate => base * rate) <$> r.

(** [taxCalculations[documentData.documentType] || calculateNFETaxes] *)
Definition selected (d : DocumentRecord) : member :=
  default calculator_NFE (taxCalculations (property_key (documentType d))).

(** What a call of the registry returns or throws, read back from the
    store. *)
Definition registry_result (env : Env) (d : DocumentRecord) : outcome observed :=
  match selected d with
  | Object_constructor =>
      if is_Simples_Nacional d
      then Thrown (TypeError "Cannot read properties of undefined (reading 'ICMS')")
      else Returned (ObsDoc d)
  | Object_prototype_toString =>
      if is_Simples_Nacional d
      then Thrown (TypeError "Cannot read properties of undefined (reading 'ICMS')")
      else Returned (ObsStr "[object Undefined]")
  | Object_prototype_method _ =>
      Thrown (TypeError "Cannot convert undefined or null to object")
  | Object_prototype_object => Thrown (TypeError "calculator is not a function")
  | calculator =>
      Returned (ObsCalc (num_or_0 (totalValue d))
                  (amounts (num_or_0 (totalValue d)) (adjusted d (rates env calculator d))))
  end.

(** The document type selects one of the four calculators, by name or by
    default. *)
Definition dispatches (d : DocumentRecord) : Prop :=
  Object_prototype (property_key (documentType d)) = None.

(** ** Vocabulary of the statements *)

(** The four functions of the registry. *)
Definition is_calculator (k : member) : bool :=
  match k with
  | calculator_NFE | calculator_NFSE | calculator_NFCE | calculator_CTE => true
  | _ => false
  end.

(** [taxes.ICMS *= 0.5] when the component is there. *)
Definition halve_ICMS (t : gmap string Qc) : gmap string Qc :=
  alter (fun x => x * dec 5 1) "ICMS" t.

(** The four products of [calculateNFETaxes] (ICMS, IPI, PIS, COFINS) in
    binary64, the arithmetic the engine performs. *)
Definition calculateNFETaxes_binary64 (baseValue standard : float) (basic : bool)
  : float * float * float * float :=
  (baseValue * (standard / 100),
   if basic then baseValue * 0.04 else 0,
   baseValue * 0.0165,
   baseValue * 0.076)%float.

(** Two documents that differ at most in [totalValue]. *)
Definition same_but_totalValue (d1 d2 : DocumentRecord) : Prop :=
  documentType d1 = documentType d2 /\ state d1 = state d2 /\
  municipality d1 = municipality d2 /\ operationType d1 = operationType d2 /\
  taxInfo d1 = taxInfo d2.

(** The text [JSON.parse] is applied to: the content of the first choice,
    a [null] content being read as the text "null"; there is none when
    the completion has no choice. *)
Definition first_choice_text (c : completion) : option string :=
  match c with
  | [] => None
  | content :: _ => Some (default "null" content)
  end.

(** The value the response parses to, if it is JSON at all. *)
Definition parsed_response (env : Env) (c : completion) : option json :=
  first_choice_text c ≫= JSON_parse env.

(** The fallback literal of the extractor, read as a record. *)
Definition default_DocumentRecord : DocumentRecord :=
  mkDocumentRecord (Some "NFE") (Some 0) (Some "SP") (Some "SÃ£o Paulo")
    (Some "VENDA") (Some ∅).

(** The messages sent to the chat model by the extractor and by the
    validator. *)
Definition extraction_request (textractResponse : json) : list chatMessage :=
  [mkMessage "system" (Text extraction_prompt);
   mkMessage "user" (StringifyTextract textractResponse)].

Definition validation_request (d : DocumentRecord) (rs : list TaxRuleExcerpt)
  : list chatMessage :=
  [mkMessage "system" (Text validation_prompt);
   mkMessage "user" (StringifyCompliance d rs)].

(** The world after one more log entry. *)
Definition logged (w : world) (l : level) (msg : string) : world :=
  mkWorld (heap w) (log w ++ [mkLog l msg])%list (documents w) (requests w).

(** The query [processDocument] builds from the document. *)
Definition rule_query (d : DocumentRecord) : string :=
  template (documentType d) +:+ " " +:+ template (operationType d)
    +:+ " " +:+ template (state d).

(** The search string of [searchTaxRules] when neither state nor sector
    is passed. *)
Definition search_string (query : string) (documentType : option string) : string :=
  (query +:+ " legislaÃ§Ã£o tributÃ¡ria brasil " +:+ default "NFE" documentType)
    +:+ " site:.gov.br OR site:legisweb.com.br OR site:confaz.fazenda.gov.br".


(** A member is lacking when it is absent or the empty string. *)
Definition lacks (x : option string) : Prop := x = None \/ x = Some "".

(** The total is missing, zero or negative. *)
Definition invalid_total (x : option Qc) : Prop :=
  x = None \/ exists q, x = Some q /\ q ≤ 0.

(** What makes [validateNFeStructure] reject a record. *)
Definition structurally_invalid (nfeData : NFeData) : Prop :=
  lacks (chaveAcesso nfeData) \/ lacks (emitente nfeData ≫= cnpj) \/
  invalid_total (nfe_totalValue nfeData).

(** The address of the SEFAZ validation for a key. *)
Definition sefaz_url (chaveAcesso : string) : string :=
  "https://api.sefaz.gov.br/validaNFe?chave=" +:+ chaveAcesso.

(** The three tests of the source, as one boolean. *)
Definition fails_checks (nfeData : NFeData) : bool :=
  negb (truthy_str (chaveAcesso nfeData))
  || negb (truthy_str (emitente nfeData ≫= cnpj))
  || match nfe_totalValue nfeData with
     | Some q => bool_decide (q = 0) || bool_decide (q ≤ 0)
     | None => true
     end.

(** ** Government services (integrations/govApis.js) *)

(** A value that is a string, null or undefined. *)
Inductive nullable :=
| is_undefined
| is_null
| is_string (s : string).

(** [`${v}`] *)
Definition template_of (v : nullable) : string :=
  match v with
  | is_undefined => "undefined"
  | is_null => "null"
  | is_string s => s
  end.

(** ToBoolean *)
Definition truthy_nullable (v : nullable) : bool :=
  match v with
  | is_string s => if decide (s = "") then false else true
  | _ => false
  end.

Section Integrations.

Context (env : Env).

(** [response.data?.status] *)
Definition data_status (data : option json) : option json :=
  match data with
  | Some (JObj ms) => jget "status" ms
  | _ => None
  end.

Definition validateCNPJ (cnpj : nullable) : M (option json) :=
  let url := "https://www.receitaws.com.br/v1/cnpj/" +:+ template_of cnpj in
  data ← http_get env url;
  if strict_eq_str (data_status data) "ERROR"
  then throw (Error "CNPJ inválido ou não encontrado na Receita Federal")
  else mret data.

Definition consultNFSe (chaveNFSe : nullable) : M (option json) :=
  let url := "https://portal-nfse.gov.br/api/consulta?chave=" +:+ template_of chaveNFSe in
  data ← http_get env url;
  mret data.

Definition checkSINTEGRA (inscricaoEstadual : nullable) : M (option json) :=
  let url := "https://api.sintegra.gov.br/check?ie=" +:+ template_of inscricaoEstadual in
  data ← http_get env url;
  mret data.

(** ** Compliance status of a user *)

(** The members of [user] the check reads. *)
Record User := mkUser {
  user_cnpj : nullable;
  user_inscricaoEstadual : nullable
}.

(** An entry of [checks]: [{type, status, message}]. *)
Record UserCheck := mkUserCheck {
  check_type : string;
  check_status : string;
  check_message : string
}.

Definition checkUserCompliance (user : User) : M (list UserCheck) :=
  let checks : list UserCheck := [] in
  checks ← try_catch
             (cnpjStatus ← validateCNPJ (user_cnpj user);
              mret (checks ++ [mkUserCheck "CNPJ" "ok" "CNPJ válido e ativo"])%list)
             (fun error_ =>
                mret (checks ++ [mkUserCheck "CNPJ" "error" "CNPJ com irregularidades"])%list);
  if truthy_nullable (user_inscricaoEstadual user) then
    try_catch
      (ieStatus ← checkSINTEGRA (user_inscricaoEstadual user);
       mret (checks ++ [mkUserCheck "IE" "ok" "Inscrição Estadual regular"])%list)
      (fun error_ =>
         mret (checks ++ [mkUserCheck "IE" "error" "Inscrição Estadual com pendências"])%list)
  else mret checks.

End Integrations.

(** ** The totals of the monthly report

    Step 2 of [generateTaxReport]: the loop that sums the calculations of
    the documents of the month.  A row holds in [rawData] the text of the
    document it was stored for; [JSON.parse] reads it back as a new object
    with the same members. *)

Section Report.

Context (env : Env).

(** [docCalculation.taxes || {}], as [Object.entries] reads it. *)
Definition taxes_or_empty (docCalculation : value) : M (gmap string Qc) :=
  match docCalculation with
  | VRef l =>
      c ← deref l;
      match c with
      | CCalc calc =>
          t ← deref (taxes calc);
          match t with
          | CTaxes amounts => mret amounts
          | _ => unmodelled
          end
      | CDoc _ => mret ∅          (* a document has no [taxes] member *)
      | _ => unmodelled
      end
  | VStr _ => mret ∅
  end.

(** The inner loop: [if (!taxSum[tax]) taxSum[tax] = 0; taxSum[tax] += val]
    for every entry. *)
Definition add_entries (taxSum entries : gmap string Qc) : gmap string Qc :=
  map_fold (fun tax val taxSum => <[tax := default 0 (taxSum !! tax) + val]> taxSum)
    taxSum entries.

(** [docData.totalValue || 0] *)
Definition totalValue_or_0 (docData : DocumentRecord) : Qc :=
  num_or_0 (totalValue docData).

Fixpoint sum_documents (docs : list dbRow) (totalValue : Qc) (taxSum : gmap string Qc)
  : M (Qc * gmap string Qc) :=
  match docs with
  | [] => mret (totalValue, taxSum)
  | doc :: rest =>
      docData ← alloc (CDoc (row_rawData doc));
      taxRules ← alloc (CRules []);
      docCalculation ← calculateTaxesWithRules env docData taxRules;
      entries ← taxes_or_empty docCalculation;
      sum_documents rest
        (totalValue + totalValue_or_0 (row_rawData doc))
        (add_entries taxSum entries)
  end.

Definition generateTaxReport_totals (docs : list dbRow) : M (Qc * gmap string Qc) :=
  let totalValue := 0 in
  let taxSum : gmap string Qc :=
    <["ICMS" := 0]> (<["ISS" := 0]> (<["PIS" := 0]> (<["COFINS" := 0]> {["IPI" := 0]}))) in
  sum_documents docs totalValue taxSum.

End Report.

(** ** The tax simulation of the [!calculo] command *)





Section Simulation.

(** [x.toFixed(digits)], a part of the engine. *)
Context (toFixed : Qc -> nat -> string).



End Simulation.

(** ** NFe documents in XML (part_000)

    The XML parser and [parseFloat] are parts of the engine; the tree the
    parser hands over is read as a [json] value (with [explicitArray:
    false] an element is a string, an object of its children, or an array
    of repeated children). *)

Record XmlEngine := mkXml {
  parseStringPromise : string -> reply json;
  parseFloat : json -> option Qc      (* [None]: NaN *)
}.

Module XML.

(** [v?.key], for the keys read here (none is a member of a string, of an
    array or of [Object.prototype]). *)
Definition member (key : string) (v : option json) : option json :=
  match v with
  | Some (JObj ms) => jget key ms
  | _ => None
  end.

(** [v?.k1?.k2?. ...] *)
Fixpoint path (keys : list string) (v : option json) : option json :=
  match keys with
  | [] => v
  | key :: rest => path rest (member key v)
  end.

(** [v || {}] *)
Definition or_object (v : option json) : json :=
  match v with
  | Some j => if truthy j then j else JObj []
  | None => JObj []
  end.

(** [v || 0] *)
Definition or_0 (v : option json) : json :=
  match v with
  | Some j => if truthy j then j else JNum 0
  | None => JNum 0
  end.

Record Item := mkItem {
  codigo : option json;
  descricao : option json;
  quantidade : option Qc;
  valorUnitario : option Qc;
  valorTotal : option Qc;
  ncm : option json
}.

Record Party := mkParty {
  cnpj : option json;
  nome : option json;
  ie : option json
}.

Record Impostos := mkImpostos {
  icms : option Qc;
  ipi : option (option Qc);      (* [None]: no such member *)
  pis : option Qc;
  cofins : option Qc
}.

(** What [parseNFeXML] and [parseNFCeXML] return; the NFCe record has no
    [destinatario], no [emitente.ie] and no [impostos.ipi]. *)
Record Parsed := mkParsed {
  documentType : string;
  chaveAcesso : option json;
  totalValue : option Qc;
  state : option json;
  emitente : Party;
  destinatario : option Party;
  items : list Item;
  impostos : Impostos
}.

Section Parser.

Context (xml : XmlEngine).

(** [parseFloat(v)] for a possibly undefined [v]: undefined reads as NaN. *)
Definition parseFloat_of (v : option json) : option Qc :=
  match v with
  | Some j => parseFloat xml j
  | None => None
  end.

(** The body of the [map] callback of [parseNFeItems]. *)
Definition parse_item (item : json) : M Item :=
  match item with
  | JNull => throw (TypeError "Cannot read properties of null (reading 'prod')")
  | _ =>
      match member "prod" (Some item) with
      | None => throw (TypeError "Cannot read properties of undefined (reading 'cProd')")
      | Some JNull => throw (TypeError "Cannot read properties of null (reading 'cProd')")
      | Some prod =>
          mret (mkItem (member "cProd" (Some prod))
                  (member "xProd" (Some prod))
                  (parseFloat_of (member "qCom" (Some prod)))
                  (parseFloat_of (member "vUnCom" (Some prod)))
                  (parseFloat_of (member "vProd" (Some prod)))
                  (member "NCM" (Some prod)))
      end
  end.

(** [items.map(callback)] *)
Fixpoint map_items (items : list json) : M (list Item) :=
  match items with
  | [] => mret []
  | item :: rest =>
      i ← parse_item item;
      is' ← map_items rest;
      mret (i :: is')
  end.

Definition parseNFeItems (det : option json) : M (list Item) :=
  if negb (match det with Some v => truthy v | None => false end) then mret []
  else
    let items :=
      match det with
      | Some (JArr xs) => xs
      | Some v => [v]
      | None => []
      end in
    map_items items.

Definition parseNFeXML (xmlString : string) : M Parsed :=
  result ← await (parseStringPromise xml xmlString);
  let nfe := Some (or_object (path ["nfeProc"; "NFe"; "infNFe"] (Some result))) in
  let chaveAcesso := path ["nfeProc"; "protNFe"; "infProt"; "chNFe"] (Some result) in
  let totalValue := parseFloat xml (or_0 (path ["total"; "ICMSTot"; "vNF"] nfe)) in
  let state := path ["dest"; "enderDest"; "UF"] nfe in
  let emitente := mkParty (path ["emit"; "CNPJ"] nfe) (path ["emit"; "xNome"] nfe)
                    (path ["emit"; "IE"] nfe) in
  let destinatario := mkParty (path ["dest"; "CNPJ"] nfe) (path ["dest"; "xNome"] nfe)
                        (path ["dest"; "IE"] nfe) in
  items ← parseNFeItems (member "det" nfe);
  let impostos :=
    mkImpostos (parseFloat xml (or_0 (path ["total"; "ICMSTot"; "vICMS"] nfe)))
      (Some (parseFloat xml (or_0 (path ["total"; "ICMSTot"; "vIPI"] nfe))))
      (parseFloat xml (or_0 (path ["total"; "ICMSTot"; "vPIS"] nfe)))
      (parseFloat xml (or_0 (path ["total"; "ICMSTot"; "vCOFINS"] nfe))) in
  mret (mkParsed "NFE" chaveAcesso totalValue state emitente (Some destinatario)
          items impostos).

Definition parseNFCeXML (xmlString : string) : M Parsed :=
  result ← await (parseStringPromise xml xmlString);
  let nfce := Some (or_object (path ["nfeProc"; "NFe"; "infNFe"] (Some result))) in
  let chaveAcesso := path ["nfeProc"; "protNFe"; "infProt"; "chNFe"] (Some result) in
  let totalValue := parseFloat xml (or_0 (path ["total"; "ICMSTot"; "vNF"] nfce)) in
  let state := path ["emit"; "enderEmit"; "UF"] nfce in
  let emitente := mkParty (path ["emit"; "CNPJ"] nfce) (path ["emit"; "xNome"] nfce) None in
  items ← parseNFeItems (member "det" nfce);
  let impostos :=
    mkImpostos (parseFloat xml (or_0 (path ["total"; "ICMSTot"; "vICMS"] nfce)))
      None
      (parseFloat xml (or_0 (path ["total"; "ICMSTot"; "vPIS"] nfce)))
      (parseFloat xml (or_0 (path ["total"; "ICMSTot"; "vCOFINS"] nfce))) in
  mret (mkParsed "NFCE" chaveAcesso totalValue state emitente None items impostos).

End Parser.

End XML.


(** ** Monitoring the official gazette (monitor/diarioOficialScraper.js) *)

(** An entry of the feed: [{title, link}]; [link] is undefined when the
    anchor has no [href]. *)
Record Update := mkUpdate {
  title : string;
  link : option string
}.

(** A row of [users], as far as the monitor reads it. *)
Record UserRow := mkUserRow {
  whatsappId : nullable
}.

(** The collaborators of the monitor: the HTML selection of the feed
    entries, the users table and the WhatsApp client. *)
Record Gazette := mkGazette {
  diary_items : option json -> reply (list Update);
  db_all_users : reply (list UserRow);
  client_sendMessage : nullable -> string -> reply unit
}.

(** A run of the monitor also has the messages the client delivered. *)
Record session := mkSession {
  base : world;
  sent : list (nullable * string)
}.

Definition N (A : Type) : Type := session -> outcome A * session.

Global Instance N_ret : MRet N := fun A a s => (Returned a, s).

Global Instance N_bind : MBind N := fun A B k m s =>
  match m s with
  | (Returned a, s') => k a s'
  | (Thrown e, s') => (Thrown e, s')
  | (Unmodelled, s') => (Unmodelled, s')
  end.

(** A computation on the world, run in a session. *)
Definition lift {A} (m : M A) : N A :=
  fun s => let (r, w') := m (base s) in (r, mkSession w' (sent s)).

(** [await] of an external call, in a session. *)
Definition awaitN {A} (r : reply A) : N A :=
  fun s => match r with
           | inl e => (Thrown e, s)
           | inr a => (Returned a, s)
           end.

(** [s.includes(searchString)] *)
Fixpoint includes (s searchString : string) : bool :=
  String.prefix searchString s ||
  match s with
  | String _ rest => includes rest searchString
  | EmptyString => false
  end.

(** The line feed of a template literal. *)
Definition nl : string := String (ascii_of_nat 10) EmptyString.

Section Monitor.

Context (env : Env) (gazette : Gazette).

Definition monitorDiarioOficial : M (list Update) :=
  let url := "https://www.jusbrasil.com.br/diarios" in
  data ← http_get env url;
  updates ← await (diary_items gazette data);
  mret updates.

(** [await client.sendMessage(to, message)] *)
Definition sendMessage (to : nullable) (message : string) : N unit :=
  fun s =>
    match client_sendMessage gazette to message with
    | inl e => (Thrown e, s)
    | inr _ => (Returned tt, mkSession (base s) (sent s ++ [(to, message)]))
    end.

(** The callback of [updates.filter]. *)
Definition is_tax_update (update : Update) : bool :=
  includes (toLowerCase env (title update)) "tribut" ||
  includes (toLowerCase env (title update)) "fiscal" ||
  includes (toLowerCase env (title update)) "imposto".

(** The text sent to every user. *)
Definition notification (taxUpdates : list Update) : string :=
  "🔔 *Novas Atualizações Fiscais*" +:+ nl +:+ nl +:+
  String.concat (nl +:+ nl)
    (map (fun u => "- " +:+ title u +:+ nl +:+ template (link u)) taxUpdates).

(** [for (const user of users) { ... }] *)
Fixpoint notify (users : list UserRow) (taxUpdates : list Update) : N unit :=
  match users with
  | [] => mret tt
  | user :: rest =>
      let message := notification taxUpdates in
      sendMessage (whatsappId user) message;;
      notify rest taxUpdates
  end.

Definition checkForTaxUpdates : N (list Update) :=
  updates ← lift monitorDiarioOficial;
  let taxUpdates := List.filter is_tax_update updates in
  if (0 <? length taxUpdates)%nat then
    users ← awaitN (db_all_users gazette);
    notify users taxUpdates;;
    mret taxUpdates
  else mret taxUpdates.

End Monitor.

(** ** Vocabulary of the further properties *)

(** Two documents that differ at most in [operationType]. *)
Definition same_but_operationType (d1 d2 : DocumentRecord) : Prop :=
  documentType d1 = documentType d2 /\ totalValue d1 = totalValue d2 /\
  state d1 = state d2 /\ municipality d1 = municipality d2 /\
  taxInfo d1 = taxInfo d2.

(** The document without its [taxInfo.regime] member. *)
Definition without_regime (d : DocumentRecord) : DocumentRecord :=
  mkDocumentRecord (documentType d) (totalValue d) (state d) (municipality d)
    (operationType d) (delete "regime" <$> taxInfo d).

(** Two documents that differ at most in [taxInfo.regime]. *)
Definition same_but_regime (d1 d2 : DocumentRecord) : Prop :=
  documentType d1 = documentType d2 /\ totalValue d1 = totalValue d2 /\
  state d1 = state d2 /\ municipality d1 = municipality d2 /\
  operationType d1 = operationType d2 /\
  forall key, key <> "regime" -> taxInfo_get d1 key = taxInfo_get d2 key.

(** The row [storeDocumentInDb] inserts for a document. *)
Definition stored_row (userId : Z) (d : DocumentRecord) : dbRow :=
  mkRow userId (documentType d) (num_or_0 (totalValue d))
    (str_or (state d) "") (str_or (municipality d) "") d.




(** A computation that leaves the [documents] table as it finds it. *)
Definition keeps_documents {A} (m : M A) : Prop :=
  forall w, documents (snd (m w)) = documents w.

(** A computation that adds at most one row to the [documents] table, and
    then a row of user [u]. *)
Definition stores_at_most_one_row {A} (u : Z) (m : M A) : Prop :=
  forall w, documents (snd (m w)) = documents w \/
            exists r, row_userId r = u /\
                      documents (snd (m w)) = (documents w ++ [r])%list.

(** Two computations that, started on the same objects, end with the same
    outcome and the same objects, whatever the log, the database and the
    request list hold. *)
Definition heap_sim {A} (m1 m2 : M A) : Prop :=
  forall w1 w2, heap w1 = heap w2 ->
    fst (m1 w1) = fst (m2 w2) /\ heap (snd (m1 w1)) = heap (snd (m2 w2)).

(** The environment with another database behind [db.run]. *)
Definition with_db (env : Env) (db : dbRow -> reply unit) : Env :=
  mkEnv (toLowerCase env) (JSON_parse env) (textract_detectDocumentText env)
    (chat_completions_create env) (brave_call env) (embed env) (similarity env)
    db (axios_get env).

(** The addresses [checkUserCompliance] contacts for a user. *)
Definition receita_url (user : User) : string :=
  "https://www.receitaws.com.br/v1/cnpj/" +:+ template_of (user_cnpj user).

Definition sintegra_url (user : User) : string :=
  "https://api.sintegra.gov.br/check?ie=" +:+ template_of (user_inscricaoEstadual user).

(** The Receita service answered, and not with the status "ERROR". *)
Definition receita_accepts (env : Env) (user : User) : Prop :=
  exists data, axios_get env (receita_url user) = inr data /\
               data_status data <> Some (JStr "ERROR").

(** The SINTEGRA service answered, whatever the answer says. *)
Definition sintegra_answers (env : Env) (user : User) : Prop :=
  exists data, axios_get env (sintegra_url user) = inr data.

(** The elements [parseNFeItems] maps over. *)
Definition det_items (det : option json) : list json :=
  match det with
  | Some (JArr xs) => xs
  | Some v => if truthy v then [v] else []
  | None => []
  end.

(** The element has a [prod] member that is neither undefined nor null. *)
Definition has_prod (item : json) : Prop :=
  exists prod, XML.member "prod" (Some item) = Some prod /\ prod <> JNull.

(** What [validateNFeStructure] reads of a parsed document, when the key
    and the CNPJ are strings or missing (NaN and a missing total both fail
    the check of the total, and are both read as no total). *)
Definition as_NFeData (p : XML.Parsed) : option NFeData :=
  key ← opt_string (XML.chaveAcesso p);
  c ← opt_string (XML.cnpj (XML.emitente p));
  Some (mkNFe key (XML.totalValue p) (Some (mkEmitente c))).

(** An XML engine that hands over the tree [tree] for every text, with a
    [parseFloat] that reads numbers and the texts of JSON numbers. *)
Definition scripted_xml (tree : json) : XmlEngine :=
  mkXml (fun _ => inr tree)
    (fun v => match v with
              | JNum q => Some q
              | JStr s => match JSON.parse s with
                          | Some (JNum q) => Some q
                          | _ => None
                          end
              | _ => None
              end).

(** The tree of an NFe with one product, a total of 1500.00 and, when
    [protocol] is given, the protocol with the access key. *)
Definition nfe_tree (protocol : option string) : json :=
  JObj [("nfeProc",
    JObj (("NFe", JObj [("infNFe",
             JObj [("emit", JObj [("CNPJ", JStr "12345678000195"); ("xNome", JStr "ACME")]);
                   ("dest", JObj [("CNPJ", JStr "98765432000110");
                                  ("enderDest", JObj [("UF", JStr "SP")])]);
                   ("det", JObj [("prod", JObj [("cProd", JStr "001");
                                                ("xProd", JStr "Parafuso");
                                                ("qCom", JStr "10"); ("vUnCom", JStr "150");
                                                ("vProd", JStr "1500");
                                                ("NCM", JStr "73181500")])]);
                   ("total", JObj [("ICMSTot", JObj [("vNF", JStr "1500.00");
                                                     ("vICMS", JStr "270.00")])])])])
          :: match protocol with
             | Some key => [("protNFe", JObj [("infProt", JObj [("chNFe", JStr key)])])]
             | None => []
             end))].

(** The amounts the registry computes for a document that selects a
    calculator. *)
Definition doc_amounts (env : Env) (d : DocumentRecord) : gmap string Qc :=
  amounts (num_or_0 (totalValue d)) (adjusted d (rates env (selected d) d)).

(** The amount of [tax] summed over the documents of the rows; a
    calculation without that component counts as 0. *)
Definition sum_of_tax (env : Env) (tax : string) (docs : list dbRow) : Qc :=
  foldr (fun doc acc => default 0 (doc_amounts env (row_rawData doc) !! tax) + acc) 0 docs.

(** The base values summed over the documents of the rows. *)
Definition sum_of_values (docs : list dbRow) : Qc :=
  foldr (fun doc acc => totalValue_or_0 (row_rawData doc) + acc) 0 docs.

(** The components the report starts with. *)
Definition report_taxes : list string := ["ICMS"; "ISS"; "PIS"; "COFINS"; "IPI"].

(** A row as [storeDocumentInDb] writes it. *)
Definition row_of (d : DocumentRecord) : dbRow := stored_row 7 d.

(** The address of the feed. *)
Definition gazette_url : string := "https://www.jusbrasil.com.br/diarios".

(** The session after the feed was requested. *)
Definition visited (s : session) : session :=
  mkSession (mkWorld (heap (base s)) (log (base s)) (documents (base s))
               (requests (base s) ++ [gazette_url])%list) (sent s).

(** The session after the client delivered [messages]. *)
Definition delivered (s : session) (messages : list (nullable * string)) : session :=
  mkSession (base s) (sent s ++ messages)%list.

(** The tax updates among the entries of the feed. *)
Definition tax_updates (env : Env) (updates : list Update) : list Update :=
  List.filter (is_tax_update env) updates.

(** The deliveries of one notification to each of [users]. *)
Definition deliveries (users : list UserRow) (message : string)
  : list (nullable * string) :=
  map (fun user => (whatsappId user, message)) users.

(** A feed of three entries, two of them tax updates. *)
Definition tax_feed : list Update :=
  [mkUpdate "Portaria altera ICMS: nova regra TRIBUTÁRIA" (Some "/diarios/1");
   mkUpdate "Nomeação de servidores" (Some "/diarios/2");
   mkUpdate "Imposto de renda: prazo" None].

Definition first_user : UserRow := mkUserRow (is_string "5511999990001@c.us").
Definition second_user : UserRow := mkUserRow (is_string "5511999990002@c.us").

(** The feed [feed], a users table of two users, and a client that
    delivers to everyone but [refused]. *)
Definition scripted_gazette (feed : list Update) (refused : string) : Gazette :=
  mkGazette (fun _ => inr feed) (inr [first_user; second_user])
    (fun to _ => if decide (template_of to = refused) then inl (ServiceError "whatsapp")
                 else inr tt).

(** * Properties *)

(** ** Running the monad *)

Lemma world_eta w : mkWorld (heap w) (log w) (documents w) (requests w) = w.
Proof. by destruct w. Qed.

Lemma extend_nil w : extend w [] = w.
Proof. unfold extend. rewrite app_nil_r. apply world_eta. Qed.

Lemma extend_extend w cs cs' : extend (extend w cs) cs' = extend w (cs ++ cs').
Proof. unfold extend; simpl. by rewrite app_assoc. Qed.

Lemma heap_extend_old w cs l :
  (l < length (heap w))%nat -> heap (extend w cs) !! l = heap w !! l.
Proof. intros Hl. simpl. by apply lookup_app_l. Qed.

Lemma heap_extend_0 w c cs : heap (extend w (c :: cs)) !! length (heap w) = Some c.
Proof. simpl. rewrite lookup_app_r by lia. by rewrite Nat.sub_diag. Qed.

Lemma heap_extend_1 w c0 c cs :
  heap (extend w (c0 :: c :: cs)) !! S (length (heap w)) = Some c.
Proof.
  simpl. rewrite lookup_app_r by lia.
  by replace (S (length (heap w)) - length (heap w))%nat with 1%nat by lia.
Qed.

Lemma heap_extend_2 w c0 c1 c cs :
  heap (extend w (c0 :: c1 :: c :: cs)) !! S (S (length (heap w))) = Some c.
Proof.
  simpl. rewrite lookup_app_r by lia.
  by replace (S (S (length (heap w))) - length (heap w))%nat with 2%nat by lia.
Qed.

Lemma bind_run {A B} (m : M A) (k : A -> M B) w :
  (m ≫= k) w =
  match m w with
  | (Returned a, w') => k a w'
  | (Thrown e, w') => (Thrown e, w')
  | (Unmodelled, w') => (Unmodelled, w')
  end.
Proof. reflexivity. Qed.

Lemma bind_Returned {A B} (m : M A) (k : A -> M B) w a w' :
  m w = (Returned a, w') -> (m ≫= k) w = k a w'.
Proof. intros H. by rewrite bind_run, H. Qed.

Lemma bind_Thrown {A B} (m : M A) (k : A -> M B) w e w' :
  m w = (Thrown e, w') -> (m ≫= k) w = (Thrown e, w').
Proof. intros H. by rewrite bind_run, H. Qed.

Lemma bind_ret_l {A B} (a : A) (k : A -> M B) w : (mret a ≫= k) w = k a w.
Proof. reflexivity. Qed.

Lemma bind_throw {A B} (e : exn) (k : A -> M B) w : (throw e ≫= k) w = (Thrown e, w).
Proof. reflexivity. Qed.

(** Rewriting with the run of the first statement of a sequence. *)
Tactic Notation "returns" uconstr(H) := rewrite (bind_Returned _ _ _ _ _ H).
Tactic Notation "throws" uconstr(H) := rewrite (bind_Thrown _ _ _ _ _ H).

Lemma alloc_run c w : alloc c w = (Returned (length (heap w)), extend w [c]).
Proof. reflexivity. Qed.

Lemma deref_run w l c : heap w !! l = Some c -> deref l w = (Returned c, w).
Proof. intros H. unfold deref. by rewrite H. Qed.

Lemma readDoc_run w l d : heap w !! l = Some (CDoc d) -> readDoc l w = (Returned d, w).
Proof. intros H. unfold readDoc. by returns (deref_run _ _ _ H). Qed.

Lemma new_calculation_run b t w :
  new_calculation b t w =
  (Returned (VRef (S (length (heap w)))),
   extend w [CTaxes t; CCalc (mkTaxCalculation b (length (heap w)))]).
Proof.
  unfold new_calculation.
  returns (alloc_run _ _).
  returns (alloc_run _ _).
  rewrite extend_extend. simpl. by rewrite length_app, Nat.add_1_r.
Qed.

(** ** The calculators compute base value times rate *)

Section Calculators.

Context (env : Env).

Lemma calculateIPI_rate d :
  calculateIPI d =
  num_or_0 (totalValue d) *
    (if strict_eq_str (taxInfo_get d "ipiCategory") "basic" then dec 4 2 else 0).
Proof.
  unfold calculateIPI. destruct (strict_eq_str _ _); [done|].
  by rewrite Qcmult_0_r.
Qed.

Lemma call_calculator k w ld lr d :
  heap w !! ld = Some (CDoc d) ->
  is_calculator k = true ->
  call env k ld lr w =
  (Returned (VRef (S (length (heap w)))),
   extend w [CTaxes (amounts (num_or_0 (totalValue d)) (rates env k d));
             CCalc (mkTaxCalculation (num_or_0 (totalValue d)) (length (heap w)))]).
Proof.
  intros Hd Hk.
  destruct k; try discriminate; simpl;
    [unfold calculateNFETaxes | unfold calculateNFSETaxes
    | unfold calculateNFCETaxes | unfold calculateCTETaxes];
    returns (readDoc_run _ _ _ Hd);
    rewrite new_calculation_run; do 3 f_equal;
    unfold amounts; rewrite ?fmap_insert, map_fmap_singleton;
    rewrite ?calculateIPI_rate; reflexivity.
Qed.

(** The amounts of a calculation and the base value follow the rate table. *)
Lemma calc_of_fresh w b t (cs : list cell) :
  calc_of (extend w ([CTaxes t; CCalc (mkTaxCalculation b (length (heap w)))] ++ cs))
          (VRef (S (length (heap w)))) = Some (b, t).
Proof.
  unfold calc_of. cbn [app].
  rewrite heap_extend_1. cbn [taxes baseValue]. by rewrite heap_extend_0.
Qed.

End Calculators.

(** ** The regime adjuster *)

Lemma applySpecialRegimes_other_regime v w ld lr d :
  heap w !! ld = Some (CDoc d) ->
  is_Simples_Nacional d = false ->
  applySpecialRegimes v ld lr w = (Returned v, w).
Proof.
  intros Hd Hr. unfold applySpecialRegimes.
  returns (readDoc_run _ _ _ Hd).
  unfold is_Simples_Nacional in Hr. by rewrite Hr.
Qed.

Lemma applySpecialRegimes_Simples_Nacional w lb ld lr d c t :
  heap w !! ld = Some (CDoc d) ->
  is_Simples_Nacional d = true ->
  heap w !! lb = Some (CCalc c) ->
  heap w !! taxes c = Some (CTaxes t) ->
  applySpecialRegimes (VRef lb) ld lr w =
  (Returned (VRef (length (heap w))),
   mkWorld (<[taxes c := CTaxes (halve_ICMS t)]> (heap w ++ [CCalc c])%list)
     (log w) (documents w) (requests w)).
Proof.
  intros Hd Hr Hb Ht. unfold applySpecialRegimes.
  returns (readDoc_run _ _ _ Hd).
  unfold is_Simples_Nacional in Hr. rewrite Hr.
  assert (Hlt : (taxes c < length (heap w))%nat) by (by eapply lookup_lt_Some).
  assert (Hspread : spread (VRef lb) w = (Returned (length (heap w)), extend w [CCalc c])).
  { unfold spread. by returns (deref_run _ _ _ Hb). }
  returns Hspread.
  assert (Hnew : heap (extend w [CCalc c]) !! length (heap w) = Some (CCalc c))
    by apply heap_extend_0.
  returns (deref_run _ _ _ Hnew).
  assert (Ht' : heap (extend w [CCalc c]) !! taxes c = Some (CTaxes t)).
  { by rewrite heap_extend_old. }
  returns (deref_run _ _ _ Ht').
  unfold halve_ICMS, Simples_Nacional_factor.
  destruct (t !! "ICMS") as [ICMS|] eqn:E.
  - rewrite bind_run. simpl. do 4 f_equal.
    apply map_eq. intros k. rewrite lookup_alter, lookup_insert.
    case_decide; subst; by rewrite ?E.
  - rewrite alter_id' by done. simpl.
    rewrite list_insert_id; [done|]. by rewrite lookup_app_l.
Qed.

(** Under Simples Nacional an operand without a [taxes] property makes the
    adjuster throw, after the copy was made. *)
Lemma applySpecialRegimes_document w ld lr d :
  heap w !! ld = Some (CDoc d) ->
  is_Simples_Nacional d = true ->
  applySpecialRegimes (VRef ld) ld lr w =
  (Thrown (TypeError "Cannot read properties of undefined (reading 'ICMS')"),
   extend w [CDoc d]).
Proof.
  intros Hd Hr. unfold applySpecialRegimes.
  returns (readDoc_run _ _ _ Hd).
  unfold is_Simples_Nacional in Hr. rewrite Hr.
  assert (Hspread : spread (VRef ld) w = (Returned (length (heap w)), extend w [CDoc d])).
  { unfold spread. by returns (deref_run _ _ _ Hd). }
  returns Hspread.
  assert (Hnew : heap (extend w [CDoc d]) !! length (heap w) = Some (CDoc d))
    by apply heap_extend_0.
  by returns (deref_run _ _ _ Hnew).
Qed.

Lemma applySpecialRegimes_string w s ld lr d :
  heap w !! ld = Some (CDoc d) ->
  is_Simples_Nacional d = true ->
  applySpecialRegimes (VStr s) ld lr w =
  (Thrown (TypeError "Cannot read properties of undefined (reading 'ICMS')"),
   extend w [CChars s]).
Proof.
  intros Hd Hr. unfold applySpecialRegimes.
  returns (readDoc_run _ _ _ Hd).
  unfold is_Simples_Nacional in Hr. rewrite Hr.
  assert (Hspread : spread (VStr s) w = (Returned (length (heap w)), extend w [CChars s]))
    by reflexivity.
  returns Hspread.
  assert (Hnew : heap (extend w [CChars s]) !! length (heap w) = Some (CChars s))
    by apply heap_extend_0.
  by returns (deref_run _ _ _ Hnew).
Qed.

(** ** The registry *)

Lemma halve_amounts b r :
  halve_ICMS (amounts b r) = amounts b (alter (fun x => x * dec 5 1) "ICMS" r).
Proof.
  unfold halve_ICMS, amounts. symmetry. apply fmap_alter.
  intros x _. apply Qcmult_assoc.
Qed.

Section Registry.

Context (env : Env).

Lemma calculateTaxesWithRules_unfold w ld lr d :
  heap w !! ld = Some (CDoc d) ->
  calculateTaxesWithRules env ld lr w =
  (baseCalculation ← call env (selected d) ld lr;
   finalCalculation ← applySpecialRegimes baseCalculation ld lr;
   mret finalCalculation) w.
Proof.
  intros Hd. unfold calculateTaxesWithRules.
  by returns (readDoc_run _ _ _ Hd).
Qed.

Lemma calculateTaxesWithRules_dispatch w ld lr d :
  heap w !! ld = Some (CDoc d) ->
  is_calculator (selected d) = true ->
  let n := length (heap w) in
  let b := num_or_0 (totalValue d) in
  let t := amounts b (rates env (selected d) d) in
  calculateTaxesWithRules env ld lr w =
  if is_Simples_Nacional d then
    (Returned (VRef (S (S n))),
     extend w [CTaxes (halve_ICMS t); CCalc (mkTaxCalculation b n);
               CCalc (mkTaxCalculation b n)])
  else
    (Returned (VRef (S n)), extend w [CTaxes t; CCalc (mkTaxCalculation b n)]).
Proof.
  intros Hd Hk n b t.
  rewrite (calculateTaxesWithRules_unfold _ _ _ _ Hd).
  returns (call_calculator env _ _ _ lr _ Hd Hk).
  fold n b t.
  set (w1 := extend w [CTaxes t; CCalc (mkTaxCalculation b n)]).
  assert (Hlen : (ld < n)%nat) by (by eapply lookup_lt_Some).
  assert (Hd1 : heap w1 !! ld = Some (CDoc d)) by (by unfold w1; rewrite heap_extend_old).
  destruct (is_Simples_Nacional d) eqn:Hr.
  - assert (Hc : heap w1 !! S n = Some (CCalc (mkTaxCalculation b n)))
      by apply heap_extend_1.
    assert (Ht : heap w1 !! taxes (mkTaxCalculation b n) = Some (CTaxes t))
      by apply heap_extend_0.
    returns (applySpecialRegimes_Simples_Nacional _ _ _ lr _ _ _ Hd1 Hr Hc Ht).
    unfold mret, M_ret, ret. f_equal.
    + do 2 f_equal. unfold w1. simpl. rewrite length_app. simpl. unfold n. lia.
    + unfold w1, extend. simpl. f_equal.
      rewrite <- app_assoc. simpl.
      rewrite insert_app_r_alt by (unfold n; lia).
      fold n. by rewrite Nat.sub_diag.
  - by returns (applySpecialRegimes_other_regime _ _ _ lr _ Hd1 Hr).
Qed.

(** The four calculators and the default: what the caller can read from
    the result. *)
Lemma calculateTaxesWithRules_dispatch_observed w ld lr d :
  heap w !! ld = Some (CDoc d) ->
  is_calculator (selected d) = true ->
  exists v w',
    calculateTaxesWithRules env ld lr w = (Returned v, w') /\
    calc_of w' v =
      Some (num_or_0 (totalValue d),
            amounts (num_or_0 (totalValue d)) (adjusted d (rates env (selected d) d))).
Proof.
  intros Hd Hk.
  pose proof (calculateTaxesWithRules_dispatch w ld lr d Hd Hk) as Hrun. simpl in Hrun.
  unfold adjusted. destruct (is_Simples_Nacional d).
  - eexists _, _. split; [exact Hrun|].
    rewrite <- halve_amounts. unfold calc_of.
    rewrite heap_extend_2. cbn [taxes baseValue]. by rewrite heap_extend_0.
  - eexists _, _. split; [exact Hrun|].
    apply (calc_of_fresh w _ _ []).
Qed.

End Registry.

Section RegistryResult.

Context (env : Env).

(** Every run of the registry only adds objects to the store, and what it
    returns or throws is [registry_result] of the document. *)
Lemma calculateTaxesWithRules_run w ld lr d :
  heap w !! ld = Some (CDoc d) ->
  (exists cs, snd (calculateTaxesWithRules env ld lr w) = extend w cs) /\
  observe_outcome (calculateTaxesWithRules env ld lr w) = registry_result env d.
Proof.
  intros Hd.
  destruct (is_calculator (selected d)) eqn:Hk.
  - pose proof (calculateTaxesWithRules_dispatch env w ld lr d Hd Hk) as Hrun.
    simpl in Hrun. rewrite Hrun.
    assert (Hres : registry_result env d =
              Returned (ObsCalc (num_or_0 (totalValue d))
                (amounts (num_or_0 (totalValue d)) (adjusted d (rates env (selected d) d))))).
    { unfold registry_result. by destruct (selected d). }
    rewrite Hres. unfold adjusted.
    destruct (is_Simples_Nacional d).
    + split; [by eexists|].
      unfold observe_outcome, observe. cbn [fst snd].
      rewrite heap_extend_2. cbn [taxes baseValue]. rewrite heap_extend_0.
      by rewrite halve_amounts.
    + split; [by eexists|].
      unfold observe_outcome, observe. cbn [fst snd].
      rewrite heap_extend_1. cbn [taxes baseValue]. by rewrite heap_extend_0.
  - rewrite (calculateTaxesWithRules_unfold env _ _ _ _ Hd).
    unfold registry_result.
    destruct (selected d) eqn:Hs; try discriminate; simpl call.
    + (* constructor *)
      rewrite bind_ret_l.
      destruct (is_Simples_Nacional d) eqn:Hr.
      * throws (applySpecialRegimes_document _ _ lr _ Hd Hr).
        split; [by eexists|done].
      * returns (applySpecialRegimes_other_regime _ _ _ lr _ Hd Hr).
        split; [exists []; by rewrite extend_nil|].
        unfold observe_outcome, observe. simpl. by rewrite Hd.
    + (* toString *)
      rewrite bind_ret_l.
      destruct (is_Simples_Nacional d) eqn:Hr.
      * throws (applySpecialRegimes_string _ _ _ lr _ Hd Hr).
        split; [by eexists|done].
      * returns (applySpecialRegimes_other_regime _ _ _ lr _ Hd Hr).
        split; [exists []; by rewrite extend_nil|done].
    + rewrite bind_throw. split; [exists []; by rewrite extend_nil|done].
    + rewrite bind_throw. split; [exists []; by rewrite extend_nil|done].
Qed.

(** No object that existed before the call is changed by it, and the log,
    the database and the request list are left alone. *)
Lemma calculateTaxesWithRules_frame w ld lr d :
  heap w !! ld = Some (CDoc d) ->
  let w' := snd (calculateTaxesWithRules env ld lr w) in
  (forall l c, heap w !! l = Some c -> heap w' !! l = Some c) /\
  log w' = log w /\ documents w' = documents w /\ requests w' = requests w.
Proof.
  intros Hd w'.
  destruct (calculateTaxesWithRules_run w ld lr d Hd) as [[cs Hcs] _].
  unfold w'. rewrite Hcs. repeat split.
  intros l c Hl. rewrite heap_extend_old; [done|]. by eapply lookup_lt_Some.
Qed.

End RegistryResult.

(** ** Arithmetic of the literals *)

Lemma num_or_0_Some x : num_or_0 (Some x) = x.
Proof. unfold num_or_0. by case_decide. Qed.

Lemma strict_eq_str_true o s : strict_eq_str o s = true <-> o = Some (JStr s).
Proof.
  unfold strict_eq_str. destruct o as [[]|]; try (split; [discriminate|congruence]).
  case_decide; subst; split; congruence.
Qed.

Ltac Qc_closed := apply Qc_is_canon; vm_compute; reflexivity.

Lemma dec_165_4 : dec 165 4 = num 165 / num 10000.
Proof. Qc_closed. Qed.

Lemma dec_76_3 : dec 76 3 = num 76 / num 1000.
Proof. Qc_closed. Qed.

Lemma dec_4_2 : dec 4 2 = num 4 / num 100.
Proof. Qc_closed. Qed.

Lemma dec_5_1 : dec 5 1 = / num 2.
Proof. Qc_closed. Qed.

Lemma Qcmult_nonneg (x y : Qc) : 0 ≤ x -> 0 ≤ y -> 0 ≤ x * y.
Proof.
  intros Hx Hy. rewrite <- (Qcmult_0_l y). by apply Qcmult_le_compat_r.
Qed.

(** ** C2: the NFE calculator *)

(** C2. For a document with totalValue 1000, state "SP", operation "VENDA"
    and an empty taxInfo, the NFE calculator returns baseValue 1000 and the
    taxes ICMS = 180, PIS = 16.5, COFINS = 76, IPI = 0.  For every document,
    with base = totalValue || 0: ICMS = base x (standard ICMS rate / 100),
    IPI = base x 4% when taxInfo.ipiCategory is "basic" and 0 otherwise,
    PIS = base x 1.65%, COFINS = base x 7.6%, and there is no other
    component. *)
Theorem calculateNFETaxes_components w ld lr d :
  heap w !! ld = Some (CDoc d) ->
  exists v w' t,
    let base := num_or_0 (totalValue d) in
    calculateNFETaxes ld lr w = (Returned v, w') /\
    calc_of w' v = Some (base, t) /\
    (forall k, is_Some (t !! k) <-> k ∈ ["ICMS"; "IPI"; "PIS"; "COFINS"]) /\
    t !! "ICMS" =
      Some (base * (standard (getICMSRates (str_or (state d) "SP")
                                (str_or (operationType d) "VENDA")) / num 100)) /\
    (taxInfo_get d "ipiCategory" = Some (JStr "basic") ->
     t !! "IPI" = Some (base * (num 4 / num 100))) /\
    (taxInfo_get d "ipiCategory" <> Some (JStr "basic") -> t !! "IPI" = Some 0) /\
    t !! "PIS" = Some (base * (num 165 / num 10000)) /\
    t !! "COFINS" = Some (base * (num 76 / num 1000)) /\
    (totalValue d = Some (num 1000) -> state d = Some "SP" ->
     operationType d = Some "VENDA" -> taxInfo d = Some ∅ ->
     base = num 1000 /\
     t !! "ICMS" = Some (num 180) /\ t !! "PIS" = Some (num 165 / num 10) /\
     t !! "COFINS" = Some (num 76) /\ t !! "IPI" = Some 0).
Proof.
  intros Hd. unfold calculateNFETaxes.
  returns (readDoc_run _ _ _ Hd).
  rewrite new_calculation_run.
  eexists _, _, _. cbn zeta.
  split; [reflexivity|].
  split; [apply (calc_of_fresh w _ _ [])|].
  assert (Hbasic : taxInfo_get d "ipiCategory" = Some (JStr "basic") ->
            calculateIPI d = num_or_0 (totalValue d) * (num 4 / num 100)).
  { intros E. apply strict_eq_str_true in E.
    unfold calculateIPI. by rewrite E, dec_4_2. }
  assert (Hother : taxInfo_get d "ipiCategory" <> Some (JStr "basic") ->
            calculateIPI d = 0).
  { intros E. unfold calculateIPI.
    destruct (strict_eq_str _ _) eqn:E'; [|done].
    by apply strict_eq_str_true in E'. }
  split; [|split; [|split; [|split; [|split; [|split]]]]].
  - intros k. rewrite !lookup_insert_is_Some, lookup_singleton_is_Some.
    rewrite !elem_of_cons, elem_of_nil. naive_solver.
  - by rewrite lookup_insert_eq.
  - intros E. rewrite lookup_insert_ne, lookup_insert_eq by done. by rewrite Hbasic.
  - intros E. rewrite lookup_insert_ne, lookup_insert_eq by done. by rewrite Hother.
  - rewrite !lookup_insert_ne, lookup_insert_eq by done.
    unfold PIS_rate. by rewrite dec_165_4.
  - rewrite !lookup_insert_ne, lookup_singleton_eq by done.
    unfold COFINS_rate. by rewrite dec_76_3.
  - intros Htv Hst Hop Hti.
    rewrite Hother by (unfold taxInfo_get; by rewrite Hti, lookup_empty).
    rewrite Htv, Hst, Hop.
    rewrite lookup_insert_eq.
    rewrite (lookup_insert_ne _ "ICMS" "IPI"), lookup_insert_eq by done.
    rewrite (lookup_insert_ne _ "ICMS" "PIS"), (lookup_insert_ne _ "IPI" "PIS"),
      lookup_insert_eq by done.
    rewrite (lookup_insert_ne _ "ICMS" "COFINS"), (lookup_insert_ne _ "IPI" "COFINS"),
      (lookup_insert_ne _ "PIS" "COFINS"), lookup_singleton_eq by done.
    repeat split; f_equal; Qc_closed.
Qed.

Lemma calculateNFETaxes_components_witness :
  heap (Script.world_of Script.nfe_1000) !! 0%nat = Some (CDoc Script.nfe_1000) /\
  exists v w' t,
    calculateNFETaxes 0%nat 1%nat (Script.world_of Script.nfe_1000) = (Returned v, w') /\
    calc_of w' v = Some (num 1000, t) /\
    t !! "ICMS" = Some (num 180) /\ t !! "PIS" = Some (num 165 / num 10) /\
    t !! "COFINS" = Some (num 76) /\ t !! "IPI" = Some 0.
Proof.
  split; [reflexivity|].
  destruct (calculateNFETaxes_components (Script.world_of Script.nfe_1000) 0%nat 1%nat
              Script.nfe_1000 eq_refl)
    as (v & w' & t & Hrun & Hcalc & _ & _ & _ & _ & _ & _ & Hex).
  destruct (Hex eq_refl eq_refl eq_refl eq_refl) as (Hb & H1 & H2 & H3 & H4).
  cbn zeta in *. exists v, w', t.
  split; [exact Hrun|]. split; [by rewrite <- Hb|]. auto.
Defined.

(** In binary64 the example comes out exactly as well. *)
Lemma calculateNFETaxes_binary64_example :
  calculateNFETaxes_binary64 1000 18 false = (180, 0, 16.5, 76)%float.
Proof. vm_compute. reflexivity. Qed.

(** ** C4: the Simples Nacional adjustment *)

Lemma calc_of_Some w v b t :
  calc_of w v = Some (b, t) ->
  exists l c, v = VRef l /\ heap w !! l = Some (CCalc c) /\
              heap w !! taxes c = Some (CTaxes t) /\ baseValue c = b.
Proof.
  unfold calc_of. destruct v as [l|]; [|discriminate].
  destruct (heap w !! l) as [[]|] eqn:Hl; try discriminate.
  destruct (heap w !! taxes c) as [[]|] eqn:Ht; try discriminate.
  intros [= <- <-]. by exists l, c.
Qed.

(** C4. For every base calculation whose taxes include an ICMS component:
    when the document has taxInfo.regime equal to "Simples Nacional",
    applySpecialRegimes returns a calculation whose ICMS is half the base
    ICMS, with the same baseValue and every other component unchanged; for
    any other regime it returns the base calculation itself and changes
    nothing. *)
Theorem applySpecialRegimes_halves_ICMS w base ld lr d b t ICMS :
  heap w !! ld = Some (CDoc d) ->
  calc_of w base = Some (b, t) ->
  t !! "ICMS" = Some ICMS ->
  (taxInfo_get d "regime" = Some (JStr "Simples Nacional") ->
   exists v w' t',
     applySpecialRegimes base ld lr w = (Returned v, w') /\
     calc_of w' v = Some (b, t') /\
     t' !! "ICMS" = Some (ICMS / num 2) /\
     forall k, k <> "ICMS" -> t' !! k = t !! k) /\
  (taxInfo_get d "regime" <> Some (JStr "Simples Nacional") ->
   applySpecialRegimes base ld lr w = (Returned base, w)).
Proof.
  intros Hd Hcalc HICMS.
  destruct (calc_of_Some _ _ _ _ Hcalc) as (lb & c & -> & Hb & Ht & Hbase).
  split.
  - intros Hr. apply strict_eq_str_true in Hr.
    eexists _, _, (halve_ICMS t).
    split; [by apply (applySpecialRegimes_Simples_Nacional w lb ld lr d c t)|].
    assert (Hlt : (taxes c < length (heap w))%nat) by (by eapply lookup_lt_Some).
    split; [|split].
    + unfold calc_of. cbn [heap].
      rewrite list_lookup_insert_ne by lia.
      rewrite lookup_app_r, Nat.sub_diag by lia. cbn [lookup list_lookup].
      rewrite list_lookup_insert_eq by (rewrite length_app; lia).
      by rewrite Hbase.
    + unfold halve_ICMS. rewrite lookup_alter_eq, HICMS. cbn.
      by rewrite dec_5_1.
    + intros k Hk. unfold halve_ICMS. by rewrite lookup_alter_ne.
  - intros Hr. apply applySpecialRegimes_other_regime with d; [done|].
    unfold is_Simples_Nacional.
    destruct (strict_eq_str _ _) eqn:E; [|done].
    by apply strict_eq_str_true in E.
Qed.

Lemma applySpecialRegimes_halves_ICMS_witness :
  let d := Script.with_regime "Simples Nacional" Script.nfe_1000 in
  let w := mkWorld [CDoc d; CRules []; CTaxes {["ICMS" := num 180]};
                    CCalc (mkTaxCalculation (num 1000) 2%nat)] [] [] [] in
  exists v w' t',
    applySpecialRegimes (VRef 3%nat) 0%nat 1%nat w = (Returned v, w') /\
    calc_of w' v = Some (num 1000, t') /\
    t' !! "ICMS" = Some (num 180 / num 2) /\
    forall k, k <> "ICMS" -> t' !! k = ({["ICMS" := num 180]} : gmap string Qc) !! k.
Proof.
  intros d w.
  exact (proj1 (applySpecialRegimes_halves_ICMS w (VRef 3%nat) 0%nat 1%nat d (num 1000)
                  {["ICMS" := num 180]} (num 180) eq_refl eq_refl eq_refl) eq_refl).
Defined.

(** The adjuster updates the amounts in place: [newCalc] is a new object,
    but its [taxes] is the object of the base calculation, so the base
    calculation reads with the halved ICMS afterwards. *)
Lemma applySpecialRegimes_updates_shared_taxes w lb ld lr d c t :
  heap w !! ld = Some (CDoc d) ->
  is_Simples_Nacional d = true ->
  heap w !! lb = Some (CCalc c) ->
  heap w !! taxes c = Some (CTaxes t) ->
  let w' := snd (applySpecialRegimes (VRef lb) ld lr w) in
  fst (applySpecialRegimes (VRef lb) ld lr w) = Returned (VRef (length (heap w))) /\
  lb <> length (heap w) /\
  calc_of w' (VRef lb) = Some (baseValue c, halve_ICMS t) /\
  calc_of w' (VRef (length (heap w))) = Some (baseValue c, halve_ICMS t).
Proof.
  intros Hd Hr Hb Ht.
  rewrite (applySpecialRegimes_Simples_Nacional w lb ld lr d c t Hd Hr Hb Ht).
  assert (Hlt : (taxes c < length (heap w))%nat) by (by eapply lookup_lt_Some).
  assert (Hlb : (lb < length (heap w))%nat) by (by eapply lookup_lt_Some).
  assert (Hne : lb <> taxes c) by (intros ->; rewrite Hb in Ht; discriminate).
  cbn [fst snd]. split; [done|]. split; [lia|].
  unfold calc_of. cbn [heap]. split.
  - rewrite list_lookup_insert_ne by done.
    rewrite lookup_app_l, Hb by done.
    by rewrite list_lookup_insert_eq by (rewrite length_app; lia).
  - rewrite list_lookup_insert_ne by lia.
    rewrite lookup_app_r, Nat.sub_diag by lia. cbn [lookup list_lookup].
    by rewrite list_lookup_insert_eq by (rewrite length_app; lia).
Qed.

(** ** C5: unknown document types *)

Lemma observe_calc w v b t : calc_of w v = Some (b, t) <-> observe w v = ObsCalc b t.
Proof.
  unfold calc_of, observe. destruct v as [l|]; [|split; discriminate].
  destruct (heap w !! l) as [[]|]; try (split; discriminate).
  destruct (heap w !! taxes c) as [[]|]; try (split; discriminate).
  split; congruence.
Qed.

(** A type that is neither a registered name nor a member inherited from
    [Object.prototype] selects the NFE calculator. *)
Lemma selected_default d :
  dispatches d ->
  property_key (documentType d) ∉ ["NFE"; "NFSE"; "NFCE"; "CTE"] ->
  selected d = calculator_NFE.
Proof.
  unfold dispatches, selected, taxCalculations. intros Hp Hk.
  rewrite !not_elem_of_cons in Hk. destruct Hk as (? & ? & ? & ? & _).
  rewrite !decide_False by done. by rewrite Hp.
Qed.

Lemma dispatches_is_calculator d : dispatches d <-> is_calculator (selected d) = true.
Proof.
  unfold dispatches, selected, taxCalculations.
  repeat (case_decide; [split; [done|]; intros _; subst;
                        match goal with H : _ = _ |- _ => by rewrite H end|]).
  unfold Object_prototype.
  repeat (case_decide; [split; done|]). done.
Qed.

(** For a type outside the registry that names no inherited member, the
    registry returns the NFE calculation with the regime adjustment. *)
Lemma calculateTaxesWithRules_default env w ld lr d :
  heap w !! ld = Some (CDoc d) ->
  dispatches d ->
  property_key (documentType d) ∉ ["NFE"; "NFSE"; "NFCE"; "CTE"] ->
  calculateTaxesWithRules env ld lr w =
  (baseCalculation ← calculateNFETaxes ld lr;
   applySpecialRegimes baseCalculation ld lr) w.
Proof.
  intros Hd Hp Hk. rewrite (calculateTaxesWithRules_unfold env _ _ _ _ Hd).
  rewrite (selected_default d Hp Hk). simpl call.
  rewrite !bind_run. destruct (calculateNFETaxes ld lr w) as [[v| |] w1]; try done.
  rewrite bind_run. by destruct (applySpecialRegimes v ld lr w1) as [[| |] ?].
Qed.

(** C5 (the code departs from the claim).  With documentType "constructor",
    a type outside NFE, NFSE, NFCE and CTE, the registry does not run the
    NFE calculator: the lookup finds the inherited [Object] function,
    which returns the document itself.  No calculation object is created
    and the value returned is not a tax calculation, whereas the NFE
    calculator on the same document yields baseValue 1000 with ICMS 180. *)
Theorem calculateTaxesWithRules_constructor_type :
  let d := Script.with_type "constructor" Script.nfe_1000 in
  let w := Script.world_of d in
  documentType d = Some "constructor" /\
  calculateTaxesWithRules Script.healthy 0%nat 1%nat w = (Returned (VRef 0%nat), w) /\
  observe w (VRef 0%nat) = ObsDoc d /\
  calc_of w (VRef 0%nat) = None /\
  exists v w' t,
    calculateNFETaxes 0%nat 1%nat w = (Returned v, w') /\
    calc_of w' v = Some (num 1000, t) /\ t !! "ICMS" = Some (num 180).
Proof.
  intros d w. repeat split.
  eexists _, _, _. split; [vm_compute; reflexivity|].
  split; [vm_compute; reflexivity|].
  vm_compute. f_equal. Qc_closed.
Qed.

(** ** C8: amounts are non-negative and monotone in the total value *)

Lemma getICMSRates_nonneg st op :
  0 ≤ standard (getICMSRates st op) / num 100 /\
  0 ≤ reduced (getICMSRates st op) / num 100.
Proof. unfold getICMSRates. repeat case_decide; by vm_compute. Qed.

Lemma rates_nonneg env k d key r : rates env k d !! key = Some r -> 0 ≤ r.
Proof.
  pose proof (getICMSRates_nonneg (str_or (state d) "SP")
                (str_or (operationType d) "VENDA")) as [Hs Hr].
  destruct k; unfold rates; try (rewrite lookup_empty; discriminate);
    repeat (rewrite lookup_insert; case_decide;
            [intros [= <-]; try done;
             try (by vm_compute);
             try (destruct (strict_eq_str _ _); by vm_compute);
             try (case_decide; by vm_compute) |]);
    rewrite lookup_singleton_Some; intros [_ <-]; by vm_compute.
Qed.

Lemma adjusted_nonneg env k d key r :
  adjusted d (rates env k d) !! key = Some r -> 0 ≤ r.
Proof.
  unfold adjusted. destruct (is_Simples_Nacional d); [|apply rates_nonneg].
  rewrite lookup_alter. case_decide; [subst key|apply rates_nonneg].
  destruct (rates env k d !! "ICMS") as [x|] eqn:E; [|discriminate].
  intros [= <-]. apply Qcmult_nonneg; [by eapply rates_nonneg|by vm_compute].
Qed.

Lemma same_but_totalValue_rates env d1 d2 :
  same_but_totalValue d1 d2 ->
  selected d1 = selected d2 /\
  forall k, adjusted d1 (rates env k d1) = adjusted d2 (rates env k d2).
Proof.
  intros (Ht & Hs & Hm & Ho & Hi). split.
  - unfold selected. by rewrite Ht.
  - intros k. unfold adjusted, is_Simples_Nacional, rates, taxInfo_get.
    by rewrite Hs, Hm, Ho, Hi.
Qed.

(** A run of the registry that returns a calculation returns the base
    value times the adjusted rates of the selected calculator. *)
Lemma calculateTaxesWithRules_calc env w ld lr d v w' b t :
  heap w !! ld = Some (CDoc d) ->
  calculateTaxesWithRules env ld lr w = (Returned v, w') ->
  calc_of w' v = Some (b, t) ->
  is_calculator (selected d) = true /\
  b = num_or_0 (totalValue d) /\
  t = amounts (num_or_0 (totalValue d)) (adjusted d (rates env (selected d) d)).
Proof.
  intros Hd Hrun Hcalc.
  destruct (calculateTaxesWithRules_run env w ld lr d Hd) as [_ Hobs].
  rewrite Hrun in Hobs. unfold observe_outcome in Hobs. cbn [fst snd] in Hobs.
  apply observe_calc in Hcalc. rewrite Hcalc in Hobs.
  unfold registry_result in Hobs.
  destruct (selected d); try destruct (is_Simples_Nacional d); try discriminate;
    by injection Hobs as -> ->.
Qed.

(** A type that names a member inherited from [Object.prototype] never
    yields a calculation. *)
Lemma calculateTaxesWithRules_inherited env w ld lr d v w' :
  heap w !! ld = Some (CDoc d) ->
  ~ dispatches d ->
  calculateTaxesWithRules env ld lr w = (Returned v, w') ->
  calc_of w' v = None.
Proof.
  intros Hd Hn Hrun.
  destruct (calc_of w' v) as [[b t]|] eqn:Hcalc; [|done].
  destruct (calculateTaxesWithRules_calc env _ _ _ _ _ _ _ _ Hd Hrun Hcalc) as [Hk _].
  by apply dispatches_is_calculator in Hk.
Qed.

(** C8. For every document with totalValue >= 0 and every rule list: when
    the document type selects a calculator, the registry (with the regime
    adjuster) returns a calculation; every amount of a calculation it
    returns is >= 0; and for a document that differs only by a larger
    totalValue the registry returns a calculation with the same components,
    each at least as large. *)
Theorem tax_amounts_nonneg_monotone env w1 w2 ld1 ld2 lr1 lr2 d1 d2 x1 x2 :
  heap w1 !! ld1 = Some (CDoc d1) ->
  heap w2 !! ld2 = Some (CDoc d2) ->
  same_but_totalValue d1 d2 ->
  totalValue d1 = Some x1 ->
  totalValue d2 = Some x2 ->
  0 ≤ x1 ->
  x1 ≤ x2 ->
  (dispatches d1 ->
   exists v1 w1' b1 t1,
     calculateTaxesWithRules env ld1 lr1 w1 = (Returned v1, w1') /\
     calc_of w1' v1 = Some (b1, t1)) /\
  (forall v1 w1' b1 t1,
     calculateTaxesWithRules env ld1 lr1 w1 = (Returned v1, w1') ->
     calc_of w1' v1 = Some (b1, t1) ->
     (forall k a, t1 !! k = Some a -> 0 ≤ a) /\
     exists v2 w2' b2 t2,
       calculateTaxesWithRules env ld2 lr2 w2 = (Returned v2, w2') /\
       calc_of w2' v2 = Some (b2, t2) /\
       forall k a1, t1 !! k = Some a1 -> exists a2, t2 !! k = Some a2 /\ a1 ≤ a2).
Proof.
  intros Hd1 Hd2 Hsame Hx1 Hx2 Hpos Hle.
  destruct (same_but_totalValue_rates env d1 d2 Hsame) as [Hsel Hrates].
  split.
  - intros Hdisp. apply dispatches_is_calculator in Hdisp.
    destruct (calculateTaxesWithRules_dispatch_observed env w1 ld1 lr1 d1 Hd1 Hdisp)
      as (v & w' & Hrun & Hcalc).
    by eexists _, _, _, _.
  - intros v1 w1' b1 t1 Hrun Hcalc.
    destruct (calculateTaxesWithRules_calc env _ _ _ _ _ _ _ _ Hd1 Hrun Hcalc)
      as (Hk & -> & ->).
    rewrite Hx1, num_or_0_Some. split.
    + intros k a. unfold amounts. rewrite lookup_fmap.
      destruct (adjusted d1 (rates env (selected d1) d1) !! k) as [r|] eqn:E;
        [|discriminate].
      intros [= <-]. apply Qcmult_nonneg; [done|by eapply adjusted_nonneg].
    + rewrite Hsel in Hk.
      destruct (calculateTaxesWithRules_dispatch_observed env w2 ld2 lr2 d2 Hd2 Hk)
        as (v2 & w2' & Hrun2 & Hcalc2).
      eexists _, _, _, _. split; [exact Hrun2|]. split; [exact Hcalc2|].
      intros k a1. rewrite Hx2, num_or_0_Some, <- Hrates, <- Hsel.
      unfold amounts. rewrite !lookup_fmap.
      destruct (adjusted d1 (rates env (selected d1) d1) !! k) as [r|] eqn:E;
        [|discriminate].
      intros [= <-]. eexists. split; [reflexivity|].
      apply Qcmult_le_compat_r; [done|by eapply adjusted_nonneg].
Qed.

Lemma tax_amounts_nonneg_monotone_witness :
  let d1 := Script.nfe_1000 in
  let d2 := Script.with_total (num 2000) Script.nfe_1000 in
  (0 ≤ num 1000 /\ num 1000 ≤ num 2000 /\ same_but_totalValue d1 d2) /\
  exists v1 w1' b1 t1,
    calculateTaxesWithRules Script.healthy 0%nat 1%nat (Script.world_of d1)
      = (Returned v1, w1') /\
    calc_of w1' v1 = Some (b1, t1) /\
    (forall k a, t1 !! k = Some a -> 0 ≤ a) /\
    exists v2 w2' b2 t2,
      calculateTaxesWithRules Script.healthy 0%nat 1%nat (Script.world_of d2)
        = (Returned v2, w2') /\
      calc_of w2' v2 = Some (b2, t2) /\
      forall k a1, t1 !! k = Some a1 -> exists a2, t2 !! k = Some a2 /\ a1 ≤ a2.
Proof.
  intros d1 d2.
  assert (H0 : 0 ≤ num 1000) by (by vm_compute).
  assert (H1 : num 1000 ≤ num 2000) by (by vm_compute).
  assert (Hs : same_but_totalValue d1 d2) by (by repeat split).
  split; [done|].
  destruct (tax_amounts_nonneg_monotone Script.healthy
              (Script.world_of d1) (Script.world_of d2) 0%nat 0%nat 1%nat 1%nat
              d1 d2 (num 1000) (num 2000) eq_refl eq_refl Hs eq_refl eq_refl H0 H1)
    as [Hex Hall].
  destruct (Hex eq_refl) as (v1 & w1' & b1 & t1 & Hrun & Hcalc).
  exists v1, w1', b1, t1. split; [done|]. split; [done|].
  exact (Hall v1 w1' b1 t1 Hrun Hcalc).
Defined.

(** ** C9: determinism and absence of side effects *)

Lemma registry_result_not_other env d : registry_result env d <> Returned ObsOther.
Proof.
  unfold registry_result.
  destruct (selected d); try destruct (is_Simples_Nacional d); discriminate.
Qed.

(** A value that reads as something in a store reads the same in every
    store that keeps the existing objects. *)
Lemma observe_preserved w w' v :
  (forall l c, heap w !! l = Some c -> heap w' !! l = Some c) ->
  observe w v <> ObsOther ->
  observe w' v = observe w v.
Proof.
  intros Hkeep. unfold observe. destruct v as [l|]; [|done].
  destruct (heap w !! l) as [c|] eqn:Hl; [|done].
  rewrite (Hkeep _ _ Hl). destruct c; try done.
  destruct (heap w !! taxes c) as [c'|] eqn:Ht; [|done].
  by rewrite (Hkeep _ _ Ht).
Qed.

(** C9. Calling the registry twice in a row on the same document and rule
    list gives the same result both times: the same error, or values that
    read identically (the same baseValue and the same amounts), also when
    the first result is read after the second call.  The call changes no
    object that existed before it, so the document and the rule list are
    as they were, and it leaves the log, the database and the request list
    untouched. *)
Theorem calculateTaxesWithRules_deterministic env w ld lr d rs :
  heap w !! ld = Some (CDoc d) ->
  heap w !! lr = Some (CRules rs) ->
  let first := calculateTaxesWithRules env ld lr w in
  let second := calculateTaxesWithRules env ld lr (snd first) in
  observe_outcome second = observe_outcome first /\
  match fst first with
  | Returned v => observe (snd second) v = observe (snd first) v
  | _ => True
  end /\
  (forall l c, heap w !! l = Some c -> heap (snd first) !! l = Some c) /\
  heap (snd first) !! ld = Some (CDoc d) /\
  heap (snd first) !! lr = Some (CRules rs) /\
  log (snd first) = log w /\
  documents (snd first) = documents w /\
  requests (snd first) = requests w.
Proof.
  intros Hd Hr first second.
  destruct (calculateTaxesWithRules_frame env w ld lr d Hd) as (Hkeep & Hlog & Hdb & Hreq).
  fold first in Hkeep, Hlog, Hdb, Hreq.
  pose proof (Hkeep _ _ Hd) as Hd1.
  destruct (calculateTaxesWithRules_run env w ld lr d Hd) as [_ Hobs1].
  destruct (calculateTaxesWithRules_run env (snd first) ld lr d Hd1) as [_ Hobs2].
  destruct (calculateTaxesWithRules_frame env (snd first) ld lr d Hd1) as (Hkeep2 & _).
  fold first in Hobs1. fold second in Hobs2, Hkeep2.
  split; [by rewrite Hobs1, Hobs2|].
  split; [|by auto 10].
  unfold observe_outcome in Hobs1.
  destruct (fst first) as [v| |]; try done.
  apply observe_preserved; [done|].
  intros Hother. rewrite Hother in Hobs1.
  by eapply registry_result_not_other.
Qed.

Lemma calculateTaxesWithRules_deterministic_witness :
  let d := Script.with_regime "Simples Nacional" Script.nfe_1000 in
  let w := Script.world_of d in
  let first := calculateTaxesWithRules Script.healthy 0%nat 1%nat w in
  let second := calculateTaxesWithRules Script.healthy 0%nat 1%nat (snd first) in
  observe_outcome second = observe_outcome first /\
  heap (snd first) !! 0%nat = Some (CDoc d) /\
  heap (snd first) !! 1%nat = Some (CRules []).
Proof.
  intros d w first second.
  destruct (calculateTaxesWithRules_deterministic Script.healthy w 0%nat 1%nat d []
              eq_refl eq_refl) as (H1 & _ & _ & H2 & H3 & _).
  auto.
Defined.

(** ** C6 and C7: fallbacks of the extractor and of the validator *)

Section Fallbacks.

Context (env : Env).

Lemma parse_first_choice_Some c j w :
  parsed_response env c = Some j -> parse_first_choice env c w = (Returned j, w).
Proof.
  unfold parsed_response, parse_first_choice. destruct c as [|content ?]; [done|].
  simpl. intros H. by rewrite H.
Qed.

Lemma parse_first_choice_None c w :
  parsed_response env c = None -> exists e, parse_first_choice env c w = (Thrown e, w).
Proof.
  unfold parsed_response, parse_first_choice. destruct c as [|content ?].
  - by eexists.
  - simpl. intros H. rewrite H. by eexists.
Qed.

Lemma default_documentData_is_DocumentRecord :
  DocumentRecord_of_json default_documentData = Some default_DocumentRecord.
Proof. reflexivity. Qed.

(** C6 (amended).  When the response of the structuring service is not
    JSON text (JSON.parse throws, or the completion has no choice),
    extractDocumentData does not raise: it logs the failure and returns
    the canonical default record, which is a DocumentRecord.  A response
    that is JSON text is returned as parsed, whatever its shape. *)
Theorem extractDocumentData_fallback textractResponse w c :
  chat_completions_create env "gpt-4" (extraction_request textractResponse) = inr c ->
  (parsed_response env c = None ->
   extractDocumentData env textractResponse w =
   (Returned default_documentData,
    logged w error "Failed to parse GPT response for documentData")) /\
  (forall j, parsed_response env c = Some j ->
             extractDocumentData env textractResponse w = (Returned j, w)) /\
  DocumentRecord_of_json default_documentData = Some default_DocumentRecord.
Proof.
  intros Hchat. unfold extractDocumentData. fold (extraction_request textractResponse).
  rewrite Hchat. simpl await. rewrite bind_ret_l.
  split; [|split; [|reflexivity]].
  - intros Hp. destruct (parse_first_choice_None c w Hp) as [e He].
    rewrite bind_run. unfold try_catch. by rewrite He.
  - intros j Hp. rewrite bind_run. unfold try_catch.
    by rewrite (parse_first_choice_Some c j w Hp).
Qed.

(** C7 (amended).  When the response of the judgment service is not JSON
    text, validateCompliance does not raise: it logs the failure and
    returns the fallback with status "warning", the single issue "Could
    not parse GPT response" and no suggestion.  A response that is JSON
    text is returned as parsed, whatever its shape. *)
Theorem validateCompliance_fallback w ld lr d rs c :
  heap w !! ld = Some (CDoc d) ->
  heap w !! lr = Some (CRules rs) ->
  chat_completions_create env "gpt-4" (validation_request d rs) = inr c ->
  (parsed_response env c = None ->
   validateCompliance env ld lr w =
   (Returned fallback_validationResult,
    logged w error "validateCompliance: GPT parse error")) /\
  (forall j, parsed_response env c = Some j ->
             validateCompliance env ld lr w = (Returned j, w)) /\
  ComplianceResult_of_json fallback_validationResult =
    Some (mkCompliance warning ["Could not parse GPT response"] []).
Proof.
  intros Hd Hr Hchat. unfold validateCompliance.
  returns (readDoc_run _ _ _ Hd).
  assert (Hrules : readRules lr w = (Returned rs, w)).
  { unfold readRules. by returns (deref_run _ _ _ Hr). }
  returns Hrules.
  fold (validation_request d rs). rewrite Hchat. simpl await. rewrite bind_ret_l.
  split; [|split; [|reflexivity]].
  - intros Hp. destruct (parse_first_choice_None c w Hp) as [e He].
    rewrite bind_run. unfold try_catch. by rewrite He.
  - intros j Hp. rewrite bind_run. unfold try_catch.
    by rewrite (parse_first_choice_Some c j w Hp).
Qed.

End Fallbacks.

(** The service answers in prose: the extractor falls back. *)
Lemma extractDocumentData_fallback_witness :
  let env := Script.answering [Some "I could not read the document."] []
               (inr []) in
  parsed_response env [Some "I could not read the document."] = None /\
  extractDocumentData env JNull Script.empty_world =
  (Returned default_documentData,
   logged Script.empty_world error "Failed to parse GPT response for documentData").
Proof.
  intros env. split; [reflexivity|].
  exact (proj1 (extractDocumentData_fallback env JNull Script.empty_world
                  [Some "I could not read the document."] eq_refl) eq_refl).
Defined.

(** C6 as stated fails: the response [[]] is JSON text and is not a
    DocumentRecord, and the extractor returns it instead of the default
    record. *)
Lemma extractDocumentData_returns_other_json :
  let env := Script.answering [Some "[]"] [] (inr []) in
  parsed_response env [Some "[]"] = Some (JArr []) /\
  DocumentRecord_of_json (JArr []) = None /\
  extractDocumentData env JNull Script.empty_world
    = (Returned (JArr []), Script.empty_world) /\
  JArr [] <> default_documentData.
Proof. intros env. repeat split. discriminate. Qed.

Lemma validateCompliance_fallback_witness :
  let env := Script.answering [] [Some "The document looks fine."] (inr []) in
  let w := Script.world_of Script.nfe_1000 in
  parsed_response env [Some "The document looks fine."] = None /\
  validateCompliance env 0%nat 1%nat w =
  (Returned fallback_validationResult,
   logged w error "validateCompliance: GPT parse error").
Proof.
  intros env w. split; [reflexivity|].
  exact (proj1 (validateCompliance_fallback env w 0%nat 1%nat Script.nfe_1000 []
                  [Some "The document looks fine."] eq_refl eq_refl eq_refl) eq_refl).
Defined.

(** C7 as stated fails: the response [[]] is JSON text and is not a
    ComplianceResult, and the validator returns it instead of the
    fallback. *)
Lemma validateCompliance_returns_other_json :
  let env := Script.answering [] [Some "[]"] (inr []) in
  let w := Script.world_of Script.nfe_1000 in
  parsed_response env [Some "[]"] = Some (JArr []) /\
  ComplianceResult_of_json (JArr []) = None /\
  validateCompliance env 0%nat 1%nat w = (Returned (JArr []), w) /\
  JArr [] <> fallback_validationResult.
Proof. intros env w. repeat split. discriminate. Qed.

(** ** C1: a failing rule search *)

Section Orchestrator.

Context (env : Env).

(** A failure of the search service is logged and thrown again. *)
Lemma searchTaxRules_rethrows query documentType e w :
  brave_call env (search_string query documentType) = inl e ->
  searchTaxRules env query documentType None None w =
  (Thrown e, logged w error "Error in tax rule search").
Proof.
  intros Hb. unfold searchTaxRules, try_catch.
  cbv beta zeta iota delta [truthy_str].
  fold (search_string query documentType). rewrite Hb. reflexivity.
Qed.

(** Storing the document never throws and leaves the store of objects
    alone. *)
Lemma storeDocumentInDb_returns userId ld d w :
  heap w !! ld = Some (CDoc d) ->
  exists w', storeDocumentInDb env userId ld w = (Returned tt, w') /\ heap w' = heap w.
Proof.
  intros Hd. unfold storeDocumentInDb, try_catch.
  returns (readDoc_run _ _ _ Hd).
  unfold insert_document. rewrite !bind_run.
  destruct (db_run env _) as [e|[]]; simpl; by eexists.
Qed.

(** C1 (amended).  In a run in which a DocumentRecord was produced, a
    failure of searchTaxRules aborts processDocument: the error is logged
    and thrown again, and no PipelineResult is returned. *)
Theorem processDocument_search_failure buffer mimeType userId w tr j w1 d e :
  textract_detectDocumentText env buffer = inr tr ->
  extractDocumentData env tr (logged w info "Starting document processing")
    = (Returned j, w1) ->
  DocumentRecord_of_json j = Some d ->
  (forall w2, exists w3,
      searchTaxRules env (rule_query d) (documentType d) None None w2 = (Thrown e, w3)) ->
  exists w3,
    processDocument env buffer mimeType userId w =
    (Thrown e, logged w3 error "Document processing error").
Proof.
  intros Htex Hext Hdoc Hsearch.
  unfold processDocument. rewrite bind_run.
  change (logger info "Starting document processing" w)
    with (Returned tt, logged w info "Starting document processing").
  cbv iota beta. unfold try_catch at 1.
  rewrite Htex. simpl await. rewrite bind_ret_l.
  returns Hext.
  assert (Has : as_document j w1 = (Returned (length (heap w1)), extend w1 [CDoc d])).
  { unfold as_document. by rewrite Hdoc. }
  returns Has.
  set (ld := length (heap w1)).
  assert (Hd : heap (extend w1 [CDoc d]) !! ld = Some (CDoc d)) by apply heap_extend_0.
  assert (Hstore : exists w2,
             match userId with
             | Some u => if decide (u = 0%Z) then mret tt else storeDocumentInDb env u ld
             | None => mret tt
             end (extend w1 [CDoc d]) = (Returned tt, w2) /\
             heap w2 = heap (extend w1 [CDoc d])).
  { destruct userId as [u|]; [|by eexists].
    case_decide; [by eexists|]. by apply storeDocumentInDb_returns with d. }
  destruct Hstore as (w2 & Hstore & Hheap).
  returns Hstore.
  assert (Hd2 : heap w2 !! ld = Some (CDoc d)) by (by rewrite Hheap).
  returns (readDoc_run _ _ _ Hd2).
  destruct (Hsearch w2) as [w3 Hw3].
  fold (rule_query d). throws Hw3.
  by exists w3.
Qed.

End Orchestrator.

(** The search service is down: no PipelineResult comes back. *)
Lemma processDocument_search_failure_witness :
  exists j w1 w3,
    extractDocumentData Script.search_down (JObj [("Blocks", JArr [])])
      (logged Script.empty_world info "Starting document processing") = (Returned j, w1) /\
    DocumentRecord_of_json j = Some (Script.with_type "NFE" Script.nfe_1000) /\
    processDocument Script.search_down "scan" "application/pdf" (Some 7%Z)
      Script.empty_world =
    (Thrown (ServiceError "brave"), logged w3 error "Document processing error").
Proof.
  eexists _, _.
  assert (Hext : extractDocumentData Script.search_down (JObj [("Blocks", JArr [])])
                   (logged Script.empty_world info "Starting document processing")
                 = (Returned (JObj [("documentType", JStr "NFE");
                                    ("totalValue", JNum (num 1000));
                                    ("state", JStr "SP");
                                    ("operationType", JStr "VENDA");
                                    ("taxInfo", JObj [])]),
                    logged Script.empty_world info "Starting document processing")).
  { vm_compute. reflexivity. }
  assert (Hdoc : DocumentRecord_of_json
                   (JObj [("documentType", JStr "NFE");
                          ("totalValue", JNum (num 1000));
                          ("state", JStr "SP");
                          ("operationType", JStr "VENDA");
                          ("taxInfo", JObj [])])
                 = Some (Script.with_type "NFE" Script.nfe_1000)) by reflexivity.
  destruct (processDocument_search_failure Script.search_down "scan" "application/pdf"
              (Some 7%Z) Script.empty_world _ _ _ _ (ServiceError "brave")
              eq_refl Hext Hdoc
              (fun w2 => ex_intro _ _
                 (searchTaxRules_rethrows Script.search_down _ _ _ w2 eq_refl)))
    as [w3 Hrun].
  exists w3. split; [exact Hext|]. split; [exact Hdoc|exact Hrun].
Defined.

(** C1 as stated fails: with the search service down, a run whose
    extraction produced a DocumentRecord throws the search error instead
    of returning a PipelineResult with an empty rule list. *)
Lemma processDocument_aborts_when_search_is_down :
  (exists j w1 d,
     extractDocumentData Script.search_down (JObj [("Blocks", JArr [])])
       (logged Script.empty_world info "Starting document processing")
     = (Returned j, w1) /\
     DocumentRecord_of_json j = Some d) /\
  fst (searchTaxRules Script.search_down "NFE VENDA SP" (Some "NFE") None None
         Script.empty_world) = Thrown (ServiceError "brave") /\
  fst (processDocument Script.search_down "scan" "application/pdf" (Some 7%Z)
         Script.empty_world) = Thrown (ServiceError "brave") /\
  forall r, fst (processDocument Script.search_down "scan" "application/pdf" (Some 7%Z)
                   Script.empty_world) <> Returned r.
Proof.
  split; [|split; [|split]].
  - eexists _, _, _. split; vm_compute; reflexivity.
  - vm_compute. reflexivity.
  - vm_compute. reflexivity.
  - intros r. vm_compute. discriminate.
Qed.

(** ** C3: what the rule search indexes *)

Section Search.

Context (env : Env).

Lemma embedDocuments_contents texts w vs w' :
  embedDocuments env texts w = (Returned vs, w') ->
  w' = w /\ map (fun v => (vec_content v, vec_source v)) vs = texts.
Proof.
  revert vs. induction texts as [|[text src] rest IH]; intros vs; simpl.
  - by intros [= <- <-].
  - rewrite bind_run. destruct (embed env text) as [e|x]; simpl; [discriminate|].
    rewrite bind_run. destruct (embedDocuments env rest w) as [[vs'| |] w1] eqn:E;
      try discriminate.
    intros [= <- <-]. destruct (IH vs' eq_refl) as [-> <-]. by split.
Qed.

Lemma insert_by_score_perm x l : insert_by_score x l ≡ₚ x :: l.
Proof.
  induction l as [|y ys IH]; simpl; [done|].
  case_decide; [|done]. rewrite IH. apply Permutation_swap.
Qed.

Lemma sort_by_score_perm l : sort_by_score l ≡ₚ l.
Proof.
  induction l as [|x l IH]; simpl; [done|].
  by rewrite insert_by_score_perm, IH.
Qed.



(** Whatever the search returns, it returns at most five excerpts, and
    each one is the whole page of a retrieved document: no page is cut
    into windows before it is indexed. *)
Lemma processTaxRuleSearch_whole_documents docs query w l w' :
  processTaxRuleSearch env docs query w = (Returned l, w') ->
  exists rs, rules_of w' l = Some rs /\ (length rs <= 5)%nat /\
    forall r, r ∈ rs ->
      exists doc, doc ∈ docs /\ pageContent r = doc_pageContent doc /\
                  source r = doc_source doc.
Proof.
  unfold processTaxRuleSearch, MemoryVectorStore_fromTexts. cbv zeta.
  rewrite bind_run.
  destruct (embedDocuments env _ w) as [[vs| |] w1] eqn:E; try discriminate.
  apply embedDocuments_contents in E as [-> Hvs].
  unfold similaritySearch. rewrite !bind_run.
  destruct (embed env query) as [e|qv]; simpl; [discriminate|].
  intros [= <- <-]. eexists. split.
  { unfold rules_of. cbn [heap]. rewrite lookup_app_r, Nat.sub_diag by lia. reflexivity. }
  split; [rewrite length_map, length_take; lia|].
  intros r Hr. apply list_elem_of_fmap in Hr as [[score v] [-> Hin]].
  apply elem_of_take in Hin as (i & Hin & _).
  apply list_elem_of_lookup_2 in Hin.
  rewrite sort_by_score_perm in Hin.
  apply list_elem_of_fmap in Hin as [v' [[= _ ->] Hv']].
  assert (Hpair : (vec_content v', vec_source v') ∈
                  zip (map doc_pageContent docs) (map doc_source docs)).
  { rewrite <- Hvs. by apply (list_elem_of_fmap_2 (fun v => (vec_content v, vec_source v))). }
  clear -Hpair. simpl. induction docs as [|doc rest IH]; simpl in Hpair.
  - by apply elem_of_nil in Hpair.
  - apply elem_of_cons in Hpair as [[= -> ->]|Hrest].
    + exists doc. split; [left|done].
    + destruct (IH Hrest) as (doc' & ? & ? & ?). exists doc'. split; [by right|done].
Qed.

End Search.

(** C3 (the code departs from the claim).  A retrieved document of 1500
    characters is not split into windows of 1000 characters with an
    overlap of 200: the splitter is configured and never applied, the
    whole page is embedded, and the search returns it as one excerpt of
    1500 characters. *)
Theorem processTaxRuleSearch_does_not_split :
  let text := Script.page 1500 in
  String.length text = 1500%nat /\
  exists l w',
    processTaxRuleSearch Script.healthy [Script.hit text] "ICMS" Script.empty_world
      = (Returned l, w') /\
    rules_of w' l = Some [mkExcerpt text (Some "https://www.gov.br/receitafederal")].
Proof.
  intros text. split; [by vm_compute|].
  eexists _, _. split; vm_compute; reflexivity.
Qed.

(** ** C10: structure checks before the SEFAZ call *)

Lemma truthy_str_false x : truthy_str x = false <-> lacks x.
Proof.
  unfold truthy_str, lacks. destruct x as [s|]; [|naive_solver].
  case_decide; naive_solver.
Qed.

Lemma total_check x :
  match x with
  | Some q => bool_decide (q = 0) || bool_decide (q ≤ 0)
  | None => true
  end = true <-> invalid_total x.
Proof.
  unfold invalid_total. destruct x as [q|]; [|naive_solver].
  rewrite orb_true_iff, !bool_decide_eq_true. split.
  - intros [->|Hq]; right; eexists; split; try done.
  - intros [|(q' & [= <-] & Hq)]; [done|by right].
Qed.

Lemma fails_checks_spec nfeData :
  fails_checks nfeData = true <-> structurally_invalid nfeData.
Proof.
  unfold fails_checks, structurally_invalid.
  rewrite !orb_true_iff, !negb_true_iff, !truthy_str_false, total_check. tauto.
Qed.

Section NFe.

Context (env : Env).

(** Every call of the SEFAZ validation records exactly one request, for
    the given key. *)
Lemma validateNFeWithSEFAZ_contacts key w :
  requests (snd (validateNFeWithSEFAZ env key w)) = (requests w ++ [sefaz_url key])%list.
Proof.
  unfold validateNFeWithSEFAZ, http_get. cbv zeta. fold (sefaz_url key).
  rewrite !bind_run. simpl.
  destruct (axios_get env (sefaz_url key)) as [e|data]; simpl; [done|].
  by destruct (match valido data with Some v => truthy v | None => false end).
Qed.

Lemma validateNFeStructure_rejects nfeData w :
  fails_checks nfeData = true ->
  exists e, validateNFeStructure env nfeData w = (Thrown e, w).
Proof.
  unfold fails_checks, validateNFeStructure.
  destruct (negb (truthy_str (chaveAcesso nfeData))); [by eexists|].
  destruct (negb (truthy_str (emitente nfeData ≫= cnpj))); [by eexists|].
  simpl. intros ->. by eexists.
Qed.

Lemma validateNFeStructure_proceeds nfeData w :
  fails_checks nfeData = false ->
  exists key,
    chaveAcesso nfeData = Some key /\
    validateNFeStructure env nfeData w = validateNFeWithSEFAZ env key w.
Proof.
  unfold fails_checks, validateNFeStructure.
  destruct (chaveAcesso nfeData) as [key|]; [|discriminate].
  destruct (negb (truthy_str (Some key))); [discriminate|].
  destruct (negb (truthy_str (emitente nfeData ≫= cnpj))); [discriminate|].
  simpl. intros ->. exists key. split; [done|].
  rewrite bind_run. by destruct (validateNFeWithSEFAZ env key w) as [[| |] ?].
Qed.

(** C10.  validateNFeStructure raises without contacting SEFAZ exactly
    when the record lacks a chaveAcesso, lacks an emitente CNPJ, or has a
    totalValue that is missing, zero or negative; it then leaves the world
    as it was.  For every other record it performs the SEFAZ validation
    for the record's key, one request, and its outcome is the outcome of
    that validation. *)
Theorem validateNFeStructure_checks nfeData w :
  ((exists e w', validateNFeStructure env nfeData w = (Thrown e, w') /\
                 requests w' = requests w)
   <-> structurally_invalid nfeData) /\
  (structurally_invalid nfeData ->
   exists e, validateNFeStructure env nfeData w = (Thrown e, w)) /\
  (~ structurally_invalid nfeData ->
   exists key,
     chaveAcesso nfeData = Some key /\
     validateNFeStructure env nfeData w = validateNFeWithSEFAZ env key w /\
     requests (snd (validateNFeStructure env nfeData w))
       = (requests w ++ [sefaz_url key])%list).
Proof.
  rewrite <- fails_checks_spec.
  destruct (fails_checks nfeData) eqn:E.
  - destruct (validateNFeStructure_rejects nfeData w E) as [e He].
    split; [split; [done|]; intros _; by exists e, w|].
    split; [intros _; by exists e|done].
  - destruct (validateNFeStructure_proceeds nfeData w E) as (key & Hkey & Hrun).
    assert (Hreq : requests (snd (validateNFeStructure env nfeData w))
                   = (requests w ++ [sefaz_url key])%list).
    { rewrite Hrun. apply validateNFeWithSEFAZ_contacts. }
    split; [split; [|done]|].
    + intros (e & w' & He & Hw'). rewrite He in Hreq. simpl in Hreq.
      rewrite Hw' in Hreq. apply (f_equal length) in Hreq.
      rewrite length_app in Hreq. simpl in Hreq. lia.
    + split; [done|]. intros _. by exists key.
Qed.

End NFe.

Lemma validateNFeStructure_checks_witness :
  let missing_key := mkNFe None (Some (num 100)) (Some (mkEmitente (Some "12345678000195"))) in
  let complete := mkNFe (Some "3519") (Some (num 100))
                    (Some (mkEmitente (Some "12345678000195"))) in
  structurally_invalid missing_key /\
  ~ structurally_invalid complete /\
  (exists e, validateNFeStructure Script.healthy missing_key Script.empty_world
             = (Thrown e, Script.empty_world)) /\
  validateNFeStructure Script.healthy complete Script.empty_world
    = validateNFeWithSEFAZ Script.healthy "3519" Script.empty_world /\
  requests (snd (validateNFeStructure Script.healthy complete Script.empty_world))
    = [sefaz_url "3519"].
Proof.
  intros missing_key complete.
  assert (Hbad : structurally_invalid missing_key) by (left; by left).
  assert (Hok : ~ structurally_invalid complete).
  { rewrite <- fails_checks_spec. by vm_compute. }
  destruct (validateNFeStructure_checks Script.healthy missing_key Script.empty_world)
    as (_ & Hrej & _).
  destruct (validateNFeStructure_checks Script.healthy complete Script.empty_world)
    as (_ & _ & Hgo).
  destruct (Hgo Hok) as (key & [= <-] & Hrun & Hreq).
  split; [done|]. split; [done|]. split; [exact (Hrej Hbad)|]. split; [exact Hrun|exact Hreq].
Defined.

(** * Further properties of the code *)

(** ** Rate tables *)

Lemma getICMSRates_operation st op op' : getICMSRates st op = getICMSRates st op'.
Proof.
  unfold getICMSRates.
  repeat case_decide; try done; destruct_and?; subst; try done; naive_solver.
Qed.

(** X1.  The operation type never influences a tax amount: two documents
    that differ only in operationType get calculations with the same base
    value and the same amounts, whatever the document type. *)
Theorem operationType_never_matters env w1 w2 ld1 ld2 lr1 lr2 d1 d2 v1 w1' b t :
  heap w1 !! ld1 = Some (CDoc d1) ->
  heap w2 !! ld2 = Some (CDoc d2) ->
  same_but_operationType d1 d2 ->
  calculateTaxesWithRules env ld1 lr1 w1 = (Returned v1, w1') ->
  calc_of w1' v1 = Some (b, t) ->
  exists v2 w2',
    calculateTaxesWithRules env ld2 lr2 w2 = (Returned v2, w2') /\
    calc_of w2' v2 = Some (b, t).
Proof.
  intros Hd1 Hd2 (Ht & Hv & Hs & Hm & Hi) Hrun Hcalc.
  destruct (calculateTaxesWithRules_calc env _ _ _ _ _ _ _ _ Hd1 Hrun Hcalc)
    as (Hk & -> & ->).
  assert (Hsel : selected d1 = selected d2) by (unfold selected; by rewrite Ht).
  rewrite Hsel in Hk.
  destruct (calculateTaxesWithRules_dispatch_observed env w2 ld2 lr2 d2 Hd2 Hk)
    as (v2 & w2' & Hrun2 & Hcalc2).
  exists v2, w2'. split; [done|]. rewrite Hcalc2, Hv, Hsel. do 3 f_equal.
  unfold adjusted, is_Simples_Nacional, rates, taxInfo_get.
  rewrite Hs, Hm, Hi.
  by rewrite (getICMSRates_operation _ (str_or (operationType d1) "VENDA")
                (str_or (operationType d2) "VENDA")).
Qed.

Lemma operationType_never_matters_witness :
  let d1 := Script.nfe_1000 in
  let d2 := mkDocumentRecord None (Some (num 1000)) (Some "SP") None (Some "DEVOLUCAO")
              (Some ∅) in
  exists b t v1 w1' v2 w2',
    calculateTaxesWithRules Script.healthy 0%nat 1%nat (Script.world_of d1)
      = (Returned v1, w1') /\
    calc_of w1' v1 = Some (b, t) /\
    calculateTaxesWithRules Script.healthy 0%nat 1%nat (Script.world_of d2)
      = (Returned v2, w2') /\
    calc_of w2' v2 = Some (b, t).
Proof.
  intros d1 d2.
  assert (Hrun : calculateTaxesWithRules Script.healthy 0%nat 1%nat (Script.world_of d1)
                 = (Returned (VRef 3%nat),
                    snd (calculateTaxesWithRules Script.healthy 0%nat 1%nat
                           (Script.world_of d1))))
    by (vm_compute; reflexivity).
  destruct (calc_of (snd (calculateTaxesWithRules Script.healthy 0%nat 1%nat
                            (Script.world_of d1))) (VRef 3%nat)) as [[b t]|] eqn:Hcalc;
    [|vm_compute in Hcalc; discriminate].
  destruct (operationType_never_matters Script.healthy (Script.world_of d1)
              (Script.world_of d2) 0%nat 0%nat 1%nat 1%nat d1 d2 (VRef 3%nat)
              (snd (calculateTaxesWithRules Script.healthy 0%nat 1%nat
                      (Script.world_of d1))) b t
              eq_refl eq_refl (conj eq_refl (conj eq_refl (conj eq_refl
                (conj eq_refl eq_refl)))) Hrun Hcalc) as (v2 & w2' & Hrun2 & Hcalc2).
  exists b, t, (VRef 3%nat),
    (snd (calculateTaxesWithRules Script.healthy 0%nat 1%nat (Script.world_of d1))),
    v2, w2'.
  done.
Defined.

(** ** Total values at the edges *)

Lemma Qcmult_nonpos (x r : Qc) : x ≤ 0 -> 0 ≤ r -> x * r ≤ 0.
Proof.
  intros Hx Hr. rewrite <- (Qcmult_0_l r). by apply Qcmult_le_compat_r.
Qed.

(** X2.  A document whose totalValue is missing or zero is not rejected:
    for every type that selects a calculator the registry returns a
    calculation with baseValue 0 in which every amount is 0. *)
Theorem missing_totalValue_gives_zero_taxes env w ld lr d :
  heap w !! ld = Some (CDoc d) ->
  dispatches d ->
  totalValue d = None \/ totalValue d = Some 0 ->
  exists v w' t,
    calculateTaxesWithRules env ld lr w = (Returned v, w') /\
    calc_of w' v = Some (0, t) /\
    forall k a, t !! k = Some a -> a = 0.
Proof.
  intros Hd Hdisp Hzero. apply dispatches_is_calculator in Hdisp.
  destruct (calculateTaxesWithRules_dispatch_observed env w ld lr d Hd Hdisp)
    as (v & w' & Hrun & Hcalc).
  assert (Hb : num_or_0 (totalValue d) = 0).
  { destruct Hzero as [->| ->]; [done|]. apply num_or_0_Some. }
  rewrite Hb in Hcalc. eexists v, w', _. split; [done|]. split; [done|].
  intros k a. unfold amounts. rewrite lookup_fmap.
  destruct (adjusted d _ !! k); [|discriminate].
  intros [= <-]. apply Qcmult_0_l.
Qed.

Lemma missing_totalValue_gives_zero_taxes_witness :
  let d := mkDocumentRecord (Some "NFSE") None None None None None in
  exists v w' t,
    calculateTaxesWithRules Script.healthy 0%nat 1%nat (Script.world_of d)
      = (Returned v, w') /\
    calc_of w' v = Some (0, t) /\
    forall k a, t !! k = Some a -> a = 0.
Proof.
  intros d.
  apply (missing_totalValue_gives_zero_taxes Script.healthy (Script.world_of d)
           0%nat 1%nat d eq_refl eq_refl (or_introl eq_refl)).
Defined.

Lemma rates_have_a_positive_rate env k d :
  is_calculator k = true ->
  exists key r, adjusted d (rates env k d) !! key = Some r /\ 0 < r.
Proof.
  intros Hk. unfold adjusted.
  destruct k; try discriminate.
  - exists "COFINS", (dec 76 3). split; [|by vm_compute].
    destruct (is_Simples_Nacional d); [rewrite lookup_alter_ne by done|]; done.
  - exists "COFINS", (dec 76 3). split; [|by vm_compute].
    destruct (is_Simples_Nacional d); [rewrite lookup_alter_ne by done|]; done.
  - exists "COFINS", (dec 76 3). split; [|by vm_compute].
    destruct (is_Simples_Nacional d); [rewrite lookup_alter_ne by done|]; done.
  - destruct (is_Simples_Nacional d).
    + exists "ICMS", (dec 12 2 * dec 5 1). split; [|by vm_compute].
      unfold rates. by rewrite lookup_alter_eq, lookup_singleton_eq.
    + exists "ICMS", (dec 12 2). split; [|by vm_compute].
      unfold rates. by rewrite lookup_singleton_eq.
Qed.

(** X3.  A negative totalValue is not rejected or clamped: for every type
    that selects a calculator the registry returns a calculation with that
    negative baseValue, in which no amount is positive and at least one is
    negative. *)
Theorem negative_totalValue_gives_negative_taxes env w ld lr d x :
  heap w !! ld = Some (CDoc d) ->
  dispatches d ->
  totalValue d = Some x ->
  x < 0 ->
  exists v w' t,
    calculateTaxesWithRules env ld lr w = (Returned v, w') /\
    calc_of w' v = Some (x, t) /\
    (forall k a, t !! k = Some a -> a ≤ 0) /\
    (exists k a, t !! k = Some a /\ a < 0).
Proof.
  intros Hd Hdisp Hx Hneg. apply dispatches_is_calculator in Hdisp.
  destruct (calculateTaxesWithRules_dispatch_observed env w ld lr d Hd Hdisp)
    as (v & w' & Hrun & Hcalc).
  rewrite Hx, num_or_0_Some in Hcalc.
  eexists v, w', _. split; [done|]. split; [done|]. split.
  - intros k a. unfold amounts. rewrite lookup_fmap.
    destruct (adjusted d _ !! k) as [r|] eqn:E; [|discriminate].
    intros [= <-]. apply Qcmult_nonpos; [by apply Qclt_le_weak|by eapply adjusted_nonneg].
  - destruct (rates_have_a_positive_rate env (selected d) d Hdisp) as (k & r & Hr & Hpos).
    exists k, (x * r). split.
    + unfold amounts. by rewrite lookup_fmap, Hr.
    + rewrite <- (Qcmult_0_l r). by apply Qcmult_lt_compat_r.
Qed.

Lemma negative_totalValue_gives_negative_taxes_witness :
  let d := Script.with_total (num (-500)) Script.nfe_1000 in
  num (-500) < 0 /\
  exists v w' t,
    calculateTaxesWithRules Script.healthy 0%nat 1%nat (Script.world_of d)
      = (Returned v, w') /\
    calc_of w' v = Some (num (-500), t) /\
    (forall k a, t !! k = Some a -> a ≤ 0) /\
    (exists k a, t !! k = Some a /\ a < 0).
Proof.
  intros d.
  assert (Hneg : num (-500) < 0) by (by vm_compute).
  split; [done|].
  apply (negative_totalValue_gives_negative_taxes Script.healthy (Script.world_of d)
           0%nat 1%nat d (num (-500)) eq_refl eq_refl eq_refl Hneg).
Defined.

(** ** The ISS rate *)

Lemma lower_latin1_idem b : Script.lower_latin1 (Script.lower_latin1 b) = Script.lower_latin1 b.
Proof. by destruct b as [[] [] [] [] [] [] [] []]. Qed.

Lemma lower_ascii_idem a : Script.lower_ascii (Script.lower_ascii a) = Script.lower_ascii a.
Proof. by destruct a as [[] [] [] [] [] [] [] []]. Qed.

Lemma lower_ascii_not_lead a :
  (nat_of_ascii a =? 195)%nat = false ->
  (nat_of_ascii (Script.lower_ascii a) =? 195)%nat = false.
Proof. by destruct a as [[] [] [] [] [] [] [] []]. Qed.

Lemma Script_toLowerCase_idem s :
  Script.toLowerCase (Script.toLowerCase s) = Script.toLowerCase s.
Proof.
  remember (String.length s) as n eqn:Hn.
  revert s Hn. induction n as [n IH] using lt_wf_ind. intros s Hn.
  destruct s as [|a r]; [done|].
  cbn [Script.toLowerCase].
  destruct (nat_of_ascii a =? 195)%nat eqn:Ha.
  - destruct r as [|b r']; cbn [Script.toLowerCase]; rewrite Ha; [done|].
    rewrite lower_latin1_idem. do 2 f_equal.
    apply (IH (String.length r')); [simpl in Hn; lia|done].
  - cbn [Script.toLowerCase]. rewrite (lower_ascii_not_lead a Ha), lower_ascii_idem.
    f_equal. apply (IH (String.length r)); [simpl in Hn; lia|done].
Qed.

Lemma getISSRate_fallback env municipality serviceCode :
  (forall s, toLowerCase env (toLowerCase env s) = toLowerCase env s) ->
  toLowerCase env "sÃ£o paulo" <> "sÃ£o paulo" ->
  getISSRate env municipality serviceCode = num 3.
Proof.
  intros Hidem Hlit. unfold getISSRate. case_decide as Heq; [|done].
  destruct Hlit. rewrite <- Heq at 1. by rewrite Hidem.
Qed.

Lemma selected_NFSE d : documentType d = Some "NFSE" -> selected d = calculator_NFSE.
Proof. unfold selected. by intros ->. Qed.

(** X4.  The 5% branch of getISSRate is dead: the literal it compares the
    lower-cased municipality with is stored with a capital letter (the
    bytes of index.js read as "s", capital A tilde, pound sign, "o paulo"),
    so whenever toLowerCase is idempotent and changes that literal, every
    NFSE document, the one of the municipality of Sao Paulo included, gets
    an ISS amount of 3% of its base value. *)
Theorem ISS_rate_is_always_3_percent env w ld lr d :
  (forall s, toLowerCase env (toLowerCase env s) = toLowerCase env s) ->
  toLowerCase env "sÃ£o paulo" <> "sÃ£o paulo" ->
  heap w !! ld = Some (CDoc d) ->
  documentType d = Some "NFSE" ->
  exists v w' t,
    calculateTaxesWithRules env ld lr w = (Returned v, w') /\
    calc_of w' v = Some (num_or_0 (totalValue d), t) /\
    t !! "ISS" = Some (num_or_0 (totalValue d) * (num 3 / num 100)).
Proof.
  intros Hidem Hlit Hd Ht.
  pose proof (selected_NFSE d Ht) as Hsel.
  destruct (calculateTaxesWithRules_dispatch_observed env w ld lr d Hd) as (v & w' & Hrun & Hcalc).
  { by rewrite Hsel. }
  eexists v, w', _. split; [done|]. split; [done|].
  rewrite Hsel. unfold amounts, adjusted. rewrite lookup_fmap.
  assert (Hrate : rates env calculator_NFSE d !! "ISS" = Some (num 3 / num 100)).
  { unfold rates. rewrite lookup_insert_eq.
    pose proof (getISSRate_fallback env (str_or (municipality d) "SÃ£o Paulo") JNull
                  Hidem Hlit) as Hfall.
    unfold getISSRate in Hfall. by rewrite Hfall. }
  destruct (is_Simples_Nacional d); [rewrite lookup_alter_ne by done|]; by rewrite Hrate.
Qed.

Lemma ISS_rate_is_always_3_percent_witness :
  let d := mkDocumentRecord (Some "NFSE") (Some (num 1000)) (Some "SP") (Some "São Paulo")
             None None in
  exists v w' t,
    calculateTaxesWithRules Script.healthy 0%nat 1%nat (Script.world_of d)
      = (Returned v, w') /\
    calc_of w' v = Some (num_or_0 (totalValue d), t) /\
    t !! "ISS" = Some (num_or_0 (totalValue d) * (num 3 / num 100)).
Proof.
  intros d.
  assert (Hlit : toLowerCase Script.healthy "sÃ£o paulo" <> "sÃ£o paulo")
    by (vm_compute; discriminate).
  apply (ISS_rate_is_always_3_percent Script.healthy (Script.world_of d) 0%nat 1%nat d
           Script_toLowerCase_idem Hlit eq_refl eq_refl).
Defined.

(** ** Regimes and rule lists *)

Lemma alter_absent (f : Qc -> Qc) (key : string) (m : gmap string Qc) :
  m !! key = None -> alter f key m = m.
Proof.
  intros Hm. apply map_eq. intros k. destruct (decide (k = key)) as [->|Hk].
  - by rewrite lookup_alter_eq, Hm.
  - by rewrite lookup_alter_ne.
Qed.

(** X5.  The regime never influences a service invoice: two NFSE documents
    that differ only in taxInfo.regime (Simples Nacional or not) get the
    same base value and the same amounts, because the NFSE calculation has
    no ICMS component for the adjustment to act on. *)
Theorem NFSE_ignores_the_regime env w1 w2 ld1 ld2 lr1 lr2 d1 d2 :
  heap w1 !! ld1 = Some (CDoc d1) ->
  heap w2 !! ld2 = Some (CDoc d2) ->
  documentType d1 = Some "NFSE" ->
  same_but_regime d1 d2 ->
  exists v1 w1' v2 w2' b t,
    calculateTaxesWithRules env ld1 lr1 w1 = (Returned v1, w1') /\
    calculateTaxesWithRules env ld2 lr2 w2 = (Returned v2, w2') /\
    calc_of w1' v1 = Some (b, t) /\
    calc_of w2' v2 = Some (b, t) /\
    t !! "ICMS" = None.
Proof.
  intros Hd1 Hd2 Ht1 (Ht & Hv & Hs & Hm & Ho & Hi).
  assert (Ht2 : documentType d2 = Some "NFSE") by (by rewrite <- Ht).
  pose proof (selected_NFSE d1 Ht1) as Hsel1.
  pose proof (selected_NFSE d2 Ht2) as Hsel2.
  destruct (calculateTaxesWithRules_dispatch_observed env w1 ld1 lr1 d1 Hd1)
    as (v1 & w1' & Hrun1 & Hcalc1); [by rewrite Hsel1|].
  destruct (calculateTaxesWithRules_dispatch_observed env w2 ld2 lr2 d2 Hd2)
    as (v2 & w2' & Hrun2 & Hcalc2); [by rewrite Hsel2|].
  rewrite Hsel1 in Hcalc1. rewrite Hsel2 in Hcalc2.
  assert (Hno : forall d, rates env calculator_NFSE d !! "ICMS" = None) by done.
  assert (Hadj : forall d, adjusted d (rates env calculator_NFSE d)
                           = rates env calculator_NFSE d).
  { intros d. unfold adjusted. destruct (is_Simples_Nacional d); [|done].
    by apply alter_absent. }
  rewrite Hadj in Hcalc1, Hcalc2.
  assert (Hrates : rates env calculator_NFSE d2 = rates env calculator_NFSE d1).
  { unfold rates. by rewrite Hm. }
  rewrite Hrates, <- Hv in Hcalc2.
  eexists v1, w1', v2, w2', _, _.
  repeat (split; [done|]).
  unfold amounts. by rewrite lookup_fmap, Hno.
Qed.

Lemma NFSE_ignores_the_regime_witness :
  let d1 := Script.with_regime "Simples Nacional"
              (Script.with_type "NFSE" Script.nfe_1000) in
  let d2 := Script.with_type "NFSE" Script.nfe_1000 in
  exists v1 w1' v2 w2' b t,
    calculateTaxesWithRules Script.healthy 0%nat 1%nat (Script.world_of d1)
      = (Returned v1, w1') /\
    calculateTaxesWithRules Script.healthy 0%nat 1%nat (Script.world_of d2)
      = (Returned v2, w2') /\
    calc_of w1' v1 = Some (b, t) /\
    calc_of w2' v2 = Some (b, t) /\
    t !! "ICMS" = None.
Proof.
  intros d1 d2.
  assert (Hsame : same_but_regime d1 d2).
  { repeat (split; [reflexivity|]). intros key Hkey.
    unfold taxInfo_get, d1, d2. simpl. by rewrite lookup_insert_ne. }
  apply (NFSE_ignores_the_regime Script.healthy (Script.world_of d1) (Script.world_of d2)
           0%nat 0%nat 1%nat 1%nat d1 d2 eq_refl eq_refl eq_refl Hsame).
Defined.

(** X6.  The rule list never influences the calculation: for every
    document, whatever the second argument refers to (a rule list of any
    content, or any other object), calculateTaxesWithRules returns or
    throws the same. *)
Theorem calculateTaxesWithRules_ignores_taxRules env w1 w2 ld1 ld2 lr1 lr2 d :
  heap w1 !! ld1 = Some (CDoc d) ->
  heap w2 !! ld2 = Some (CDoc d) ->
  observe_outcome (calculateTaxesWithRules env ld1 lr1 w1)
  = observe_outcome (calculateTaxesWithRules env ld2 lr2 w2).
Proof.
  intros Hd1 Hd2.
  destruct (calculateTaxesWithRules_run env w1 ld1 lr1 d Hd1) as [_ ->].
  by destruct (calculateTaxesWithRules_run env w2 ld2 lr2 d Hd2) as [_ ->].
Qed.

Lemma calculateTaxesWithRules_ignores_taxRules_witness :
  let d := Script.nfe_1000 in
  let rule := mkExcerpt "ICMS 25% em SP" (Some "https://www.gov.br/receitafederal") in
  observe_outcome (calculateTaxesWithRules Script.healthy 0%nat 1%nat
                     (mkWorld [CDoc d; CRules []] [] [] []))
  = observe_outcome (calculateTaxesWithRules Script.healthy 0%nat 1%nat
                       (mkWorld [CDoc d; CRules [rule]] [] [] [])).
Proof.
  intros d rule.
  apply (calculateTaxesWithRules_ignores_taxRules Script.healthy
           (mkWorld [CDoc d; CRules []] [] [] [])
           (mkWorld [CDoc d; CRules [rule]] [] [] []) 0%nat 0%nat 1%nat 1%nat d
           eq_refl eq_refl).
Defined.

(** X7.  applySpecialRegimes changes its argument: under Simples Nacional
    the returned calculation is a new object, but the base calculation the
    caller passed in reads afterwards with the halved ICMS as well, so the
    amount before the reduction is no longer held by any object. *)
Theorem applySpecialRegimes_mutates_base w lb ld lr d b t ICMS :
  heap w !! ld = Some (CDoc d) ->
  taxInfo_get d "regime" = Some (JStr "Simples Nacional") ->
  calc_of w (VRef lb) = Some (b, t) ->
  t !! "ICMS" = Some ICMS ->
  exists l w' t',
    applySpecialRegimes (VRef lb) ld lr w = (Returned (VRef l), w') /\
    l <> lb /\
    calc_of w' (VRef l) = Some (b, t') /\
    calc_of w' (VRef lb) = Some (b, t') /\
    t' !! "ICMS" = Some (ICMS / num 2).
Proof.
  intros Hd Hr Hcalc HICMS.
  destruct (calc_of_Some _ _ _ _ Hcalc) as (lb' & c & [= <-] & Hb & Ht & <-).
  apply strict_eq_str_true in Hr.
  destruct (applySpecialRegimes_updates_shared_taxes w lb ld lr d c t Hd Hr Hb Ht)
    as (Hfst & Hne & Hbase & Hnew).
  destruct (applySpecialRegimes (VRef lb) ld lr w) as [o w'] eqn:Hrun.
  simpl in Hfst, Hbase, Hnew. subst o.
  exists (length (heap w)), w', (halve_ICMS t).
  split; [done|]. split; [done|]. split; [done|]. split; [done|].
  unfold halve_ICMS. rewrite lookup_alter_eq, HICMS. cbn. by rewrite dec_5_1.
Qed.

Lemma applySpecialRegimes_mutates_base_witness :
  let d := Script.with_regime "Simples Nacional" Script.nfe_1000 in
  let w := mkWorld [CDoc d; CRules []; CTaxes {["ICMS" := num 180]};
                    CCalc (mkTaxCalculation (num 1000) 2%nat)] [] [] [] in
  exists l w' t',
    applySpecialRegimes (VRef 3%nat) 0%nat 1%nat w = (Returned (VRef l), w') /\
    l <> 3%nat /\
    calc_of w' (VRef l) = Some (num 1000, t') /\
    calc_of w' (VRef 3%nat) = Some (num 1000, t') /\
    t' !! "ICMS" = Some (num 180 / num 2).
Proof.
  intros d w.
  apply (applySpecialRegimes_mutates_base w 3%nat 0%nat 1%nat d (num 1000)
           {["ICMS" := num 180]} (num 180) eq_refl eq_refl eq_refl eq_refl).
Defined.

(** ** Storage *)

(** X8.  storeDocumentInDb never raises and never tells its caller
    whether the row was written: when the database rejects the insert the
    error is logged and swallowed and no row is recorded; when it accepts,
    exactly one row is recorded, with 0 for a missing total and the empty
    string for a missing state or municipality.  In both cases the call
    returns normally and leaves every object and the request list alone. *)
Theorem storeDocumentInDb_swallows_failures env userId ld d w :
  heap w !! ld = Some (CDoc d) ->
  (forall e, db_run env (stored_row userId d) = inl e ->
     storeDocumentInDb env userId ld w
     = (Returned tt, logged w error "Error storing document in DB")) /\
  (db_run env (stored_row userId d) = inr tt ->
     storeDocumentInDb env userId ld w
     = (Returned tt,
        mkWorld (heap w) (log w ++ [mkLog info "Document stored successfully"])
          (documents w ++ [stored_row userId d]) (requests w))).
Proof.
  intros Hd. unfold storeDocumentInDb, try_catch.
  returns (readDoc_run _ _ _ Hd).
  unfold insert_document. fold (stored_row userId d). rewrite !bind_run.
  split.
  - by intros e ->.
  - by intros ->.
Qed.

Lemma storeDocumentInDb_swallows_failures_witness :
  let d := mkDocumentRecord (Some "NFE") None None None None None in
  storeDocumentInDb Script.healthy 7%Z 0%nat (Script.world_of d)
  = (Returned tt,
     mkWorld [CDoc d; CRules []] [mkLog info "Document stored successfully"]
       [mkRow 7%Z (Some "NFE") 0 "" "" d] []).
Proof.
  intros d.
  apply (proj2 (storeDocumentInDb_swallows_failures Script.healthy 7%Z 0%nat d
                  (Script.world_of d) eq_refl) eq_refl).
Defined.

(** ** The rule search *)






Section SearchOutcome.

Context (env : Env).





End SearchOutcome.





(** ** What the pipeline writes to the database *)

Lemma keeps_ret {A} (a : A) : keeps_documents (mret a).
Proof. done. Qed.

Lemma keeps_throw {A} e : keeps_documents (@throw A e).
Proof. done. Qed.

Lemma keeps_unmodelled {A} : keeps_documents (@unmodelled A).
Proof. done. Qed.

Lemma keeps_logger l msg : keeps_documents (logger l msg).
Proof. done. Qed.

Lemma keeps_alloc c : keeps_documents (alloc c).
Proof. done. Qed.

Lemma keeps_store l c : keeps_documents (store l c).
Proof. done. Qed.

Lemma keeps_deref l : keeps_documents (deref l).
Proof. intros w. unfold deref. by destruct (heap w !! l). Qed.

Lemma keeps_await {A} (r : reply A) : keeps_documents (await r).
Proof. by destruct r. Qed.

Lemma keeps_bind {A B} (m : M A) (k : A -> M B) :
  keeps_documents m -> (forall a, keeps_documents (k a)) -> keeps_documents (m ≫= k).
Proof.
  intros Hm Hk w. rewrite bind_run. specialize (Hm w).
  destruct (m w) as [[a| |] w1]; simpl in *; [|done..].
  by rewrite Hk.
Qed.

Lemma keeps_try_catch {A} (m : M A) (h : exn -> M A) :
  keeps_documents m -> (forall e, keeps_documents (h e)) -> keeps_documents (try_catch m h).
Proof.
  intros Hm Hh w. unfold try_catch. specialize (Hm w).
  destruct (m w) as [[a| |] w1]; simpl in *; [done| |done].
  by rewrite Hh.
Qed.

Ltac keeps :=
  repeat first
    [ match goal with H : _ |- _ => simple apply H end
    | apply keeps_ret | apply keeps_throw | apply keeps_unmodelled | apply keeps_logger
    | apply keeps_alloc | apply keeps_store | apply keeps_deref | apply keeps_await
    | assumption
    | apply keeps_bind; [|intros ?]
    | apply keeps_try_catch; [|intros ?]
    | match goal with
      | |- keeps_documents (match ?x with _ => _ end) => destruct x
      end ].

Section Keeps.

Context (env : Env).

Lemma keeps_readDoc l : keeps_documents (readDoc l).
Proof. unfold readDoc. keeps. Qed.

Lemma keeps_new_calculation b t : keeps_documents (new_calculation b t).
Proof. unfold new_calculation. keeps. Qed.

Lemma keeps_call k ld lr : keeps_documents (call env k ld lr).
Proof.
  pose proof keeps_readDoc. pose proof keeps_new_calculation.
  destruct k; simpl;
    unfold calculateNFETaxes, calculateNFSETaxes, calculateNFCETaxes, calculateCTETaxes;
    cbv zeta; keeps.
Qed.

Lemma keeps_applySpecialRegimes v ld lr : keeps_documents (applySpecialRegimes v ld lr).
Proof.
  pose proof keeps_readDoc.
  unfold applySpecialRegimes, spread. keeps.
Qed.

Lemma keeps_calculateTaxesWithRules ld lr :
  keeps_documents (calculateTaxesWithRules env ld lr).
Proof.
  pose proof keeps_readDoc. pose proof keeps_call. pose proof keeps_applySpecialRegimes.
  unfold calculateTaxesWithRules. cbv zeta. keeps.
Qed.

Lemma keeps_embedDocuments texts : keeps_documents (embedDocuments env texts).
Proof. induction texts as [|[text src] rest IH]; simpl; keeps. Qed.

Lemma keeps_searchTaxRules query documentType state sector :
  keeps_documents (searchTaxRules env query documentType state sector).
Proof.
  pose proof keeps_embedDocuments.
  unfold searchTaxRules, processTaxRuleSearch, MemoryVectorStore_fromTexts, similaritySearch.
  cbv zeta. keeps.
Qed.

Lemma keeps_parse_first_choice c : keeps_documents (parse_first_choice env c).
Proof. unfold parse_first_choice. keeps. Qed.

Lemma keeps_extractDocumentData tr : keeps_documents (extractDocumentData env tr).
Proof. pose proof keeps_parse_first_choice. unfold extractDocumentData. keeps. Qed.

Lemma keeps_validateCompliance ld lr : keeps_documents (validateCompliance env ld lr).
Proof.
  pose proof keeps_parse_first_choice. pose proof keeps_readDoc.
  unfold validateCompliance, readRules. keeps.
Qed.

Lemma keeps_as_document j : keeps_documents (as_document j).
Proof. unfold as_document. keeps. Qed.

Lemma stores_keeps {A} u (m : M A) : keeps_documents m -> stores_at_most_one_row u m.
Proof. intros Hm w. left. apply Hm. Qed.

Lemma stores_bind_l {A B} u (m : M A) (k : A -> M B) :
  keeps_documents m -> (forall a, stores_at_most_one_row u (k a)) ->
  stores_at_most_one_row u (m ≫= k).
Proof.
  intros Hm Hk w. rewrite bind_run. specialize (Hm w).
  destruct (m w) as [[a| |] w1]; simpl in *; [|by left..].
  rewrite <- Hm. apply Hk.
Qed.

Lemma stores_bind_r {A B} u (m : M A) (k : A -> M B) :
  stores_at_most_one_row u m -> (forall a, keeps_documents (k a)) ->
  stores_at_most_one_row u (m ≫= k).
Proof.
  intros Hm Hk w. rewrite bind_run. specialize (Hm w).
  destruct (m w) as [[a| |] w1]; simpl in *; [|done..].
  by rewrite (Hk a w1).
Qed.

Lemma stores_try_catch {A} u (m : M A) (h : exn -> M A) :
  stores_at_most_one_row u m -> (forall e, keeps_documents (h e)) ->
  stores_at_most_one_row u (try_catch m h).
Proof.
  intros Hm Hh w. unfold try_catch. specialize (Hm w).
  destruct (m w) as [[a| |] w1]; simpl in *; [done| |done].
  by rewrite (Hh e w1).
Qed.

Lemma stores_storeDocumentInDb u ld :
  stores_at_most_one_row u (storeDocumentInDb env u ld).
Proof.
  pose proof keeps_readDoc.
  unfold storeDocumentInDb.
  apply stores_try_catch; [|intros; keeps].
  apply stores_bind_l; [keeps|]. intros d.
  apply stores_bind_r; [|intros; keeps].
  unfold insert_document. intros w. rewrite bind_run.
  destruct (db_run env _) as [e|[]]; simpl.
  - by left.
  - right. eexists. split; [|reflexivity]. reflexivity.
Qed.

End Keeps.

(** X11.  A run of processDocument, successful or not, adds at most one
    row to the documents table, and only a row of the user it was given;
    it adds none when no user id is given or the id is 0. *)
Theorem processDocument_stores_at_most_one_row env buffer mimeType userId w :
  let w' := snd (processDocument env buffer mimeType userId w) in
  documents w' = documents w \/
  exists u r, userId = Some u /\ u <> 0%Z /\ row_userId r = u /\
              documents w' = (documents w ++ [r])%list.
Proof.
  pose proof (keeps_readDoc) as H1.
  pose proof (keeps_extractDocumentData env) as H2.
  pose proof (keeps_searchTaxRules env) as H3.
  pose proof (keeps_calculateTaxesWithRules env) as H4.
  pose proof (keeps_validateCompliance env) as H5.
  pose proof (keeps_as_document) as H6.
  assert (Hrest : forall ld : nat, keeps_documents
            (d ← readDoc ld;
             taxRules ← searchTaxRules env
                          (template (documentType d) +:+ " " +:+ template (operationType d)
                             +:+ " " +:+ template (state d))
                          (documentType d) None None;
             taxCalculation ← calculateTaxesWithRules env ld taxRules;
             complianceCheck ← validateCompliance env ld taxRules;
             mret (mkResult ld taxCalculation complianceCheck taxRules)))
    by (intros; keeps).
  assert (Hnone : forall uid, uid = None \/ uid = Some 0%Z ->
            keeps_documents (processDocument env buffer mimeType uid)).
  { intros uid [->| ->]; unfold processDocument; keeps. }
  destruct userId as [u|]; [destruct (decide (u = 0%Z)) as [->|Hu]|].
  - left. apply Hnone. by right.
  - assert (Hs : stores_at_most_one_row u (processDocument env buffer mimeType (Some u))).
    { unfold processDocument.
      apply stores_bind_l; [keeps|]. intros _.
      apply stores_try_catch; [|intros; keeps].
      apply stores_bind_l; [keeps|]. intros tr.
      apply stores_bind_l; [keeps|]. intros pd.
      apply stores_bind_l; [keeps|]. intros ld.
      apply stores_bind_r; [|intros; apply Hrest].
      case_decide; [done|]. apply stores_storeDocumentInDb. }
    destruct (Hs w) as [Hkeep|(r & Hr & Hrow)]; [by left|].
    right. by exists u, r.
  - left. apply Hnone. by left.
Qed.

(** ** What the pipeline's result depends on *)

Lemma heap_sim_ret {A} (a : A) : heap_sim (mret a) (mret a).
Proof. by intros w1 w2 Hh. Qed.

Lemma heap_sim_throw {A} e : heap_sim (@throw A e) (@throw A e).
Proof. by intros w1 w2 Hh. Qed.

Lemma heap_sim_unmodelled {A} : heap_sim (@unmodelled A) (@unmodelled A).
Proof. by intros w1 w2 Hh. Qed.

Lemma heap_sim_logger l msg : heap_sim (logger l msg) (logger l msg).
Proof. by intros w1 w2 Hh. Qed.

Lemma heap_sim_alloc c : heap_sim (alloc c) (alloc c).
Proof. intros w1 w2 Hh. simpl. by rewrite Hh. Qed.

Lemma heap_sim_store l c : heap_sim (store l c) (store l c).
Proof. intros w1 w2 Hh. simpl. by rewrite Hh. Qed.

Lemma heap_sim_deref l : heap_sim (deref l) (deref l).
Proof. intros w1 w2 Hh. unfold deref. rewrite Hh. by destruct (heap w2 !! l). Qed.

Lemma heap_sim_await {A} (r : reply A) : heap_sim (await r) (await r).
Proof. intros w1 w2 Hh. by destruct r. Qed.

Lemma heap_sim_bind {A B} (m1 m2 : M A) (k1 k2 : A -> M B) :
  heap_sim m1 m2 -> (forall a, heap_sim (k1 a) (k2 a)) -> heap_sim (m1 ≫= k1) (m2 ≫= k2).
Proof.
  intros Hm Hk w1 w2 Hh. rewrite !bind_run. destruct (Hm w1 w2 Hh) as [Hfst Hheap].
  destruct (m1 w1) as [o1 w1'], (m2 w2) as [o2 w2']. simpl in *. subst o2.
  destruct o1; [by apply Hk|done..].
Qed.

Lemma heap_sim_try_catch {A} (m1 m2 : M A) (h1 h2 : exn -> M A) :
  heap_sim m1 m2 -> (forall e, heap_sim (h1 e) (h2 e)) ->
  heap_sim (try_catch m1 h1) (try_catch m2 h2).
Proof.
  intros Hm Hh' w1 w2 Hh. unfold try_catch. destruct (Hm w1 w2 Hh) as [Hfst Hheap].
  destruct (m1 w1) as [o1 w1'], (m2 w2) as [o2 w2']. simpl in *. subst o2.
  destruct o1; [done|by apply Hh'|done].
Qed.

Ltac sim :=
  repeat first
    [ match goal with H : _ |- _ => simple apply H end
    | apply heap_sim_ret | apply heap_sim_throw | apply heap_sim_unmodelled
    | apply heap_sim_logger | apply heap_sim_alloc | apply heap_sim_store
    | apply heap_sim_deref | apply heap_sim_await
    | apply heap_sim_bind; [|intros ?]
    | apply heap_sim_try_catch; [|intros ?]
    | match goal with
      | |- heap_sim (match ?x with _ => _ end) (match ?x with _ => _ end) => destruct x
      end ].

Section HeapOnly.

Context (env : Env).

Lemma heap_sim_readDoc l : heap_sim (readDoc l) (readDoc l).
Proof. unfold readDoc. sim. Qed.

Lemma heap_sim_new_calculation b t : heap_sim (new_calculation b t) (new_calculation b t).
Proof. unfold new_calculation. sim. Qed.

Lemma heap_sim_call k ld lr : heap_sim (call env k ld lr) (call env k ld lr).
Proof.
  pose proof heap_sim_readDoc. pose proof heap_sim_new_calculation.
  destruct k; simpl;
    unfold calculateNFETaxes, calculateNFSETaxes, calculateNFCETaxes, calculateCTETaxes;
    cbv zeta; sim.
Qed.

Lemma heap_sim_applySpecialRegimes v ld lr :
  heap_sim (applySpecialRegimes v ld lr) (applySpecialRegimes v ld lr).
Proof.
  pose proof heap_sim_readDoc.
  unfold applySpecialRegimes, spread. sim.
Qed.

Lemma heap_sim_calculateTaxesWithRules ld lr :
  heap_sim (calculateTaxesWithRules env ld lr) (calculateTaxesWithRules env ld lr).
Proof.
  pose proof heap_sim_readDoc. pose proof heap_sim_call.
  pose proof heap_sim_applySpecialRegimes.
  unfold calculateTaxesWithRules. cbv zeta. sim.
Qed.

Lemma heap_sim_embedDocuments texts :
  heap_sim (embedDocuments env texts) (embedDocuments env texts).
Proof. induction texts as [|[text src] rest IH]; simpl; sim. Qed.

Lemma heap_sim_searchTaxRules query documentType state sector :
  heap_sim (searchTaxRules env query documentType state sector)
           (searchTaxRules env query documentType state sector).
Proof.
  pose proof heap_sim_embedDocuments.
  unfold searchTaxRules, processTaxRuleSearch, MemoryVectorStore_fromTexts, similaritySearch.
  cbv zeta. sim.
Qed.

Lemma heap_sim_parse_first_choice c :
  heap_sim (parse_first_choice env c) (parse_first_choice env c).
Proof. unfold parse_first_choice. sim. Qed.

Lemma heap_sim_extractDocumentData tr :
  heap_sim (extractDocumentData env tr) (extractDocumentData env tr).
Proof. pose proof heap_sim_parse_first_choice. unfold extractDocumentData. sim. Qed.

Lemma heap_sim_validateCompliance ld lr :
  heap_sim (validateCompliance env ld lr) (validateCompliance env ld lr).
Proof.
  pose proof heap_sim_parse_first_choice. pose proof heap_sim_readDoc.
  unfold validateCompliance, readRules. sim.
Qed.

Lemma heap_sim_as_document j : heap_sim (as_document j) (as_document j).
Proof. unfold as_document. sim. Qed.

(** Whatever two databases answer, storing returns and leaves the objects
    alone. *)
Lemma heap_sim_storeDocumentInDb db1 db2 u ld :
  heap_sim (storeDocumentInDb (with_db env db1) u ld)
           (storeDocumentInDb (with_db env db2) u ld).
Proof.
  intros w1 w2 Hh. unfold storeDocumentInDb, try_catch, insert_document, readDoc, deref.
  rewrite !bind_run, <- Hh.
  destruct (heap w1 !! ld) as [[d| | | |]|]; simpl; try done.
  rewrite !bind_run. simpl.
  by destruct (db1 _) as [?|[]], (db2 _) as [?|[]].
Qed.

End HeapOnly.

(** X12.  The database never influences the result of processDocument:
    run on the same input with two databases that answer differently (one
    may accept the row and the other reject it), the pipeline returns the
    same result or throws the same error, and leaves the same objects. *)
Theorem processDocument_independent_of_the_database env db1 db2 buffer mimeType userId w :
  let r1 := processDocument (with_db env db1) buffer mimeType userId w in
  let r2 := processDocument (with_db env db2) buffer mimeType userId w in
  fst r1 = fst r2 /\ heap (snd r1) = heap (snd r2).
Proof.
  intros r1 r2. unfold r1, r2.
  pose proof (heap_sim_readDoc) as H1.
  pose proof (heap_sim_extractDocumentData env) as H2.
  pose proof (heap_sim_searchTaxRules env) as H3.
  pose proof (heap_sim_calculateTaxesWithRules env) as H4.
  pose proof (heap_sim_validateCompliance env) as H5.
  pose proof (heap_sim_as_document) as H6.
  pose proof (heap_sim_storeDocumentInDb env db1 db2) as H7.
  assert (Hsim : heap_sim (processDocument (with_db env db1) buffer mimeType userId)
                          (processDocument (with_db env db2) buffer mimeType userId)).
  { unfold processDocument.
    change (extractDocumentData (with_db env db1)) with (extractDocumentData env).
    change (extractDocumentData (with_db env db2)) with (extractDocumentData env).
    change (searchTaxRules (with_db env db1)) with (searchTaxRules env).
    change (searchTaxRules (with_db env db2)) with (searchTaxRules env).
    change (calculateTaxesWithRules (with_db env db1)) with (calculateTaxesWithRules env).
    change (calculateTaxesWithRules (with_db env db2)) with (calculateTaxesWithRules env).
    change (validateCompliance (with_db env db1)) with (validateCompliance env).
    change (validateCompliance (with_db env db2)) with (validateCompliance env).
    cbn [textract_detectDocumentText with_db].
    apply heap_sim_bind; [sim|]. intros _.
    apply heap_sim_try_catch; [|intros; sim].
    apply heap_sim_bind; [sim|]. intros tr.
    apply heap_sim_bind; [sim|]. intros pd.
    apply heap_sim_bind; [sim|]. intros ld.
    apply heap_sim_bind; [|intros; sim].
    destruct userId as [u|]; [|sim]. case_decide; sim. }
  by apply Hsim.
Qed.

(** ** The result of the pipeline *)

Lemma bind_Returned_inv {A B} (m : M A) (k : A -> M B) w b w' :
  (m ≫= k) w = (Returned b, w') ->
  exists a w1, m w = (Returned a, w1) /\ k a w1 = (Returned b, w').
Proof.
  rewrite bind_run. destruct (m w) as [[a| |] w1]; try discriminate.
  intros Hk. by exists a, w1.
Qed.



(** X13.  When the text service or the structuring service fails,
    processDocument throws that error to its caller after logging it, and
    leaves nothing else behind: no object is created, no row is stored and
    no request is recorded. *)
Theorem processDocument_ingestion_failure env buffer mimeType userId w e :
  textract_detectDocumentText env buffer = inl e \/
  (exists tr, textract_detectDocumentText env buffer = inr tr /\
              chat_completions_create env "gpt-4" (extraction_request tr) = inl e) ->
  processDocument env buffer mimeType userId w
  = (Thrown e,
     logged (logged w info "Starting document processing") error
       "Document processing error").
Proof.
  intros Hfail. unfold processDocument. rewrite bind_run.
  change (logger info "Starting document processing" w)
    with (Returned tt, logged w info "Starting document processing").
  cbv iota beta. unfold try_catch at 1.
  destruct Hfail as [->|(tr & -> & Hchat)]; simpl await.
  - by rewrite bind_throw.
  - rewrite bind_ret_l. unfold extractDocumentData. fold (extraction_request tr).
    rewrite Hchat. simpl await. by rewrite !bind_run.
Qed.

Lemma processDocument_ingestion_failure_witness :
  let env := mkEnv Script.toLowerCase JSON.parse (fun _ => inl (ServiceError "textract"))
               (fun _ _ => inr []) (fun _ => inr []) (fun _ => inr [])
               (fun _ _ => 0) (fun _ => inr tt) (fun _ => inr None) in
  processDocument env "scan" "application/pdf" (Some 7%Z) Script.empty_world
  = (Thrown (ServiceError "textract"),
     logged (logged Script.empty_world info "Starting document processing") error
       "Document processing error").
Proof.
  intros env.
  apply (processDocument_ingestion_failure env "scan" "application/pdf" (Some 7%Z)
           Script.empty_world (ServiceError "textract") (or_introl eq_refl)).
Defined.

Section Coherence.

Context (env : Env).



End Coherence.


(** ** The SEFAZ validation *)

(** X15.  validateNFeStructure returns only data that SEFAZ marked as
    valid: whenever it returns, the record passed the three structure
    checks, exactly one request was made, for the record's key, and the
    data returned is the answer to that request with a truthy valido
    member. *)
Theorem validateNFeStructure_returns_only_validated env nfeData w data w' :
  validateNFeStructure env nfeData w = (Returned data, w') ->
  ~ structurally_invalid nfeData /\
  exists key v,
    chaveAcesso nfeData = Some key /\
    axios_get env (sefaz_url key) = inr data /\
    valido data = Some v /\ truthy v = true /\
    requests w' = (requests w ++ [sefaz_url key])%list.
Proof.
  intros Hrun. rewrite <- fails_checks_spec.
  destruct (fails_checks nfeData) eqn:E.
  - destruct (validateNFeStructure_rejects env nfeData w E) as [e He].
    rewrite He in Hrun. discriminate.
  - split; [done|].
    destruct (validateNFeStructure_proceeds env nfeData w E) as (key & Hkey & Hgo).
    rewrite Hgo in Hrun. exists key.
    unfold validateNFeWithSEFAZ, http_get in Hrun. cbv zeta in Hrun.
    fold (sefaz_url key) in Hrun. rewrite !bind_run in Hrun. simpl in Hrun.
    destruct (axios_get env (sefaz_url key)) as [e|data'] eqn:Hget; simpl in Hrun;
      [discriminate|].
    destruct (valido data') as [v|] eqn:Hv; [|discriminate].
    destruct (truthy v) eqn:Ht; [|discriminate].
    injection Hrun as <- <-. by exists v.
Qed.

Lemma validateNFeStructure_returns_only_validated_witness :
  let complete := mkNFe (Some "3519") (Some (num 100))
                    (Some (mkEmitente (Some "12345678000195"))) in
  let data := Some (JObj [("valido", JBool true)]) in
  validateNFeStructure Script.healthy complete Script.empty_world
  = (Returned data, mkWorld [] [] [] [sefaz_url "3519"]) /\
  ~ structurally_invalid complete /\
  exists key v,
    chaveAcesso complete = Some key /\
    axios_get Script.healthy (sefaz_url key) = inr data /\
    valido data = Some v /\ truthy v = true /\
    requests (mkWorld [] [] [] [sefaz_url "3519"])
    = (requests Script.empty_world ++ [sefaz_url key])%list.
Proof.
  intros complete data.
  assert (Hrun : validateNFeStructure Script.healthy complete Script.empty_world
                 = (Returned data, mkWorld [] [] [] [sefaz_url "3519"]))
    by (vm_compute; reflexivity).
  split; [exact Hrun|].
  apply (validateNFeStructure_returns_only_validated Script.healthy complete
           Script.empty_world data _ Hrun).
Defined.

(** ** The compliance status of a user *)

Section UserCompliance.

Context (env : Env).

Lemma validateCNPJ_run cnpj w :
  let url := "https://www.receitaws.com.br/v1/cnpj/" +:+ template_of cnpj in
  let w' := mkWorld (heap w) (log w) (documents w) (requests w ++ [url]) in
  validateCNPJ env cnpj w =
  match axios_get env url with
  | inl e => (Thrown e, w')
  | inr data =>
      if strict_eq_str (data_status data) "ERROR"
      then (Thrown (Error "CNPJ inválido ou não encontrado na Receita Federal"), w')
      else (Returned data, w')
  end.
Proof.
  intros url w'. unfold validateCNPJ, http_get. cbv zeta. fold url.
  rewrite !bind_run. simpl.
  destruct (axios_get env url) as [e|data]; simpl; [done|].
  by destruct (strict_eq_str (data_status data) "ERROR").
Qed.

Lemma checkSINTEGRA_run ie w :
  let url := "https://api.sintegra.gov.br/check?ie=" +:+ template_of ie in
  let w' := mkWorld (heap w) (log w) (documents w) (requests w ++ [url]) in
  checkSINTEGRA env ie w =
  match axios_get env url with
  | inl e => (Thrown e, w')
  | inr data => (Returned data, w')
  end.
Proof.
  intros url w'. unfold checkSINTEGRA, http_get. cbv zeta. fold url.
  rewrite !bind_run. simpl.
  by destruct (axios_get env url) as [e|data].
Qed.

(** The CNPJ step of the check: one request, one entry. *)
Lemma checkUserCompliance_CNPJ_step user w :
  exists c,
    try_catch
      (cnpjStatus ← validateCNPJ env (user_cnpj user);
       mret ([] ++ [mkUserCheck "CNPJ" "ok" "CNPJ válido e ativo"])%list)
      (fun error_ => mret ([] ++ [mkUserCheck "CNPJ" "error" "CNPJ com irregularidades"])%list) w
    = (Returned [c],
       mkWorld (heap w) (log w) (documents w) (requests w ++ [receita_url user])) /\
    check_type c = "CNPJ" /\
    (check_status c = "ok" \/ check_status c = "error") /\
    (check_status c = "ok" <-> receita_accepts env user).
Proof.
  unfold try_catch. rewrite bind_run, validateCNPJ_run. fold (receita_url user).
  unfold receita_accepts.
  destruct (axios_get env (receita_url user)) as [e|data] eqn:Hget.
  - eexists. split; [reflexivity|]. split; [done|]. split; [by right|].
    split; [done|]. by intros (data & [=] & _).
  - destruct (strict_eq_str (data_status data) "ERROR") eqn:Hs.
    + eexists. split; [reflexivity|]. split; [done|]. split; [by right|].
      split; [done|]. intros (data' & [= <-] & Hne).
      by apply strict_eq_str_true in Hs.
    + eexists. split; [reflexivity|]. split; [done|]. split; [by left|].
      split; [|done]. intros _. exists data. split; [done|].
      intros Heq. apply strict_eq_str_true in Heq. by rewrite Heq in Hs.
Qed.

(** X16.  checkUserCompliance never raises, whatever the services do: it
    returns one check of the CNPJ, followed by one check of the state
    registration exactly when the user has an inscricaoEstadual.  It makes
    one request per check, in that order, and changes nothing else. *)
Theorem checkUserCompliance_never_raises user w :
  exists checks w',
    checkUserCompliance env user w = (Returned checks, w') /\
    map check_type checks
    = "CNPJ" :: (if truthy_nullable (user_inscricaoEstadual user) then ["IE"] else []) /\
    requests w'
    = (requests w ++ receita_url user ::
         (if truthy_nullable (user_inscricaoEstadual user) then [sintegra_url user] else []))%list /\
    heap w' = heap w /\ log w' = log w /\ documents w' = documents w.
Proof.
  unfold checkUserCompliance. cbv zeta.
  destruct (checkUserCompliance_CNPJ_step user w) as (c & Hstep & Htype & _).
  rewrite bind_run, Hstep.
  destruct (truthy_nullable (user_inscricaoEstadual user)).
  - unfold try_catch. rewrite bind_run, checkSINTEGRA_run. fold (sintegra_url user).
    destruct (axios_get env (sintegra_url user)) as [e|data];
      eexists _, _; (split; [reflexivity|]); simpl; rewrite Htype, <- app_assoc; done.
  - eexists _, _. split; [reflexivity|]. simpl. by rewrite Htype.
Qed.

(** X17.  What the statuses mean.  The CNPJ check reads "ok" exactly when
    the Receita service answered and its answer does not carry the status
    "ERROR"; a service that cannot be reached therefore reads as a CNPJ
    with irregularities.  The state registration check reads "ok" exactly
    when the SINTEGRA service answered: the content of the answer is never
    examined. *)
Theorem checkUserCompliance_statuses user w :
  exists c rest,
    fst (checkUserCompliance env user w) = Returned (c :: rest) /\
    (check_status c = "ok" <-> receita_accepts env user) /\
    (check_status c = "error" <-> ~ receita_accepts env user) /\
    forall ie, ie ∈ rest ->
      (check_status ie = "ok" <-> sintegra_answers env user) /\
      (check_status ie = "error" <-> ~ sintegra_answers env user).
Proof.
  unfold checkUserCompliance. cbv zeta.
  destruct (checkUserCompliance_CNPJ_step user w) as (c & Hstep & _ & Hcases & Hok).
  rewrite bind_run, Hstep.
  assert (Herr : check_status c = "error" <-> ~ receita_accepts env user).
  { rewrite <- Hok. destruct Hcases as [-> | ->]; split; first [done | by intros []]. }
  destruct (truthy_nullable (user_inscricaoEstadual user)).
  - unfold try_catch. rewrite bind_run, checkSINTEGRA_run. fold (sintegra_url user).
    unfold sintegra_answers.
    destruct (axios_get env (sintegra_url user)) as [e|data] eqn:Hget; simpl.
    + eexists c, _. split; [reflexivity|]. split; [done|]. split; [done|].
      intros ie Hie. apply list_elem_of_singleton in Hie as ->. simpl.
      split; split; try done.
      * by intros (data & [=]).
      * intros _ (data & [=]).
    + eexists c, _. split; [reflexivity|]. split; [done|]. split; [done|].
      intros ie Hie. apply list_elem_of_singleton in Hie as ->. simpl.
      split; split; try done.
      * intros _. by exists data.
      * intros Hno. destruct Hno. by exists data.
  - exists c, []. split; [done|]. split; [done|]. split; [done|].
    intros ie Hie. by apply elem_of_nil in Hie.
Qed.

End UserCompliance.

(** ** NFe documents in XML *)

Lemma decide_json_null (v : json) : v = JNull \/ v <> JNull.
Proof. destruct v; first [by left | by right]. Qed.

Lemma has_prod_dec item : has_prod item \/ ~ has_prod item.
Proof.
  unfold has_prod.
  destruct (XML.member "prod" (Some item)) as [prod|] eqn:Hprod.
  - destruct (decide_json_null prod) as [->|Hne].
    + right. by intros (p & [= <-] & Hp).
    + left. by exists prod.
  - right. by intros (p & [=] & _).
Qed.

Lemma has_all_prod_dec items : Forall has_prod items \/ ~ Forall has_prod items.
Proof.
  induction items as [|item rest IH]; [left; constructor|].
  destruct (has_prod_dec item) as [Hitem|Hitem].
  - destruct IH as [Hall|Hno]; [left; by constructor|].
    right. intros Hall. apply Hno. by inversion Hall.
  - right. intros Hall. apply Hitem. by inversion Hall.
Qed.

Lemma path_None keys : XML.path keys None = None.
Proof. induction keys as [|key rest IH]; [done|apply IH]. Qed.

Lemma path_app keys1 keys2 v :
  XML.path (keys1 ++ keys2) v = XML.path keys2 (XML.path keys1 v).
Proof. revert v. induction keys1 as [|key rest IH]; intros v; [done|apply IH]. Qed.

(** A path that is absent in the tree is absent behind [|| {}] too. *)
Lemma path_or_object keys1 key keys2 v :
  XML.path (keys1 ++ key :: keys2) v = None ->
  XML.path (key :: keys2) (Some (XML.or_object (XML.path keys1 v))) = None.
Proof.
  rewrite path_app. unfold XML.or_object.
  destruct (XML.path keys1 v) as [j|]; [|intros _; apply path_None].
  destruct (truthy j); [done|]. intros _. apply path_None.
Qed.

Section XmlParser.

Context (xml : XmlEngine).

Lemma parse_item_has_prod item w :
  has_prod item -> exists i, XML.parse_item xml item w = (Returned i, w).
Proof.
  intros (prod & Hprod & Hnull). unfold XML.parse_item.
  destruct item; try discriminate; rewrite Hprod; destruct prod; try done; by eexists.
Qed.

Lemma parse_item_no_prod item w :
  ~ has_prod item -> exists msg, XML.parse_item xml item w = (Thrown (TypeError msg), w).
Proof.
  intros Hno. unfold XML.parse_item.
  destruct item; try by eexists.
  destruct (XML.member "prod" (Some (JObj members))) as [prod|] eqn:Hprod; [|by eexists].
  destruct prod; try by eexists.
  all: destruct Hno; eexists; split; [exact Hprod|done].
Qed.

Lemma map_items_all items w :
  Forall has_prod items ->
  exists parsed, XML.map_items xml items w = (Returned parsed, w) /\
                 length parsed = length items.
Proof.
  induction 1 as [|item rest Hitem _ IH]; simpl; [by eexists|].
  destruct (parse_item_has_prod item w Hitem) as [i Hi].
  destruct IH as (parsed & Hrest & Hlen).
  rewrite bind_run, Hi, bind_run, Hrest. eexists. split; [reflexivity|].
  simpl. by rewrite Hlen.
Qed.

Lemma map_items_some items w :
  ~ Forall has_prod items ->
  exists msg, XML.map_items xml items w = (Thrown (TypeError msg), w).
Proof.
  induction items as [|item rest IH]; intros Hno; [by destruct Hno|]. simpl.
  destruct (has_prod_dec item) as [Hitem|Hitem].
  - destruct (parse_item_has_prod item w Hitem) as [i Hi].
    destruct IH as [msg Hmsg]; [intros Hall; apply Hno; by constructor|].
    rewrite bind_run, Hi, bind_run, Hmsg. by eexists.
  - destruct (parse_item_no_prod item w Hitem) as [msg Hmsg].
    rewrite bind_run, Hmsg. by eexists.
Qed.

Lemma parseNFeItems_map det w :
  XML.parseNFeItems xml det w = XML.map_items xml (det_items det) w.
Proof.
  unfold XML.parseNFeItems, det_items.
  destruct det as [v|]; [|done].
  destruct v as [|[]|q|s|xs|ms]; simpl; try done; by case_decide.
Qed.

(** X18.  parseNFeItems yields one item per element of det (one for a
    single element that is not an array, none for a missing or falsy det)
    when every element has a prod member, and raises a TypeError as soon as
    one element has none; it changes nothing. *)
Theorem parseNFeItems_one_item_per_element det w :
  (Forall has_prod (det_items det) ->
   exists parsed, XML.parseNFeItems xml det w = (Returned parsed, w) /\
                  length parsed = length (det_items det)) /\
  (~ Forall has_prod (det_items det) ->
   exists msg, XML.parseNFeItems xml det w = (Thrown (TypeError msg), w)).
Proof.
  rewrite parseNFeItems_map. split.
  - apply map_items_all.
  - apply map_items_some.
Qed.

Lemma parseNFeXML_fields xmlString w p w' :
  XML.parseNFeXML xml xmlString w = (Returned p, w') ->
  exists result,
    parseStringPromise xml xmlString = inr result /\
    w' = w /\
    XML.chaveAcesso p = XML.path ["nfeProc"; "protNFe"; "infProt"; "chNFe"] (Some result) /\
    XML.cnpj (XML.emitente p)
    = XML.path ["emit"; "CNPJ"]
        (Some (XML.or_object (XML.path ["nfeProc"; "NFe"; "infNFe"] (Some result)))) /\
    XML.totalValue p
    = parseFloat xml
        (XML.or_0 (XML.path ["total"; "ICMSTot"; "vNF"]
           (Some (XML.or_object (XML.path ["nfeProc"; "NFe"; "infNFe"] (Some result)))))).
Proof.
  unfold XML.parseNFeXML. intros Hrun.
  apply bind_Returned_inv in Hrun as (result' & w1 & Hparse & Hrun).
  destruct (parseStringPromise xml xmlString) as [e|result]; [discriminate|].
  injection Hparse as <- <-. cbv zeta in Hrun.
  apply bind_Returned_inv in Hrun as (parsed & w2 & Hitems & Hrun).
  injection Hrun as <- <-.
  exists result. split; [done|]. split; [|done].
  rewrite parseNFeItems_map in Hitems.
  destruct (has_all_prod_dec (det_items (XML.member "det"
              (Some (XML.or_object (XML.path ["nfeProc"; "NFe"; "infNFe"] (Some result)))))))
    as [Hall|Hsome].
  - destruct (map_items_all _ w Hall) as (parsed' & Hp & _).
    rewrite Hp in Hitems. by injection Hitems.
  - destruct (map_items_some _ w Hsome) as (msg & Hp).
    rewrite Hp in Hitems. discriminate.
Qed.

End XmlParser.

Lemma parseNFeItems_one_item_per_element_witness :
  let det := Some (JObj [("prod", JObj [("cProd", JStr "001"); ("qCom", JStr "10")])]) in
  exists parsed,
    XML.parseNFeItems (scripted_xml JNull) det Script.empty_world
    = (Returned parsed, Script.empty_world) /\
    length parsed = length (det_items det).
Proof.
  intros det.
  apply (proj1 (parseNFeItems_one_item_per_element (scripted_xml JNull) det
                  Script.empty_world)).
  repeat constructor. eexists. split; [reflexivity|discriminate].
Defined.

(** X19.  An NFe that lacks the protocol with the access key, the CNPJ
    of the emitter or the total never reaches SEFAZ: whenever parseNFeXML
    returns a record for such an XML, validateNFeStructure rejects the
    record and makes no request.  (For the total, parseFloat is assumed to
    read 0 as 0.) *)
Theorem incomplete_NFe_never_reaches_SEFAZ env xml xmlString w p w' n result :
  parseStringPromise xml xmlString = inr result ->
  XML.path ["nfeProc"; "protNFe"; "infProt"; "chNFe"] (Some result) = None \/
  XML.path ["nfeProc"; "NFe"; "infNFe"; "emit"; "CNPJ"] (Some result) = None \/
  (XML.path ["nfeProc"; "NFe"; "infNFe"; "total"; "ICMSTot"; "vNF"] (Some result) = None /\
   parseFloat xml (JNum 0) = Some 0) ->
  XML.parseNFeXML xml xmlString w = (Returned p, w') ->
  as_NFeData p = Some n ->
  exists e, validateNFeStructure env n w' = (Thrown e, w').
Proof.
  intros Hparse Hmissing Hrun Hn.
  destruct (parseNFeXML_fields xml xmlString w p w' Hrun)
    as (result' & Hparse' & -> & Hkey & Hcnpj & Htotal).
  rewrite Hparse in Hparse'. injection Hparse' as <-.
  unfold as_NFeData in Hn.
  destruct (opt_string (XML.chaveAcesso p)) as [key|] eqn:Hk; [|discriminate].
  destruct (opt_string (XML.cnpj (XML.emitente p))) as [c|] eqn:Hc; [|discriminate].
  injection Hn as <-.
  apply validateNFeStructure_rejects, fails_checks_spec.
  unfold structurally_invalid, lacks, invalid_total. simpl.
  destruct Hmissing as [Hm|[Hm|[Hm Hzero]]].
  - left. left. rewrite Hkey, Hm in Hk. by injection Hk.
  - right. left. left.
    apply (path_or_object ["nfeProc"; "NFe"; "infNFe"] "emit" ["CNPJ"]) in Hm.
    rewrite Hcnpj, Hm in Hc. by injection Hc.
  - right. right. right. exists 0. split; [|done].
    apply (path_or_object ["nfeProc"; "NFe"; "infNFe"] "total" ["ICMSTot"; "vNF"]) in Hm.
    by rewrite Htotal, Hm.
Qed.

Lemma incomplete_NFe_never_reaches_SEFAZ_witness :
  let xml := scripted_xml (nfe_tree None) in
  exists p n e,
    XML.parseNFeXML xml "<nfeProc/>" Script.empty_world = (Returned p, Script.empty_world) /\
    length (XML.items p) = 1%nat /\
    XML.totalValue p = Some (num 1500) /\
    as_NFeData p = Some n /\
    validateNFeStructure Script.healthy n Script.empty_world = (Thrown e, Script.empty_world).
Proof.
  intros xml.
  destruct (XML.parseNFeXML xml "<nfeProc/>" Script.empty_world) as [[p| |] w'] eqn:Hrun;
    try (vm_compute in Hrun; discriminate).
  assert (Hw : w' = Script.empty_world) by (vm_compute in Hrun; by injection Hrun).
  subst w'.
  assert (Hitems : length (XML.items p) = 1%nat)
    by (vm_compute in Hrun; injection Hrun as <-; reflexivity).
  assert (Htotal : XML.totalValue p = Some (num 1500)).
  { vm_compute in Hrun. injection Hrun as <-. simpl. f_equal. Qc_closed. }
  destruct (as_NFeData p) as [n|] eqn:Hn;
    [|vm_compute in Hrun; injection Hrun as <-; vm_compute in Hn; discriminate].
  destruct (incomplete_NFe_never_reaches_SEFAZ Script.healthy xml "<nfeProc/>"
              Script.empty_world p Script.empty_world n (nfe_tree None)
              eq_refl (or_introl eq_refl) Hrun Hn) as [e He].
  by exists p, n, e.
Defined.

(** X20.  parseNFeXML and parseNFCeXML read the same XML alike where it
    matters for the validation: both fail with the same error, or both
    return, and then with the same access key, total, emitter CNPJ and
    items, so that validateNFeStructure is given the same record. *)
Theorem NFe_and_NFCe_parsers_agree xml xmlString w :
  match XML.parseNFeXML xml xmlString w, XML.parseNFCeXML xml xmlString w with
  | (Returned p, w1), (Returned p', w2) =>
      w1 = w /\ w2 = w /\
      XML.chaveAcesso p = XML.chaveAcesso p' /\
      XML.totalValue p = XML.totalValue p' /\
      XML.cnpj (XML.emitente p) = XML.cnpj (XML.emitente p') /\
      XML.items p = XML.items p' /\
      as_NFeData p = as_NFeData p'
  | (Thrown e, w1), (Thrown e', w2) => e = e' /\ w1 = w /\ w2 = w
  | _, _ => False
  end.
Proof.
  unfold XML.parseNFeXML, XML.parseNFCeXML. rewrite !bind_run.
  destruct (parseStringPromise xml xmlString) as [e|result]; simpl; [done|].
  rewrite !bind_run, parseNFeItems_map.
  set (det := det_items _).
  destruct (has_all_prod_dec det) as [Hall|Hsome].
  - destruct (map_items_all xml det w Hall) as (parsed & -> & _). by simpl.
  - destruct (map_items_some xml det w Hsome) as (msg & ->). by simpl.
Qed.

(** ** The totals of the monthly report *)

Lemma lookup_add_entries (taxSum entries : gmap string Qc) tax :
  add_entries taxSum entries !! tax
  = match entries !! tax with
    | Some val => Some (default 0 (taxSum !! tax) + val)
    | None => taxSum !! tax
    end.
Proof.
  unfold add_entries.
  apply (map_fold_weak_ind
           (fun (r : gmap string Qc) (m : gmap string Qc) =>
              r !! tax = match m !! tax with
                         | Some val => Some (default 0 (taxSum !! tax) + val)
                         | None => taxSum !! tax
                         end)).
  - by rewrite lookup_empty.
  - intros i x m r Hi IH. destruct (decide (i = tax)) as [->|Hne].
    + rewrite !lookup_insert_eq. rewrite Hi in IH. by rewrite IH.
    + by rewrite !lookup_insert_ne.
Qed.

Lemma doc_amounts_components env d tax :
  is_calculator (selected d) = true ->
  tax ∉ report_taxes ->
  doc_amounts env d !! tax = None.
Proof.
  intros Hk Htax. unfold doc_amounts, amounts, adjusted. rewrite lookup_fmap.
  assert (Hrates : rates env (selected d) d !! tax = None).
  { unfold report_taxes in Htax.
    destruct (selected d); try discriminate; unfold rates;
      rewrite ?lookup_insert_ne, ?lookup_singleton_ne; try done;
      intros <-; apply Htax; set_solver. }
  destruct (is_Simples_Nacional d); [|by rewrite Hrates].
  destruct (decide (tax = "ICMS")) as [->|Hne].
  - by rewrite lookup_alter_eq, Hrates.
  - by rewrite lookup_alter_ne, Hrates.
Qed.

Lemma taxes_or_empty_calc w v b t :
  calc_of w v = Some (b, t) -> taxes_or_empty v w = (Returned t, w).
Proof.
  intros Hcalc. destruct (calc_of_Some _ _ _ _ Hcalc) as (l & c & -> & Hl & Ht & _).
  unfold taxes_or_empty.
  returns (deref_run _ _ _ Hl). by returns (deref_run _ _ _ Ht).
Qed.

Lemma Returned_total_eq {A} (a a' : Qc) (t : A) (w : world) :
  a = a' -> (Returned (a, t), w) = (Returned (a', t), w).
Proof. by intros ->. Qed.

Section ReportTotals.

Context (env : Env).

(** The loop over the documents, for any starting totals. *)
Lemma sum_documents_run docs :
  Forall (fun doc => dispatches (row_rawData doc)) docs ->
  forall totalValue taxSum w,
  exists taxSum' w',
    sum_documents env docs totalValue taxSum w
    = (Returned (totalValue + sum_of_values docs, taxSum'), w') /\
    forall tax,
      match taxSum !! tax with
      | Some s => taxSum' !! tax = Some (s + sum_of_tax env tax docs)
      | None => tax ∉ report_taxes -> taxSum' !! tax = None
      end.
Proof.
  induction 1 as [|doc rest Hdoc _ IH]; intros totalValue taxSum w.
  - exists taxSum, w. simpl. split.
    + apply Returned_total_eq. ring.
    + intros tax. destruct (taxSum !! tax) as [s|] eqn:E; [|done].
      f_equal. ring.
  - simpl. set (d := row_rawData doc) in *.
    apply dispatches_is_calculator in Hdoc.
    rewrite bind_run, alloc_run. cbv iota beta.
    rewrite bind_run, alloc_run. cbv iota beta.
    rewrite extend_extend. simpl app.
    set (w2 := extend w [CDoc d; CRules []]).
    assert (Hd : heap w2 !! length (heap w) = Some (CDoc d)) by apply heap_extend_0.
    destruct (calculateTaxesWithRules_dispatch_observed env w2 (length (heap w))
                (length (heap (extend w [CDoc d]))) d Hd Hdoc) as (v & w3 & Hrun & Hcalc).
    returns Hrun. returns (taxes_or_empty_calc _ _ _ _ Hcalc).
    fold (doc_amounts env d).
    destruct (IH (totalValue + totalValue_or_0 d) (add_entries taxSum (doc_amounts env d)) w3)
      as (taxSum' & w' & Hrest & Hsum).
    exists taxSum', w'. split.
    + rewrite Hrest. apply Returned_total_eq. ring.
    + intros tax. specialize (Hsum tax). rewrite lookup_add_entries in Hsum.
      fold d. destruct (taxSum !! tax) as [s|] eqn:E.
      * destruct (doc_amounts env d !! tax) as [a|]; simpl in *;
          rewrite Hsum; f_equal; ring.
      * intros Htax. rewrite (doc_amounts_components env d tax Hdoc Htax) in Hsum.
        by apply Hsum.
Qed.

(** X21.  The totals of the monthly report are sums over the documents:
    for documents whose types select a calculator, the loop of
    generateTaxReport returns as total value the sum of the base values
    and, for each of ICMS, ISS, PIS, COFINS and IPI, the sum over the
    documents of the amount calculateTaxesWithRules gives for it (0 for a
    document without that component); no other component is reported. *)
Theorem report_totals_are_sums docs w :
  Forall (fun doc => dispatches (row_rawData doc)) docs ->
  exists taxSum w',
    generateTaxReport_totals env docs w = (Returned (sum_of_values docs, taxSum), w') /\
    forall tax,
      taxSum !! tax
      = if decide (tax ∈ report_taxes) then Some (sum_of_tax env tax docs) else None.
Proof.
  intros Hdocs. unfold generateTaxReport_totals. cbv zeta.
  set (start := <["ICMS" := 0]> _).
  destruct (sum_documents_run docs Hdocs 0 start w) as (taxSum & w' & Hrun & Hsum).
  exists taxSum, w'. split.
  - rewrite Hrun. apply Returned_total_eq. ring.
  - intros tax. specialize (Hsum tax). case_decide as Htax.
    + assert (Hstart : start !! tax = Some 0).
      { unfold report_taxes in Htax. unfold start.
        repeat (apply elem_of_cons in Htax as [->|Htax]; [done|]).
        by apply elem_of_nil in Htax. }
      rewrite Hstart in Hsum. rewrite Hsum. f_equal. ring.
    + assert (Hstart : start !! tax = None).
      { unfold report_taxes in Htax. unfold start.
        rewrite !lookup_insert_ne, lookup_singleton_ne; try done;
          intros <-; apply Htax; set_solver. }
      rewrite Hstart in Hsum. by apply Hsum.
Qed.



End ReportTotals.

Lemma report_totals_are_sums_witness :
  let docs := [row_of Script.nfe_1000; row_of (Script.with_type "NFSE" Script.nfe_1000)] in
  exists taxSum w',
    generateTaxReport_totals Script.healthy docs Script.empty_world
    = (Returned (sum_of_values docs, taxSum), w') /\
    forall tax,
      taxSum !! tax
      = if decide (tax ∈ report_taxes) then Some (sum_of_tax Script.healthy tax docs)
        else None.
Proof.
  intros docs.
  apply (report_totals_are_sums Script.healthy docs Script.empty_world).
  repeat constructor.
Defined.


(** ** The gazette monitor *)

Lemma includes_unfold s t :
  includes s t = String.prefix t s ||
                 match s with
                 | String _ rest => includes rest t
                 | EmptyString => false
                 end.
Proof. by destruct s. Qed.

Lemma prefix_nil s : String.prefix "" s = true.
Proof. by destruct s. Qed.

Lemma prefix_app t s q : String.prefix t s = true -> String.prefix t (s +:+ q) = true.
Proof.
  revert s. induction t as [|a t IH]; intros s Hs; [apply prefix_nil|].
  destruct s as [|b s]; simpl in *; [done|].
  destruct (ascii_dec a b); [by apply IH|done].
Qed.

Lemma prefix_here t q : String.prefix t (t +:+ q) = true.
Proof.
  induction t as [|a t IH]; simpl; [apply prefix_nil|].
  by destruct (ascii_dec a a).
Qed.

Lemma includes_here t q : includes (t +:+ q) t = true.
Proof. by rewrite includes_unfold, prefix_here. Qed.

Lemma includes_app_r p s t : includes s t = true -> includes (p +:+ s) t = true.
Proof.
  intros Hs. induction p as [|a p IH]; simpl; [done|].
  rewrite IH. apply orb_true_r.
Qed.

Lemma includes_app_l s q t : includes s t = true -> includes (s +:+ q) t = true.
Proof.
  induction s as [|a s IH]; intros Hs.
  - simpl in Hs. rewrite orb_false_r in Hs. destruct t; [|done].
    simpl. by rewrite includes_unfold, prefix_nil.
  - rewrite includes_unfold in Hs. apply orb_true_iff in Hs as [Hp|Hr].
    + rewrite includes_unfold, (prefix_app _ _ q Hp). done.
    + simpl. rewrite (IH Hr). apply orb_true_r.
Qed.

Lemma includes_concat sep l x t :
  x ∈ l -> includes x t = true -> includes (String.concat sep l) t = true.
Proof.
  intros Hx Ht. induction l as [|y l IH]; [by apply elem_of_nil in Hx|].
  apply elem_of_cons in Hx as [<-|Hx].
  - destruct l; simpl; [done|]. by apply includes_app_l.
  - destruct l as [|z l]; [by apply elem_of_nil in Hx|].
    change (String.concat sep (y :: z :: l))
      with (y +:+ sep +:+ String.concat sep (z :: l)).
    apply includes_app_r, includes_app_r. by apply IH.
Qed.

Lemma N_bind_run {A B} (m : N A) (k : A -> N B) s :
  (m ≫= k) s = match m s with
               | (Returned a, s') => k a s'
               | (Thrown e, s') => (Thrown e, s')
               | (Unmodelled, s') => (Unmodelled, s')
               end.
Proof. done. Qed.

Section GazetteMonitor.

Context (env : Env) (gazette : Gazette).

Lemma notification_names_every_update taxUpdates u :
  u ∈ taxUpdates -> includes (notification taxUpdates) (title u) = true.
Proof.
  intros Hu. unfold notification.
  do 3 apply includes_app_r.
  apply includes_concat with ("- " +:+ title u +:+ nl +:+ template (link u)).
  - by apply (list_elem_of_fmap_2 (fun u => "- " +:+ title u +:+ nl +:+ template (link u))).
  - apply includes_app_r, includes_here.
Qed.

Lemma notify_run users taxUpdates s :
  (forall user, user ∈ users ->
     client_sendMessage gazette (whatsappId user) (notification taxUpdates) = inr tt) ->
  notify gazette users taxUpdates s
  = (Returned tt, delivered s (deliveries users (notification taxUpdates))).
Proof.
  revert s. induction users as [|user rest IH]; intros s Hok; simpl.
  - unfold delivered. simpl. rewrite app_nil_r. by destruct s.
  - rewrite N_bind_run. unfold sendMessage at 1. rewrite (Hok user) by left.
    rewrite IH by (intros u Hu; apply Hok; by right).
    unfold delivered. simpl. by rewrite <- app_assoc.
Qed.

Lemma notify_stops before user after taxUpdates s e :
  (forall u, u ∈ before ->
     client_sendMessage gazette (whatsappId u) (notification taxUpdates) = inr tt) ->
  client_sendMessage gazette (whatsappId user) (notification taxUpdates) = inl e ->
  notify gazette (before ++ user :: after) taxUpdates s
  = (Thrown e, delivered s (deliveries before (notification taxUpdates))).
Proof.
  revert s. induction before as [|u rest IH]; intros s Hok Hfail; simpl.
  - rewrite N_bind_run. unfold sendMessage at 1. rewrite Hfail.
    unfold delivered. simpl. rewrite app_nil_r. by destruct s.
  - rewrite N_bind_run. unfold sendMessage at 1. rewrite (Hok u) by left.
    rewrite IH; [|intros u' Hu'; apply Hok; by right|done].
    unfold delivered. simpl. by rewrite <- app_assoc.
Qed.

(** The first steps of the monitor, when the feed answers. *)
Lemma checkForTaxUpdates_unfold s data updates :
  axios_get env gazette_url = inr data ->
  diary_items gazette data = inr updates ->
  checkForTaxUpdates env gazette s
  = (if (0 <? length (tax_updates env updates))%nat then
       users ← awaitN (db_all_users gazette);
       notify gazette users (tax_updates env updates);;
       mret (tax_updates env updates)
     else mret (tax_updates env updates)) (visited s).
Proof.
  intros Hget Hitems. unfold checkForTaxUpdates. rewrite N_bind_run.
  unfold lift, monitorDiarioOficial, http_get. cbv zeta. fold gazette_url.
  rewrite !bind_run. simpl. rewrite Hget. simpl. rewrite !bind_run, Hitems. reflexivity.
Qed.

(** X23.  When the feed shows tax updates and every delivery succeeds,
    checkForTaxUpdates returns exactly the entries whose lower-cased title
    contains "tribut", "fiscal" or "imposto", in the order of the page, and
    every user of the users table receives one message, the same for all,
    which names every one of those entries; one request is made. *)
Theorem checkForTaxUpdates_notifies_every_user s data updates users :
  axios_get env gazette_url = inr data ->
  diary_items gazette data = inr updates ->
  tax_updates env updates <> [] ->
  db_all_users gazette = inr users ->
  (forall user, user ∈ users ->
     client_sendMessage gazette (whatsappId user)
       (notification (tax_updates env updates)) = inr tt) ->
  checkForTaxUpdates env gazette s
  = (Returned (tax_updates env updates),
     delivered (visited s) (deliveries users (notification (tax_updates env updates)))) /\
  forall u, u ∈ tax_updates env updates ->
    includes (notification (tax_updates env updates)) (title u) = true.
Proof.
  intros Hget Hitems Hsome Husers Hok. split; [|apply notification_names_every_update].
  rewrite (checkForTaxUpdates_unfold s data updates Hget Hitems).
  destruct (tax_updates env updates) as [|u us] eqn:E; [done|].
  cbn [length Nat.ltb Nat.leb]. rewrite N_bind_run. unfold awaitN at 1. rewrite Husers.
  rewrite N_bind_run, notify_run by done. reflexivity.
Qed.

(** X24.  Without tax updates nobody is contacted: when no title of the
    feed contains one of the three stems, checkForTaxUpdates returns the
    empty list and sends nothing, whatever the state of the users table
    and of the client. *)
Theorem checkForTaxUpdates_silent_without_tax_news s data updates :
  axios_get env gazette_url = inr data ->
  diary_items gazette data = inr updates ->
  (forall u, u ∈ updates -> is_tax_update env u = false) ->
  checkForTaxUpdates env gazette s = (Returned [], visited s).
Proof.
  intros Hget Hitems Hnone.
  rewrite (checkForTaxUpdates_unfold s data updates Hget Hitems).
  assert (Hempty : tax_updates env updates = []).
  { unfold tax_updates. clear Hitems. induction updates as [|u us IH]; [done|].
    simpl. rewrite (Hnone u) by left. apply IH. intros u' Hu'. apply Hnone. by right. }
  by rewrite Hempty.
Qed.

(** X25.  One failed delivery ends the notifications: when the client
    fails for a user, checkForTaxUpdates throws that error, the users
    before that one in the table have received the message, and no user
    after that one receives anything. *)
Theorem checkForTaxUpdates_stops_at_first_failure s data updates before user after e :
  axios_get env gazette_url = inr data ->
  diary_items gazette data = inr updates ->
  tax_updates env updates <> [] ->
  db_all_users gazette = inr (before ++ user :: after)%list ->
  (forall u, u ∈ before ->
     client_sendMessage gazette (whatsappId u)
       (notification (tax_updates env updates)) = inr tt) ->
  client_sendMessage gazette (whatsappId user)
    (notification (tax_updates env updates)) = inl e ->
  checkForTaxUpdates env gazette s
  = (Thrown e,
     delivered (visited s) (deliveries before (notification (tax_updates env updates)))).
Proof.
  intros Hget Hitems Hsome Husers Hok Hfail.
  rewrite (checkForTaxUpdates_unfold s data updates Hget Hitems).
  destruct (tax_updates env updates) as [|u us] eqn:E; [done|].
  cbn [length Nat.ltb Nat.leb]. rewrite N_bind_run. unfold awaitN at 1. rewrite Husers.
  by rewrite N_bind_run, (notify_stops before user after _ _ e Hok Hfail).
Qed.

End GazetteMonitor.

Lemma checkForTaxUpdates_notifies_every_user_witness :
  let gazette := scripted_gazette tax_feed "" in
  let s := mkSession Script.empty_world [] in
  length (tax_updates Script.healthy tax_feed) = 2%nat /\
  checkForTaxUpdates Script.healthy gazette s
  = (Returned (tax_updates Script.healthy tax_feed),
     delivered (visited s)
       (deliveries [first_user; second_user]
          (notification (tax_updates Script.healthy tax_feed)))) /\
  forall u, u ∈ tax_updates Script.healthy tax_feed ->
    includes (notification (tax_updates Script.healthy tax_feed)) (title u) = true.
Proof.
  intros gazette s. split; [by vm_compute|].
  apply (checkForTaxUpdates_notifies_every_user Script.healthy gazette s
           (Some (JObj [("valido", JBool true)])) tax_feed
           [first_user; second_user] eq_refl eq_refl).
  - by vm_compute.
  - reflexivity.
  - intros user Hu.
    repeat (apply elem_of_cons in Hu as [->|Hu]; [reflexivity|]).
    by apply elem_of_nil in Hu.
Defined.

Lemma checkForTaxUpdates_silent_without_tax_news_witness :
  let feed := [mkUpdate "Nomeação de servidores" (Some "/diarios/2")] in
  let gazette := scripted_gazette feed "" in
  let s := mkSession Script.empty_world [] in
  checkForTaxUpdates Script.healthy gazette s = (Returned [], visited s).
Proof.
  intros feed gazette s.
  apply (checkForTaxUpdates_silent_without_tax_news Script.healthy gazette s
           (Some (JObj [("valido", JBool true)])) feed eq_refl eq_refl).
  intros u Hu. apply list_elem_of_singleton in Hu as ->. by vm_compute.
Defined.

Lemma checkForTaxUpdates_stops_at_first_failure_witness :
  let gazette := scripted_gazette tax_feed "5511999990002@c.us" in
  let s := mkSession Script.empty_world [] in
  checkForTaxUpdates Script.healthy gazette s
  = (Thrown (ServiceError "whatsapp"),
     delivered (visited s)
       (deliveries [first_user] (notification (tax_updates Script.healthy tax_feed)))).
Proof.
  intros gazette s.
  apply (checkForTaxUpdates_stops_at_first_failure Script.healthy gazette s
           (Some (JObj [("valido", JBool true)])) tax_feed
           [first_user] second_user [] (ServiceError "whatsapp") eq_refl eq_refl).
  - by vm_compute.
  - reflexivity.
  - intros u Hu. apply list_elem_of_singleton in Hu as ->. reflexivity.
  - reflexivity.
Defined.

(** ** The tax simulation *)







